(** * CivicLens: complaint triage, escalation, assignment and hotspots

    A shallow embedding of the algorithmic core of the CivicLens backend
    ([app/services/ai_service.py], [app/services/complaint_service.py] and
    the hotspot endpoint of [app/api/analytics.py]) together with the
    properties its design document states about it.

    Conventions of the embedding.
    - Python [int] is [Z]; Python [float] is idealised as an exact rational
      [Q] (no binary rounding error); numeric results are compared with
      [==] ([Qeq]).  Where a value is rounded ([round(x, n)]), the double
      the program rounds can lie on the other side of a decimal tie than
      the exact rational does; statements about rounded values therefore
      bound them and do not fix the direction of a tie.
    - Python [str] is [string], one character per ASCII code point;
      [str.lower] is modelled on ASCII letters, which is what it does on an
      ASCII text ([Py.isascii]).  Outside ASCII [str.lower] follows the
      Unicode database, which is not modelled.
    - Timestamps ([datetime]) are [Z] microseconds since the epoch; the
      clock readings of one call are taken as one instant.
    - A nullable column is an [option]; an operation that raises returns
      [Py.Raise].
    - A database table is the list of its rows, a row is a record that
      carries its primary key [id]; an ORM object handed to a service method
      is designated by its primary key, so two Python references to the same
      row are the same key. *)

From Stdlib Require Import List String Ascii ZArith QArith Qround Bool Lia Lqa.
From Stdlib Require Import Sorting.Sorted Sorting.Permutation.
From Stdlib Require Import Qabs.
Import ListNotations.

Local Open Scope string_scope.
Local Open Scope Z_scope.
Local Open Scope Q_scope.

(* ------------------------------------------------------------------ *)
(** ** Python builtins used by the services *)

Module Py.

(** [min(a, b)] on floats: the first argument wins a tie. *)
Definition min (a b : Q) : Q := if Qle_bool a b then a else b.

(** [round(x)]: nearest integer, ties to the even neighbour. *)
Definition round (x : Q) : Z :=
  let f := Qfloor x in
  match ((x - inject_Z f) ?= (1 # 2))%Q with
  | Lt => f
  | Gt => (f + 1)%Z
  | Eq => if Z.even f then f else (f + 1)%Z
  end.

(** [round(x, ndigits)] for [ndigits >= 0]. *)
Definition round_to (x : Q) (ndigits : nat) : Q :=
  let scale := (10 ^ Z.of_nat ndigits)%Z in
  inject_Z (round (x * inject_Z scale)) / inject_Z scale.

(** [c.lower()] on one character (ASCII letters only). *)
Definition lower_ascii (c : ascii) : ascii :=
  let n := nat_of_ascii c in
  if ((65 <=? n) && (n <=? 90))%nat then ascii_of_nat (n + 32) else c.

(** [s.lower()]. *)
Fixpoint lower (s : string) : string :=
  match s with
  | EmptyString => EmptyString
  | String c rest => String (lower_ascii c) (lower rest)
  end.


(** [kw in s] on strings: [kw] occurs in [s] as a contiguous substring. *)
Fixpoint contains (kw s : string) : bool :=
  String.prefix kw s ||
  match s with
  | EmptyString => false
  | String _ rest => contains kw rest
  end.

(** [sum(1 for kw in keywords if kw in text)]. *)
Definition count_in (keywords : list string) (text : string) : Z :=
  Z.of_nat (List.length (filter (fun kw => contains kw text) keywords)).

(** [a > b] on floats. *)
Definition gt (a b : Q) : bool := negb (Qle_bool a b).

(** The exceptions the modelled code can raise, and the outcome of a
    call: the value it returns or the exception it raises. *)
Inductive exn : Type := TypeError.

Inductive result (A : Type) : Type :=
| Return (value : A)
| Raise (e : exn).

Arguments Return {A} value.
Arguments Raise {A} e.

(** [x in xs] for a list of strings. *)
Definition in_list (x : string) (xs : list string) : bool :=
  existsb (String.eqb x) xs.

(** [d.get(k, default)] for a dict with string keys given as its items. *)
Fixpoint dict_get {V : Type} (d : list (string * V)) (k : string) (default : V) : V :=
  match d with
  | [] => default
  | (k', v) :: rest => if String.eqb k' k then v else dict_get rest k default
  end.

(** [sum(d.values())] for an insertion-ordered dict of integer values. *)
Definition sum_values {K : Type} (d : list (K * Z)) : Z :=
  fold_left (fun acc kv => (acc + snd kv)%Z) d 0%Z.

(** [max(d, key=d.get)] for a non-empty dict given as its first item and
    the remaining items: the first key, in iteration order, that carries
    the greatest value. *)
Fixpoint max_item {K : Type} (best : K * Z) (items : list (K * Z)) : K * Z :=
  match items with
  | [] => best
  | kv :: rest =>
      if (snd best <? snd kv)%Z then max_item kv rest else max_item best rest
  end.

End Py.

(* ------------------------------------------------------------------ *)
(** ** [app/services/ai_service.py] *)

Module AIService.

(** [self.categories] *)
Definition categories : list string :=
  ["roads"; "water"; "sanitation"; "safety"; "electricity";
   "public_transport"; "environment"; "other"].

(** [self.urgency_keywords], one definition per tier. *)
Definition urgency_critical : list string :=
  ["emergency"; "urgent"; "danger"; "life threatening"; "fire";
   "accident"; "flood"; "collapsed"; "explosion"; "gas leak";
   "electrocution"; "drowning"; "death"; "injured"].

Definition urgency_high : list string :=
  ["immediate"; "severe"; "major"; "broken"; "blocked";
   "overflow"; "leakage"; "exposure"; "hazard"; "risk";
   "children"; "elderly"; "disabled"; "hospital"; "school"].

Definition urgency_medium : list string :=
  ["damaged"; "poor"; "problem"; "issue"; "concern";
   "inconvenience"; "delay"; "irregular"; "complaint"].

Definition urgency_low : list string :=
  ["minor"; "small"; "slight"; "cosmetic"; "suggestion";
   "improvement"; "future"; "eventually"].

(** [self.category_keywords], in the dict's insertion order. *)
Definition category_keywords : list (string * list string) :=
  [ ("roads",
     ["road"; "pothole"; "street"; "highway"; "pavement"; "sidewalk";
      "traffic"; "signal"; "footpath"; "crossing"; "bridge"; "asphalt"]);
    ("water",
     ["water"; "pipeline"; "tap"; "supply"; "drinking"; "tank";
      "bore"; "well"; "pump"; "contaminated"; "dirty water"]);
    ("sanitation",
     ["garbage"; "waste"; "sewage"; "drain"; "toilet"; "trash";
      "cleaning"; "dustbin"; "sweeping"; "stench"; "smell"; "hygiene"]);
    ("safety",
     ["crime"; "theft"; "robbery"; "harassment"; "police"; "security";
      "unsafe"; "dark"; "lighting"; "cctv"; "patrol"; "violence"]);
    ("electricity",
     ["power"; "electric"; "outage"; "blackout"; "transformer";
      "wire"; "cable"; "meter"; "voltage"; "short circuit"; "pole"]);
    ("public_transport",
     ["bus"; "metro"; "train"; "transport"; "station"; "stop";
      "schedule"; "route"; "ticket"; "fare"; "overcrowded"]);
    ("environment",
     ["tree"; "park"; "pollution"; "noise"; "air quality"; "green";
      "garden"; "plant"; "animal"; "stray"; "mosquito"; "pest"]) ].

(** The loop of [classify_category] that fills [category_scores]: one
    entry per category with a positive score, in table order. *)
Fixpoint score_categories (table : list (string * list string))
         (text_lower : string) : list (string * Z) :=
  match table with
  | [] => []
  | (category, keywords) :: rest =>
      let score := Py.count_in keywords text_lower in
      if (0 <? score)%Z
      then (category, score) :: score_categories rest text_lower
      else score_categories rest text_lower
  end.

Definition classify_category (text : string) : string * Q :=
  let text_lower := Py.lower text in
  let category_scores := score_categories category_keywords text_lower in
  match category_scores with
  | first :: rest =>
      let best := Py.max_item first rest in
      let best_category := fst best in
      let max_score := snd best in
      let total_score := Py.sum_values category_scores in
      let confidence :=
        if (0 <? total_score)%Z
        then inject_Z max_score / inject_Z total_score
        else 0.5 in
      (best_category, Py.min confidence 0.9)
  | [] => ("other", 0.3)
  end.

(** The [for keyword in ...: if keyword in text_lower: return 1.0] loop:
    [true] when the loop returns early. *)
Fixpoint critical_hit (keywords : list string) (text_lower : string) : bool :=
  match keywords with
  | [] => false
  | keyword :: rest =>
      if Py.contains keyword text_lower then true
      else critical_hit rest text_lower
  end.

Definition calculate_keyword_urgency (text : string) : Q :=
  let text_lower := Py.lower text in
  if critical_hit urgency_critical text_lower then 1.0
  else
    let critical_count := Py.count_in urgency_critical text_lower in
    let high_count := Py.count_in urgency_high text_lower in
    let medium_count := Py.count_in urgency_medium text_lower in
    let low_count := Py.count_in urgency_low text_lower in
    let score :=
      inject_Z critical_count * 1.0 + inject_Z high_count * 0.7
      + inject_Z medium_count * 0.4 + inject_Z low_count * 0.1 in
    let total := (critical_count + high_count + medium_count + low_count)%Z in
    if (0 <? total)%Z then Py.min (score / inject_Z total) 1.0
    else 0.3.

Definition calculate_location_importance (latitude longitude : Q) : Q := 0.5.

Definition get_nearby_complaint_factor
           (latitude longitude : Q) (category : string) : Q := 0.3.

(** The [SEVERITY_WEIGHTS] dict. *)
Record Weights := mkWeights {
  keyword_urgency : Q;
  nearby_complaints : Q;
  time_unresolved : Q;
  location_importance : Q
}.

(** [config/settings.py], [Config.SEVERITY_WEIGHTS]; the same values are
    the fallback written in [calculate_severity_score]. *)
Definition SEVERITY_WEIGHTS : Weights := mkWeights 0.3 0.2 0.2 0.3.

Definition calculate_severity_score (weights : Weights) (text category : string)
           (latitude longitude time_unresolved_hours : Q) : Q :=
  let keyword_score := calculate_keyword_urgency text in
  let location_score := calculate_location_importance latitude longitude in
  let nearby_score := get_nearby_complaint_factor latitude longitude category in
  let time_factor := Py.min (time_unresolved_hours / 168) 1.0 in
  let severity :=
    keyword_urgency weights * keyword_score
    + nearby_complaints weights * nearby_score
    + time_unresolved weights * time_factor
    + location_importance weights * location_score in
  Py.round_to (Py.min severity 1.0) 3.

Definition get_priority_from_score (severity_score : Q) : string :=
  if Qle_bool 0.8 severity_score then "critical"
  else if Qle_bool 0.6 severity_score then "high"
  else if Qle_bool 0.4 severity_score then "medium"
  else "low".

(** The dict returned by [process_complaint]. *)
Record Processed := mkProcessed {
  p_category : string;
  p_ai_category : string;
  p_confidence : Q;
  p_severity_score : Q;
  p_priority : string
}.

(** [category] is the optional user-supplied label; the severity call
    uses the default [time_unresolved_hours = 0]. *)
Definition process_complaint (weights : Weights) (text : string)
           (category : option string) (latitude longitude : Q) : Processed :=
  let '(ai_category, confidence) := classify_category text in
  let final_category :=
    match category with
    | Some c => if Py.in_list c categories then c else ai_category
    | None => ai_category
    end in
  let severity_score :=
    calculate_severity_score weights text final_category latitude longitude 0 in
  let priority := get_priority_from_score severity_score in
  mkProcessed final_category ai_category (Py.round_to confidence 3)
              severity_score priority.

End AIService.


(* ------------------------------------------------------------------ *)
(** ** [app/models/models.py]: the columns the services read and write *)

Module User.
Record t := mk {
  id : Z;
  role : string;
  department : option string;
  is_active : bool
}.
End User.

Module Complaint.
(** [severity_score] is a nullable column (its default, 0.5, applies when a
    row is inserted without a value); [updated_at] is set on insertion and
    by every UPDATE of the row ([onupdate=datetime.utcnow]). *)
Record t := mk {
  id : Z;
  category : string;
  latitude : Q;
  longitude : Q;
  status : string;
  priority : string;
  severity_score : option Q;
  officer_id : option Z;
  department : option string;
  created_at : Z;
  updated_at : option Z;
  escalated_at : option Z;
  is_duplicate : bool;
  duplicate_of_id : option Z;
  escalation_level : Z
}.

(** Attribute assignments [complaint.<column> = v]. *)
Definition set_escalation_level (v : Z) (c : t) : t :=
  mk (id c) (category c) (latitude c) (longitude c) (status c) (priority c)
     (severity_score c) (officer_id c) (department c) (created_at c)
     (updated_at c) (escalated_at c) (is_duplicate c) (duplicate_of_id c) v.

Definition set_escalated_at (v : option Z) (c : t) : t :=
  mk (id c) (category c) (latitude c) (longitude c) (status c) (priority c)
     (severity_score c) (officer_id c) (department c) (created_at c)
     (updated_at c) v (is_duplicate c) (duplicate_of_id c) (escalation_level c).

Definition set_officer_id (v : option Z) (c : t) : t :=
  mk (id c) (category c) (latitude c) (longitude c) (status c) (priority c)
     (severity_score c) v (department c) (created_at c)
     (updated_at c) (escalated_at c) (is_duplicate c) (duplicate_of_id c)
     (escalation_level c).

Definition set_is_duplicate (v : bool) (c : t) : t :=
  mk (id c) (category c) (latitude c) (longitude c) (status c) (priority c)
     (severity_score c) (officer_id c) (department c) (created_at c)
     (updated_at c) (escalated_at c) v (duplicate_of_id c) (escalation_level c).

Definition set_duplicate_of_id (v : option Z) (c : t) : t :=
  mk (id c) (category c) (latitude c) (longitude c) (status c) (priority c)
     (severity_score c) (officer_id c) (department c) (created_at c)
     (updated_at c) (escalated_at c) (is_duplicate c) v (escalation_level c).

Definition set_severity_score (v : option Q) (c : t) : t :=
  mk (id c) (category c) (latitude c) (longitude c) (status c) (priority c)
     v (officer_id c) (department c) (created_at c)
     (updated_at c) (escalated_at c) (is_duplicate c) (duplicate_of_id c)
     (escalation_level c).

Definition set_status (v : string) (c : t) : t :=
  mk (id c) (category c) (latitude c) (longitude c) v (priority c)
     (severity_score c) (officer_id c) (department c) (created_at c)
     (updated_at c) (escalated_at c) (is_duplicate c) (duplicate_of_id c)
     (escalation_level c).

(** The write of the [onupdate] default. *)
Definition set_updated_at (v : option Z) (c : t) : t :=
  mk (id c) (category c) (latitude c) (longitude c) (status c) (priority c)
     (severity_score c) (officer_id c) (department c) (created_at c)
     v (escalated_at c) (is_duplicate c) (duplicate_of_id c) (escalation_level c).

(** Column-wise comparison of two states of a row, as the unit of work
    compares an attribute with its loaded value ([==]). *)
Definition opt_eqb {A : Type} (eqb : A -> A -> bool) (a b : option A) : bool :=
  match a, b with
  | Some x, Some y => eqb x y
  | None, None => true
  | _, _ => false
  end.

Definition eqb (a b : t) : bool :=
  (id a =? id b)%Z
  && String.eqb (category a) (category b)
  && Qeq_bool (latitude a) (latitude b)
  && Qeq_bool (longitude a) (longitude b)
  && String.eqb (status a) (status b)
  && String.eqb (priority a) (priority b)
  && opt_eqb Qeq_bool (severity_score a) (severity_score b)
  && opt_eqb Z.eqb (officer_id a) (officer_id b)
  && opt_eqb String.eqb (department a) (department b)
  && (created_at a =? created_at b)%Z
  && opt_eqb Z.eqb (updated_at a) (updated_at b)
  && opt_eqb Z.eqb (escalated_at a) (escalated_at b)
  && Bool.eqb (is_duplicate a) (is_duplicate b)
  && opt_eqb Z.eqb (duplicate_of_id a) (duplicate_of_id b)
  && (escalation_level a =? escalation_level b)%Z.

(** The row a flush leaves, given the row as it was loaded ([before]) and
    the row with the pending attribute writes ([after]): when a column
    changed the ORM issues an UPDATE, which also sets [updated_at] to
    [datetime.utcnow()]; a row without a change is not written. *)
Definition flushed (now : Z) (before after : t) : t :=
  if eqb before after then after else set_updated_at (Some now) after.
End Complaint.

(** The [complaints] table and the session's view of it. *)
Module Table.

Definition t := list Complaint.t.

(** The row with primary key [key], if any. *)
Fixpoint get (key : Z) (rows : t) : option Complaint.t :=
  match rows with
  | [] => None
  | c :: rest => if (Complaint.id c =? key)%Z then Some c else get key rest
  end.

(** Attribute writes through an ORM object: the row with primary key
    [key] is replaced by [f] of it. *)
Definition update (key : Z) (f : Complaint.t -> Complaint.t) (rows : t) : t :=
  map (fun c => if (Complaint.id c =? key)%Z then f c else c) rows.

(** [Complaint.query.filter(...).count()] *)
Definition count (p : Complaint.t -> bool) (rows : t) : Z :=
  Z.of_nat (List.length (filter p rows)).

End Table.

(* ------------------------------------------------------------------ *)
(** ** [app/services/complaint_service.py] *)

Module ComplaintService.

Definition opt_Z_eqb (a : option Z) (b : Z) : bool :=
  match a with Some x => (x =? b)%Z | None => false end.

(** The [thresholds] dict of [check_escalation] (hours). *)
Definition thresholds : list (string * Z) :=
  [("critical", 4%Z); ("high", 24%Z); ("medium", 72%Z); ("low", 168%Z)].

(** [(now - created_at).total_seconds() / 3600] with timestamps in
    microseconds. *)
Definition hours_between (now created_at : Z) : Q :=
  inject_Z (now - created_at) / 1000000 / 3600.

(** [check_escalation]; [now] is the reading of [datetime.utcnow()], the
    result is the returned flag and the complaint after the call. *)
Definition check_escalation (now : Z) (complaint : Complaint.t)
  : bool * Complaint.t :=
  if Py.in_list (Complaint.status complaint) ["resolved"; "closed"]
  then (false, complaint)
  else
    let threshold_hours :=
      Py.dict_get thresholds (Complaint.priority complaint) 72%Z in
    let hours_pending := hours_between now (Complaint.created_at complaint) in
    if Py.gt hours_pending (inject_Z threshold_hours)
       && (Complaint.escalation_level complaint =? 0)%Z
    then (true,
          Complaint.set_escalated_at (Some now)
            (Complaint.set_escalation_level 1%Z complaint))
    else if Py.gt hours_pending (inject_Z (threshold_hours * 2))
            && (Complaint.escalation_level complaint =? 1)%Z
    then (true, Complaint.set_escalation_level 2%Z complaint)
    else (false, complaint).

(** The filter of the driver's query:
    [Complaint.status.in_(['pending', 'in_progress'])]. *)
Definition is_open (c : Complaint.t) : bool :=
  Py.in_list (Complaint.status c) ["pending"; "in_progress"].

(** [run_escalation_check]: every row selected by the query goes through
    [check_escalation], which writes to that row; the other rows are left
    as they are.  The result is [escalated_count] and the table after
    [db.session.commit()], which flushes the rows that were written. *)
Fixpoint run_escalation_check (now : Z) (complaints : Table.t) : Z * Table.t :=
  match complaints with
  | [] => (0%Z, [])
  | complaint :: rest =>
      let '(escalated_count, rest') := run_escalation_check now rest in
      if is_open complaint then
        let '(escalated, complaint') := check_escalation now complaint in
        ((if escalated then 1 else 0) + escalated_count,
         Complaint.flushed now complaint complaint' :: rest')%Z
      else (escalated_count, complaint :: rest')
  end.

(** The query of [auto_assign_complaint]:
    [User.query.filter_by(role='officer', department=..., is_active=True)],
    in the order the rows come back. *)
Definition officers_of (department : string) (users : list User.t) : list User.t :=
  filter (fun u =>
            String.eqb (User.role u) "officer"
            && match User.department u with
               | Some d => String.eqb d department
               | None => false
               end
            && User.is_active u) users.

(** [Complaint.query.filter(Complaint.officer_id == officer.id,
     Complaint.status.in_(['pending', 'in_progress'])).count()] *)
Definition pending_count (complaints : Table.t) (officer : User.t) : Z :=
  Table.count (fun c => opt_Z_eqb (Complaint.officer_id c) (User.id officer)
                        && is_open c) complaints.

(** One iteration of the selection loop; [min_load = None] stands for
    [float('inf')]. *)
Definition select_step (complaints : Table.t)
           (acc : option Z * option User.t) (officer : User.t)
  : option Z * option User.t :=
  let '(min_load, selected_officer) := acc in
  let count := pending_count complaints officer in
  let less := match min_load with
              | None => true
              | Some m => (count <? m)%Z
              end in
  if less then (Some count, Some officer) else (min_load, selected_officer).

(** [auto_assign_complaint]: the returned officer and the complaint after
    the call. *)
Definition auto_assign_complaint (users : list User.t) (complaints : Table.t)
           (complaint : Complaint.t) : option User.t * Complaint.t :=
  match Complaint.department complaint with
  | None => (None, complaint)
  | Some department =>
      if String.eqb department "" then (None, complaint)
      else
        let officers := officers_of department users in
        match officers with
        | [] => (None, complaint)
        | _ =>
            let '(_, selected_officer) :=
              fold_left (select_step complaints) officers (None, None) in
            match selected_officer with
            | Some officer =>
                (Some officer,
                 Complaint.set_officer_id (Some (User.id officer)) complaint)
            | None => (None, complaint)
            end
        end
  end.

(** The query of [mark_as_duplicate]:
    [Complaint.query.filter_by(duplicate_of_id=original.id).count()]. *)
Definition count_duplicates (original_id : Z) (rows : Table.t) : Z :=
  Table.count (fun c => opt_Z_eqb (Complaint.duplicate_of_id c) original_id) rows.

(** [mark_as_duplicate(complaint, original_complaint)], the two objects
    designated by their primary keys.  The result is what the call returns
    or raises, and the rows as the session holds them when the call ends
    (the method does not commit).

    The two attribute writes on [complaint] precede the count query.
    Whether the query sees them is a property of the SQLAlchemy session,
    which is not part of the service: with [autoflush] on (the library
    default, which [db = SQLAlchemy()] in [app/__init__.py] keeps) pending
    writes are flushed before a query runs, so the row just linked is
    written ([updated_at] included) and counted; with [autoflush] off the
    query reads the rows as they were.  The setting is a parameter of the
    model.  The boost reads [original_complaint.severity_score]: adding a
    float to [None] raises [TypeError], and the write on the original
    stays pending in the session. *)
Definition mark_as_duplicate (autoflush : bool) (now : Z) (rows : Table.t)
           (complaint original_complaint : Z) : Py.result bool * Table.t :=
  if (complaint =? original_complaint)%Z then (Py.Return false, rows)
  else
    let write c :=
      Complaint.set_duplicate_of_id (Some original_complaint)
        (Complaint.set_is_duplicate true c) in
    let rows1 :=
      Table.update complaint
        (fun c => if autoflush then Complaint.flushed now c (write c) else write c)
        rows in
    let duplicate_count :=
      count_duplicates original_complaint (if autoflush then rows1 else rows) in
    if (0 <? duplicate_count)%Z then
      let boost := Py.min (inject_Z duplicate_count * 0.1) 0.3 in
      match Table.get original_complaint rows1 with
      | Some original =>
          match Complaint.severity_score original with
          | Some severity =>
              (Py.Return true,
               Table.update original_complaint
                 (Complaint.set_severity_score
                    (Some (Py.min (severity + boost) 1.0))) rows1)
          | None => (Py.Raise Py.TypeError, rows1)
          end
      | None => (Py.Return true, rows1)
      end
    else (Py.Return true, rows1).

End ComplaintService.

(* ------------------------------------------------------------------ *)
(** ** [app/api/analytics.py]: the hotspot endpoint *)

Module Cluster.
(** A value of the [clusters] dict while the complaints are accumulated;
    [avg_severity] holds the running sum until it is finalized. *)
Record t := mk {
  lat : Q;
  lng : Q;
  count : Z;
  avg_severity : Q;
  categories : list (string * Z)
}.
End Cluster.

Module Hotspot.
(** An entry of the returned [hotspots] list. *)
Record t := mk {
  lat : Q;
  lng : Q;
  count : Z;
  avg_severity : Q;
  top_category : option string
}.
End Hotspot.

Module Analytics.


















End Analytics.

(* ------------------------------------------------------------------ *)
(** ** Reference definitions, worded as the design document words them *)

Module Reference.

(** The order of the priority tiers: low < medium < high < critical. *)
Definition priority_rank (p : string) : nat :=
  if String.eqb p "critical" then 3
  else if String.eqb p "high" then 2
  else if String.eqb p "medium" then 1
  else 0.

(** A capital letter, [A] to [Z]. *)
Definition capital (c : ascii) : Prop :=
  (65 <= nat_of_ascii c <= 90)%nat.


(** Two texts that differ only in the case of letters. *)
Inductive case_variant : string -> string -> Prop :=
| case_variant_end : case_variant EmptyString EmptyString
| case_variant_same (c : ascii) (s t : string) :
    case_variant s t -> case_variant (String c s) (String c t)
| case_variant_lower (c c' : ascii) (s t : string) :
    capital c -> nat_of_ascii c' = (nat_of_ascii c + 32)%nat ->
    case_variant s t -> case_variant (String c s) (String c' t)
| case_variant_upper (c c' : ascii) (s t : string) :
    capital c -> nat_of_ascii c' = (nat_of_ascii c + 32)%nat ->
    case_variant s t -> case_variant (String c' s) (String c t).



(** The total of all categories' keyword counts on a lower-cased text. *)
Definition total_score (text_lower : string) : Z :=
  fold_right Z.add 0%Z
    (map (fun entry => Py.count_in (snd entry) text_lower)
         AIService.category_keywords).

(** The escalation threshold of a priority, in hours: critical 4, high 24,
    medium 72, low 168, and 72 for any other priority. *)
Definition threshold (priority : string) : Z :=
  if String.eqb priority "critical" then 4
  else if String.eqb priority "high" then 24
  else if String.eqb priority "medium" then 72
  else if String.eqb priority "low" then 168
  else 72.

(** An open complaint still at level 0 although its age already exceeds
    twice the threshold of its priority. *)
Definition two_steps_behind (now : Z) (c : Complaint.t) : bool :=
  ComplaintService.is_open c
  && (Complaint.escalation_level c =? 0)%Z
  && Py.gt (ComplaintService.hours_between now (Complaint.created_at c))
           (inject_Z (Py.dict_get ComplaintService.thresholds
                                  (Complaint.priority c) 72%Z * 2)).

(** An active caseworker of a department. *)
Definition eligible (department : string) (u : User.t) : Prop :=
  User.role u = "officer"
  /\ User.department u = Some department
  /\ User.is_active u = true.

(** The open-assignment count of a caseworker: the complaints assigned to
    them whose status is pending or in progress. *)
Definition open_load (complaints : Table.t) (u : User.t) : Z :=
  Z.of_nat
    (List.length
       (filter (fun c =>
                  match Complaint.officer_id c with
                  | Some k => (k =? User.id u)%Z
                  | None => false
                  end
                  && (String.eqb (Complaint.status c) "pending"
                      || String.eqb (Complaint.status c) "in_progress"))
               complaints)).




(** The severity score of a complaint that has one (0 stands for a
    missing score), and the sum of the scores of some complaints. *)
Definition score (c : Complaint.t) : Q :=
  match Complaint.severity_score c with
  | Some severity => severity
  | None => 0
  end.




End Reference.

(* ------------------------------------------------------------------ *)
(** ** Vocabulary of the proofs *)

Module Invariants.
Import ComplaintService Analytics.

(** What the driver does to one row. *)
Definition step (now : Z) (c : Complaint.t) : bool * Complaint.t :=
  if is_open c
  then (fst (check_escalation now c),
        Complaint.flushed now c (snd (check_escalation now c)))
  else (false, c).

(** The two writes on the duplicate, and the row the session holds after
    them. *)
Definition link (original : Z) (c : Complaint.t) : Complaint.t :=
  Complaint.set_duplicate_of_id (Some original)
    (Complaint.set_is_duplicate true c).

Definition link_in_session (autoflush : bool) (now original : Z)
           (c : Complaint.t) : Complaint.t :=
  if autoflush then Complaint.flushed now c (link original c)
  else link original c.

(** The write on the original for a query result [count]. *)
Definition boosted (count : Z) (severity : Q) : Q :=
  Py.min (severity + Py.min (inject_Z count * 0.1) 0.3) 1.0.

(** Successive calls for the duplicates [dups] of one original. *)
Definition link_all (autoflush : bool) (now : Z) (rows : Table.t)
           (dups : list Z) (original : Z) : Table.t :=
  fold_left (fun r d => snd (mark_as_duplicate autoflush now r d original))
            dups rows.

Definition severity_of (key : Z) (rows : Table.t) : Q :=
  match Table.get key rows with
  | Some c => Reference.score c
  | None => 0
  end.








End Invariants.

(* ------------------------------------------------------------------ *)
(** ** Concrete scenarios *)

Module Scenarios.

(** [h] hours, in microseconds. *)
Definition hours (h : Z) : Z := (h * 3600 * 1000000)%Z.

(** A critical complaint (threshold 4 hours) created 9 hours before the
    check and still at level 0. *)
Definition nine_hours : Z := (9 * 3600 * 1000000)%Z.

Definition stale_critical : Complaint.t :=
  Complaint.mk 1%Z "safety" 0 0 "pending" "critical" (Some 0.5) None None
               0%Z None None false None 0%Z.

(** A complaint created at instant 0 with a given status, priority and
    escalation level, escalated (if it was) one hour after creation. *)
Definition created_at_0 (status priority : string) (level : Z) : Complaint.t :=
  Complaint.mk 1%Z "roads" 0 0 status priority (Some 0.5) None None
               0%Z None (if (level =? 0)%Z then None else Some (hours 1))
               false None level.

(** Three officers of one department whose open loads are 3, 1 and 1, in
    the order the query returns them. *)
Definition officer (i : Z) : User.t :=
  User.mk i "officer" (Some "Sanitation Department") true.

Definition assigned (i officer_id : Z) (status : string) : Complaint.t :=
  Complaint.mk i "sanitation" 0 0 status "medium" (Some 0.5) (Some officer_id)
               (Some "Sanitation Department") 0%Z None None false None 0%Z.

Definition loads_3_1_1 : Table.t :=
  [assigned 1 10 "pending"; assigned 2 10 "in_progress"; assigned 3 10 "pending";
   assigned 4 11 "pending"; assigned 5 12 "in_progress";
   assigned 6 11 "resolved"; assigned 7 12 "closed"].

Definition incoming : Complaint.t :=
  Complaint.mk 8%Z "sanitation" 0 0 "pending" "medium" (Some 0.5) None
               (Some "Sanitation Department") 0%Z None None false None 0%Z.

(** The users table around them: a citizen, an officer who is not active
    and an officer of another department, none of whom has an open
    complaint. *)
Definition citizen (i : Z) : User.t :=
  User.mk i "citizen" (Some "Sanitation Department") true.

Definition inactive_officer (i : Z) : User.t :=
  User.mk i "officer" (Some "Sanitation Department") false.

Definition water_officer (i : Z) : User.t :=
  User.mk i "officer" (Some "Water Supply Department") true.

Definition staff : list User.t :=
  [citizen 20; officer 10; inactive_officer 21; officer 11;
   water_officer 22; officer 12].

(** An original of severity 0.05 and four reports not linked yet. *)
Definition report (i : Z) (severity : Q) : Complaint.t :=
  Complaint.mk i "roads" 0 0 "pending" "low" (Some severity) None None
               0%Z None None false None 0%Z.

Definition five_reports : Table.t :=
  [report 1 0.05; report 2 0.3; report 3 0.3; report 4 0.3; report 5 0.3].

(** A report already linked onto an original. *)
Definition linked_report (i original : Z) : Complaint.t :=
  Complaint.mk i "roads" 0 0 "pending" "low" (Some 0.3) None None
               0%Z None None true (Some original) 0%Z.

(** An original of severity 0.5 with three duplicates, and a report not
    linked yet. *)
Definition three_linked : Table.t :=
  [report 1 0.5; linked_report 2 1; linked_report 3 1; linked_report 4 1;
   report 5 0.3].

(** An original stored without a severity score, with one duplicate, and
    a report not linked yet. *)
Definition unscored_original : Complaint.t :=
  Complaint.mk 1%Z "roads" 0 0 "pending" "low" None None None
               0%Z None None false None 0%Z.

Definition unscored : Table.t :=
  [unscored_original; linked_report 2 1; report 3 0.3].





End Scenarios.

(* ------------------------------------------------------------------ *)
(** ** [complaint_service.py]: department routing *)

Module Departments.

(** [ComplaintService.CATEGORY_DEPARTMENT_MAP] *)
Definition CATEGORY_DEPARTMENT_MAP : list (string * string) :=
  [ ("roads", "Public Works Department");
    ("water", "Water Supply Department");
    ("sanitation", "Sanitation Department");
    ("safety", "Public Safety Department");
    ("electricity", "Electricity Department");
    ("public_transport", "Transport Department");
    ("environment", "Environment Department");
    ("other", "General Administration") ].

Definition get_department_for_category (category : string) : string :=
  Py.dict_get CATEGORY_DEPARTMENT_MAP category "General Administration".

End Departments.

(* ------------------------------------------------------------------ *)
(** ** [complaint_service.py]: similar complaints in the vicinity *)

Module Vicinity.

(** [a < b] on floats. *)
Definition lt (a b : Q) : bool := negb (Qle_bool b a).

(** [get_similar_complaints]: the open complaints of the category inside
    the square of half-width [radius_km / 111] degrees around the point,
    in the order the rows come back. *)
Definition get_similar_complaints (complaints : Table.t)
           (latitude longitude : Q) (category : string) (radius_km : Q)
  : list Complaint.t :=
  filter (fun c =>
            String.eqb (Complaint.category c) category
            && ComplaintService.is_open c
            && lt (Qabs (Complaint.latitude c - latitude)) (radius_km / 111)
            && lt (Qabs (Complaint.longitude c - longitude)) (radius_km / 111))
         complaints.

End Vicinity.

(* ------------------------------------------------------------------ *)
(** ** [complaint_service.py]: workload by department *)

Module Workload.

(** A value of the returned dict. *)
Record t := mk {
  total : Z;
  pending : Z;
  in_progress : Z
}.

Definition department_eqb (a b : option string) : bool :=
  match a, b with
  | Some x, Some y => String.eqb x y
  | None, None => true
  | _, _ => false
  end.

(** The groups of [GROUP BY Complaint.department]: every department value
    of the table once ([NULL] is a group of its own), here in the order of
    first occurrence; SQL leaves the order open. *)
Fixpoint groups (seen : list (option string)) (complaints : Table.t)
  : list (option string) :=
  match complaints with
  | [] => []
  | c :: rest =>
      let d := Complaint.department c in
      if existsb (department_eqb d) seen then groups seen rest
      else d :: groups (d :: seen) rest
  end.

(** The three aggregates of one group. *)
Definition aggregate (complaints : Table.t) (d : option string) : t :=
  let in_group c := department_eqb (Complaint.department c) d in
  mk (Table.count in_group complaints)
     (Table.count (fun c => in_group c
                            && String.eqb (Complaint.status c) "pending")
                  complaints)
     (Table.count (fun c => in_group c
                            && String.eqb (Complaint.status c) "in_progress")
                  complaints).

(** [get_workload_summary]: the dict comprehension keeps the groups whose
    department is neither [None] nor empty. *)
Definition get_workload_summary (complaints : Table.t) : list (string * t) :=
  flat_map (fun d =>
              match d with
              | Some name =>
                  if String.eqb name "" then []
                  else [(name, aggregate complaints d)]
              | None => []
              end)
           (groups [] complaints).

End Workload.

(* ------------------------------------------------------------------ *)
(** ** [complaint_service.py]: resolution statistics and stale complaints *)

(** A row of [complaints] with the [resolved_at] column, which the
    services above do not read. *)
Module Resolved.
Record t := mk {
  complaint : Complaint.t;
  resolved_at : option Z
}.
End Resolved.

Module Resolution.

(** [timedelta(days=days)] in microseconds. *)
Definition days_us (days : Z) : Z := (days * 86400 * 1000000)%Z.

(** The filter of [close_stale_resolved]: [status == 'resolved'] and
    [resolved_at < threshold]; a row without [resolved_at] is not
    selected. *)
Definition is_stale (threshold : Z) (r : Resolved.t) : bool :=
  String.eqb (Complaint.status (Resolved.complaint r)) "resolved"
  && match Resolved.resolved_at r with
     | Some t => (t <? threshold)%Z
     | None => false
     end.

(** [close_stale_resolved]: the number of stale complaints and the table
    after [db.session.commit()], which flushes the rows that were
    written. *)
Definition close_stale_resolved (now days_threshold : Z) (rows : list Resolved.t)
  : Z * list Resolved.t :=
  let threshold := (now - days_us days_threshold)%Z in
  let stale_complaints := filter (is_stale threshold) rows in
  (Z.of_nat (List.length stale_complaints),
   map (fun r => if is_stale threshold r
                 then Resolved.mk
                        (Complaint.flushed now (Resolved.complaint r)
                           (Complaint.set_status "closed" (Resolved.complaint r)))
                        (Resolved.resolved_at r)
                 else r) rows).

(** The dict returned by [get_resolution_stats]. *)
Record Stats := mkStats {
  period_days : Z;
  total : Z;
  resolved : Z;
  resolution_rate : Q;
  avg_resolution_hours : Q
}.

(** [Complaint.resolved_at >= start_date]; false without [resolved_at]. *)
Definition resolved_since (start_date : Z) (r : Resolved.t) : bool :=
  match Resolved.resolved_at r with
  | Some t => (start_date <=? t)%Z
  | None => false
  end.

(** [extract('epoch', resolved_at - created_at) / 3600] of a resolved row. *)
Definition resolution_hours (r : Resolved.t) : Q :=
  match Resolved.resolved_at r with
  | Some t =>
      ComplaintService.hours_between t (Complaint.created_at (Resolved.complaint r))
  | None => 0
  end.

(** [func.avg(...)...scalar() or 0]: the mean over the selected rows, 0
    when there is none. *)
Definition avg_or_zero (values : list Q) : Q :=
  match values with
  | [] => 0
  | _ => fold_right Qplus 0 values / inject_Z (Z.of_nat (List.length values))
  end.

Definition get_resolution_stats (now days : Z) (rows : list Resolved.t) : Stats :=
  let start_date := (now - days_us days)%Z in
  let total :=
    Z.of_nat (List.length
      (filter (fun r => (start_date <=? Complaint.created_at (Resolved.complaint r))%Z)
              rows)) in
  let resolved := Z.of_nat (List.length (filter (resolved_since start_date) rows)) in
  let avg_time :=
    avg_or_zero (map resolution_hours (filter (resolved_since start_date) rows)) in
  mkStats days total resolved
    (if (0 <? total)%Z
     then Py.round_to (inject_Z resolved / inject_Z total * 100) 2
     else 0)
    (Py.round_to avg_time 2).

End Resolution.

(* ------------------------------------------------------------------ *)
(** ** [api/complaints.py]: what a submission stores *)

Module Submission.

(** [Config.ALLOWED_EXTENSIONS] *)
Definition ALLOWED_EXTENSIONS : list string :=
  ["png"; "jpg"; "jpeg"; "gif"; "webp"].

(** [filename.rsplit('.', 1)[1]] when ['.' in filename]: the text after
    the last dot, [None] without a dot. *)
Fixpoint after_last_dot (filename : string) : option string :=
  match filename with
  | EmptyString => None
  | String c rest =>
      match after_last_dot rest with
      | Some ext => Some ext
      | None => if Ascii.eqb c "."%char then Some rest else None
      end
  end.

Definition allowed_file (filename : string) : bool :=
  match after_last_dot filename with
  | Some ext => Py.in_list (Py.lower ext) ALLOWED_EXTENSIONS
  | None => false
  end.

(** The [Complaint] row built by [create_complaint] from the validated
    form data, on the columns of the model: [id] is the key the database
    assigns, [now] the creation time ([created_at] and [updated_at] take
    it as their default); [status], [escalation_level], [is_duplicate]
    take their column defaults. *)
Definition create_complaint (id now : Z) (description : string)
           (category : option string) (latitude longitude : Q) : Complaint.t :=
  let ai_result :=
    AIService.process_complaint AIService.SEVERITY_WEIGHTS
                                description category latitude longitude in
  Complaint.mk id
    (match category with
     | Some c => if String.eqb c "" then AIService.p_category ai_result else c
     | None => AIService.p_category ai_result
     end)
    latitude longitude "pending"
    (AIService.p_priority ai_result)
    (Some (AIService.p_severity_score ai_result))
    None
    (Some (Departments.get_department_for_category
             (AIService.p_category ai_result)))
    now (Some now) None false None 0%Z.

End Submission.

(* ------------------------------------------------------------------ *)
(** ** [api/analytics.py]: overview and department comparison *)

Module Overview.

(** The body of the response of [get_overview]. *)
Record t := mk {
  period_days : Z;
  total_complaints : Z;
  resolved : Z;
  resolution_rate : Q;
  avg_resolution_hours : Q;
  pending : Z
}.

Definition get_overview (now days : Z) (rows : list Resolved.t) : t :=
  let start_date := (now - Resolution.days_us days)%Z in
  let total :=
    Z.of_nat (List.length
      (filter (fun r => (start_date <=? Complaint.created_at (Resolved.complaint r))%Z)
              rows)) in
  let resolved :=
    Z.of_nat (List.length (filter (Resolution.resolved_since start_date) rows)) in
  let resolution_rate :=
    if (0 <? total)%Z then inject_Z resolved / inject_Z total * 100 else 0 in
  let avg_time :=
    Resolution.avg_or_zero
      (map Resolution.resolution_hours
           (filter (Resolution.resolved_since start_date) rows)) in
  let pending :=
    Z.of_nat (List.length
      (filter (fun r => ComplaintService.is_open (Resolved.complaint r)) rows)) in
  mk days total resolved (Py.round_to resolution_rate 2)
     (Py.round_to avg_time 2) pending.

End Overview.

Module DepartmentAnalytics.

(** An entry of the ['departments'] list of [get_department_analytics]. *)
Record t := mk {
  department : string;
  total : Z;
  resolved : Z;
  pending : Z;
  in_progress : Z;
  resolution_rate : Q;
  avg_resolution_hours : Q
}.

(** The rows the query keeps: created in the period, with a department. *)
Definition selected (start_date : Z) (rows : list Resolved.t) : list Resolved.t :=
  filter (fun r =>
            (start_date <=? Complaint.created_at (Resolved.complaint r))%Z
            && match Complaint.department (Resolved.complaint r) with
               | Some _ => true
               | None => false
               end) rows.

Definition in_department (name : string) (r : Resolved.t) : bool :=
  Workload.department_eqb (Complaint.department (Resolved.complaint r)) (Some name).

Definition has_status (status : string) (r : Resolved.t) : bool :=
  String.eqb (Complaint.status (Resolved.complaint r)) status.

Definition count (p : Resolved.t -> bool) (rows : list Resolved.t) : Z :=
  Z.of_nat (List.length (filter p rows)).

(** [func.avg(...)] of a group, [NULL] ([None]) when no row of the group
    has [resolved_at]. *)
Definition group_avg (group : list Resolved.t) : option Q :=
  match filter (fun r => match Resolved.resolved_at r with
                         | Some _ => true
                         | None => false
                         end) group with
  | [] => None
  | done =>
      Some (fold_right Qplus 0 (map Resolution.resolution_hours done)
            / inject_Z (Z.of_nat (List.length done)))
  end.

(** One entry, from the aggregates of the group of [name]. *)
Definition entry (rows : list Resolved.t) (name : string) : t :=
  let group := filter (in_department name) rows in
  let total := count (in_department name) rows in
  let resolved := count (fun r => in_department name r && has_status "resolved" r) rows in
  let pending := count (fun r => in_department name r && has_status "pending" r) rows in
  mk name total resolved pending (total - resolved - pending)
     (if (0 <? total)%Z
      then Py.round_to (inject_Z resolved / inject_Z total * 100) 2
      else 0)
     (Py.round_to (match group_avg group with Some a => a | None => 0 end) 2).

(** [get_department_analytics]: one entry per group of
    [GROUP BY Complaint.department], in the order of the groups. *)
Definition get_department_analytics (now days : Z) (rows : list Resolved.t)
  : list t :=
  let start_date := (now - Resolution.days_us days)%Z in
  let kept := selected start_date rows in
  flat_map (fun d => match d with
                     | Some name => [entry kept name]
                     | None => []
                     end)
           (Workload.groups [] (map Resolved.complaint kept)).

End DepartmentAnalytics.

(* ------------------------------------------------------------------ *)
(** ** Measures used in the statements below *)

Module Measures.


(** A table in which no complaint is recorded as a duplicate of itself. *)
Definition no_self_duplicate (rows : Table.t) : Prop :=
  forall c, In c rows -> Complaint.duplicate_of_id c <> Some (Complaint.id c).

(** A table whose severity scores lie in [0, 1]. *)
Definition severities_in_range (rows : Table.t) : Prop :=
  forall c severity, In c rows -> Complaint.severity_score c = Some severity ->
                     0 <= severity /\ severity <= 1.

(** The columns of a complaint that escalation does not write. *)
Definition same_but_escalation (c c' : Complaint.t) : Prop :=
  Complaint.set_escalated_at (Complaint.escalated_at c)
    (Complaint.set_escalation_level (Complaint.escalation_level c) c') = c.

(** The columns of a complaint that neither escalation nor the UPDATE
    that stores it writes. *)
Definition same_but_escalation_and_stamp (c c' : Complaint.t) : Prop :=
  Complaint.set_updated_at (Complaint.updated_at c)
    (Complaint.set_escalated_at (Complaint.escalated_at c)
       (Complaint.set_escalation_level (Complaint.escalation_level c) c')) = c.

(** Whether the level of a row differs before and after a run. *)
Definition level_changed (p : Complaint.t * Complaint.t) : bool :=
  negb (Complaint.escalation_level (fst p) =? Complaint.escalation_level (snd p))%Z.

(** A department that the comprehension of [get_workload_summary] keeps:
    neither [None] nor empty. *)
Definition named (d : option string) : bool :=
  match d with
  | Some name => negb (String.eqb name "")
  | None => false
  end.


(** The count the duplicate query of [mark_as_duplicate] returns. *)
Definition seen_duplicates (autoflush : bool) (rows : Table.t)
           (dup original : Z) : Z :=
  ComplaintService.count_duplicates original
    (if autoflush then Table.update dup (Invariants.link original) rows else rows).

End Measures.

(* ------------------------------------------------------------------ *)
(** ** Facts about the Python builtins *)

Module PyFacts.

Lemma gt_true (a b : Q) : Py.gt a b = true <-> b < a.
Proof.
  unfold Py.gt. rewrite negb_true_iff.
  split; intros H.
  - apply Qnot_le_lt. intros Hle. apply Qle_bool_iff in Hle. congruence.
  - destruct (Qle_bool a b) eqn:E; [|reflexivity].
    apply Qle_bool_iff in E. exfalso. apply (Qlt_not_le _ _ H E).
Qed.

Lemma gt_false (a b : Q) : Py.gt a b = false <-> a <= b.
Proof.
  unfold Py.gt. rewrite negb_false_iff. apply Qle_bool_iff.
Qed.

Lemma min_le_l (a b : Q) : Py.min a b <= a.
Proof.
  unfold Py.min. destruct (Qle_bool a b) eqn:E.
  - apply Qle_refl.
  - apply Qlt_le_weak, gt_true. unfold Py.gt. now rewrite E.
Qed.

Lemma min_le_r (a b : Q) : Py.min a b <= b.
Proof.
  unfold Py.min. destruct (Qle_bool a b) eqn:E.
  - now apply Qle_bool_iff.
  - apply Qle_refl.
Qed.

Lemma min_glb (a b c : Q) : c <= a -> c <= b -> c <= Py.min a b.
Proof. unfold Py.min. now destruct (Qle_bool a b). Qed.

Lemma min_left (a b : Q) : a <= b -> Py.min a b = a.
Proof.
  intros H. unfold Py.min. apply Qle_bool_iff in H. now rewrite H.
Qed.

Lemma min_right (a b : Q) : b <= a -> Py.min a b == b.
Proof.
  intros H. unfold Py.min. destruct (Qle_bool a b) eqn:E.
  - apply Qle_bool_iff in E. now apply Qle_antisym.
  - reflexivity.
Qed.

Lemma count_in_nonneg (kws : list string) (t : string) :
  (0 <= Py.count_in kws t)%Z.
Proof. unfold Py.count_in. lia. Qed.

Lemma max_item_spec {K : Type} (items : list (K * Z)) : forall best,
  In (Py.max_item best items) (best :: items)
  /\ forall kv, In kv (best :: items) ->
                (snd kv <= snd (Py.max_item best items))%Z.
Proof.
  induction items as [|kv items IH]; intros best; cbn.
  - split; [now left | intros ? [<-|[]]; lia].
  - destruct (snd best <? snd kv)%Z eqn:E.
    + apply Z.ltb_lt in E. destruct (IH kv) as [Hin Hmax]. split.
      * cbn in Hin. tauto.
      * intros x [<-|Hx]; [|now apply Hmax].
        specialize (Hmax kv (or_introl eq_refl)). lia.
    + apply Z.ltb_ge in E. destruct (IH best) as [Hin Hmax]. split.
      * cbn in Hin. tauto.
      * intros x [<-|[<-|Hx]].
        -- apply Hmax. now left.
        -- specialize (Hmax best (or_introl eq_refl)). lia.
        -- apply Hmax. now right.
Qed.

(** [round] returns the floor or its successor. *)
Lemma round_cases (x : Q) :
  (Py.round x = Qfloor x /\ x - inject_Z (Qfloor x) <= 1 # 2)
  \/ (Py.round x = (Qfloor x + 1)%Z /\ 1 # 2 <= x - inject_Z (Qfloor x)).
Proof.
  unfold Py.round.
  destruct (Qcompare_spec (x - inject_Z (Qfloor x)) (1 # 2)) as [E|E|E].
  - destruct (Z.even (Qfloor x)); [left|right]; split; try reflexivity;
      rewrite E; apply Qle_refl.
  - left. split; [reflexivity | now apply Qlt_le_weak].
  - right. split; [reflexivity | now apply Qlt_le_weak].
Qed.

Lemma round_lower (k : Z) (x : Q) : inject_Z k <= x -> (k <= Py.round x)%Z.
Proof.
  intros H.
  assert (Hf : (k <= Qfloor x)%Z).
  { rewrite <- (Qfloor_Z k). now apply Qfloor_resp_le. }
  destruct (round_cases x) as [[-> _]|[-> _]]; lia.
Qed.

Lemma round_upper (k : Z) (x : Q) : x <= inject_Z k -> (Py.round x <= k)%Z.
Proof.
  intros H.
  assert (Hf : (Qfloor x <= k)%Z).
  { rewrite <- (Qfloor_Z k). now apply Qfloor_resp_le. }
  destruct (round_cases x) as [[-> _]|[-> Hhalf]]; [lia|].
  assert (Hlt : inject_Z (Qfloor x) < inject_Z k).
  { apply Qlt_le_trans with x; [|exact H].
    apply Qlt_minus_iff. eapply Qlt_le_trans; [|exact Hhalf]. reflexivity. }
  rewrite <- Zlt_Qlt in Hlt. lia.
Qed.

(** [round] is within one half of its argument. *)
Lemma round_near (x : Q) :
  inject_Z (Py.round x) - x <= 1 # 2 /\ x - inject_Z (Py.round x) <= 1 # 2.
Proof.
  pose proof (Qfloor_le x) as Hlo.
  pose proof (Qlt_floor x) as Hhi.
  rewrite inject_Z_plus in Hhi. change (inject_Z 1) with 1 in Hhi.
  set (f := inject_Z (Qfloor x)) in *.
  destruct (round_cases x) as [[-> H]|[-> H]]; fold f in H.
  - split; [|exact H]. fold f. lra.
  - rewrite inject_Z_plus. change (inject_Z 1) with 1. fold f. split; lra.
Qed.

Lemma div_le_mult (a b c : Q) : 0 < b -> a / b <= c -> a <= c * b.
Proof.
  intros Hb H.
  assert (E : a == a / b * b).
  { field. intros E0. rewrite E0 in Hb. now apply Qlt_irrefl in Hb. }
  rewrite E. apply Qmult_le_compat_r; [exact H | now apply Qlt_le_weak].
Qed.

Lemma le_div_mult (a b c : Q) : 0 < b -> c <= a / b -> c * b <= a.
Proof.
  intros Hb H.
  assert (E : a == a / b * b).
  { field. intros E0. rewrite E0 in Hb. now apply Qlt_irrefl in Hb. }
  rewrite E. apply Qmult_le_compat_r; [exact H | now apply Qlt_le_weak].
Qed.

Lemma round_comp (x y : Q) : x == y -> Py.round x = Py.round y.
Proof.
  intros E. unfold Py.round.
  assert (Ef : Qfloor x = Qfloor y) by (now rewrite E).
  rewrite Ef.
  assert (Ec : (x - inject_Z (Qfloor y) ?= 1 # 2) = (y - inject_Z (Qfloor y) ?= 1 # 2)).
  { now rewrite E. }
  now rewrite Ec.
Qed.

Lemma round_to_comp (x y : Q) (ndigits : nat) :
  x == y -> Py.round_to x ndigits = Py.round_to y ndigits.
Proof.
  intros E. unfold Py.round_to.
  set (scale := inject_Z (10 ^ Z.of_nat ndigits)).
  rewrite (round_comp (x * scale) (y * scale)); [reflexivity | now rewrite E].
Qed.


(** Rounding to [ndigits] decimals keeps a value between two bounds that
    are themselves multiples of the last kept digit. *)
Lemma round_to_between (lo hi : Z) (x : Q) (ndigits : nat) :
  let scale := inject_Z (10 ^ Z.of_nat ndigits) in
  inject_Z lo / scale <= x -> x <= inject_Z hi / scale ->
  inject_Z lo / scale <= Py.round_to x ndigits
  /\ Py.round_to x ndigits <= inject_Z hi / scale.
Proof.
  intros scale Hlo Hhi. unfold Py.round_to. fold scale.
  assert (Hs : 0 < scale).
  { unfold scale. rewrite <- (Zlt_Qlt 0). apply Z.pow_pos_nonneg; lia. }
  assert (Hne : ~ scale == 0) by (intros E; rewrite E in Hs; now apply Qlt_irrefl in Hs).
  assert (Hlo' : inject_Z lo <= x * scale) by (now apply div_le_mult).
  assert (Hhi' : x * scale <= inject_Z hi) by (now apply le_div_mult).
  apply round_lower in Hlo'. apply round_upper in Hhi'.
  rewrite Zle_Qle in Hlo', Hhi'.
  split.
  - apply Qle_shift_div_l; [exact Hs|].
    setoid_replace (inject_Z lo / scale * scale) with (inject_Z lo)
      by (field; exact Hne).
    exact Hlo'.
  - apply Qle_shift_div_r; [exact Hs|].
    setoid_replace (inject_Z hi / scale * scale) with (inject_Z hi)
      by (field; exact Hne).
    exact Hhi'.
Qed.

End PyFacts.

(* ------------------------------------------------------------------ *)
(** ** Priority tiers, urgency and classification ([ai_service.py]) *)

Module AIServiceProofs.
Import AIService.

(** The four tests of [get_priority_from_score], read as intervals. *)
Lemma priority_cases (s : Q) :
  (0.8 <= s /\ get_priority_from_score s = "critical")
  \/ (0.6 <= s /\ s < 0.8 /\ get_priority_from_score s = "high")
  \/ (0.4 <= s /\ s < 0.6 /\ get_priority_from_score s = "medium")
  \/ (s < 0.4 /\ get_priority_from_score s = "low").
Proof.
  unfold get_priority_from_score.
  destruct (Qle_bool 0.8 s) eqn:E1.
  { left. split; [now apply Qle_bool_iff | reflexivity]. }
  assert (H1 : s < 0.8) by (apply PyFacts.gt_true; unfold Py.gt; now rewrite E1).
  destruct (Qle_bool 0.6 s) eqn:E2.
  { right; left. repeat split; [now apply Qle_bool_iff | exact H1]. }
  assert (H2 : s < 0.6) by (apply PyFacts.gt_true; unfold Py.gt; now rewrite E2).
  destruct (Qle_bool 0.4 s) eqn:E3.
  { right; right; left. repeat split; [now apply Qle_bool_iff | exact H2]. }
  right; right; right. split; [|reflexivity].
  apply PyFacts.gt_true; unfold Py.gt; now rewrite E3.
Qed.

(** C4.  [get_priority_from_score] maps a score of at least 0.8 to
    critical, a score in [0.6, 0.8) to high, a score in [0.4, 0.6) to
    medium and a score below 0.4 to low; every score gets exactly one of
    the four tiers, the tier never decreases when the score grows, and
    the boundaries 0.8, 0.6 and 0.4 belong to the higher tier. *)
Theorem get_priority_from_score_tiers :
  (forall s, 0.8 <= s -> get_priority_from_score s = "critical")
  /\ (forall s, 0.6 <= s -> s < 0.8 -> get_priority_from_score s = "high")
  /\ (forall s, 0.4 <= s -> s < 0.6 -> get_priority_from_score s = "medium")
  /\ (forall s, s < 0.4 -> get_priority_from_score s = "low")
  /\ (forall s, In (get_priority_from_score s) ["critical"; "high"; "medium"; "low"])
  /\ (forall s t, s <= t ->
        (Reference.priority_rank (get_priority_from_score s)
         <= Reference.priority_rank (get_priority_from_score t))%nat)
  /\ get_priority_from_score 0.8 = "critical"
  /\ get_priority_from_score 0.6 = "high"
  /\ get_priority_from_score 0.4 = "medium".
Proof.
  repeat split; try reflexivity.
  - intros s H.
    destruct (priority_cases s) as [[_ E]|[(_ & L & _)|[(_ & L & _)|[L _]]]];
      [exact E | lra | lra | lra].
  - intros s H1 H2.
    destruct (priority_cases s) as [[L _]|[(_ & _ & E)|[(_ & L & _)|[L _]]]];
      [lra | exact E | lra | lra].
  - intros s H1 H2.
    destruct (priority_cases s) as [[L _]|[(L & _ & _)|[(_ & _ & E)|[L _]]]];
      [lra | lra | exact E | lra].
  - intros s H.
    destruct (priority_cases s) as [[L _]|[(L & _ & _)|[(L & _ & _)|[_ E]]]];
      [lra | lra | lra | exact E].
  - intros s.
    destruct (priority_cases s) as [[_ E]|[(_ & _ & E)|[(_ & _ & E)|[_ E]]]];
      rewrite E; simpl; auto.
  - intros s t Hst.
    destruct (priority_cases s) as [[Ls Es]|[(Ls & Us & Es)|[(Ls & Us & Es)|[Us Es]]]];
    destruct (priority_cases t) as [[Lt Et]|[(Lt & Ut & Et)|[(Lt & Ut & Et)|[Ut Et]]]];
      rewrite Es, Et; cbn; try lia; exfalso; lra.
Qed.

(** The early-return loop finds a keyword exactly when one occurs. *)
Lemma critical_hit_existsb (kws : list string) (t : string) :
  critical_hit kws t = existsb (fun kw => Py.contains kw t) kws.
Proof.
  induction kws as [|kw kws IH]; cbn; [reflexivity|].
  rewrite IH. now destruct (Py.contains kw t).
Qed.

(** The weighted average of the tier weights lies between the smallest
    and the greatest weight. *)
Lemma weighted_average_bounds (c h m l : Z) :
  (0 <= c)%Z -> (0 <= h)%Z -> (0 <= m)%Z -> (0 <= l)%Z ->
  (0 < c + h + m + l)%Z ->
  let score := inject_Z c * 1.0 + inject_Z h * 0.7
               + inject_Z m * 0.4 + inject_Z l * 0.1 in
  let total := inject_Z (c + h + m + l) in
  0.1 <= score / total /\ score / total <= 1.0.
Proof.
  intros Hc Hh Hm Hl Ht score total.
  assert (Qc : 0 <= inject_Z c) by (now rewrite <- (Zle_Qle 0)).
  assert (Qh : 0 <= inject_Z h) by (now rewrite <- (Zle_Qle 0)).
  assert (Qm : 0 <= inject_Z m) by (now rewrite <- (Zle_Qle 0)).
  assert (Ql : 0 <= inject_Z l) by (now rewrite <- (Zle_Qle 0)).
  assert (Qt : 0 < total) by (unfold total; now rewrite <- (Zlt_Qlt 0)).
  assert (Et : total == inject_Z c + inject_Z h + inject_Z m + inject_Z l).
  { unfold total. now rewrite !inject_Z_plus. }
  split.
  - apply Qle_shift_div_l; [exact Qt|]. rewrite Et. unfold score. lra.
  - apply Qle_shift_div_r; [exact Qt|]. rewrite Et. unfold score. lra.
Qed.

(** The urgency of every text lies in [0.1, 1]. *)
Lemma calculate_keyword_urgency_bounds (text : string) :
  0.1 <= calculate_keyword_urgency text /\ calculate_keyword_urgency text <= 1.
Proof.
  unfold calculate_keyword_urgency.
  destruct (critical_hit urgency_critical (Py.lower text)); [split; lra|].
  set (t := Py.lower text).
  destruct (0 <? _)%Z eqn:E; [|split; lra].
  apply Z.ltb_lt in E.
  destruct (weighted_average_bounds _ _ _ _
              (PyFacts.count_in_nonneg urgency_critical t)
              (PyFacts.count_in_nonneg urgency_high t)
              (PyFacts.count_in_nonneg urgency_medium t)
              (PyFacts.count_in_nonneg urgency_low t) E) as [Hlo Hhi].
  rewrite PyFacts.min_left by exact Hhi.
  split; [exact Hlo | lra].
Qed.

Lemma score_categories_In table t cat n :
  In (cat, n) (score_categories table t) <->
  exists kws, In (cat, kws) table /\ n = Py.count_in kws t /\ (0 < n)%Z.
Proof.
  induction table as [|[c kws] table IH]; cbn.
  - split; [tauto | intros (? & [] & _)].
  - destruct (0 <? Py.count_in kws t)%Z eqn:E; cbn; rewrite IH; split.
    + intros [H|(k & H1 & H2)].
      * inversion H; subst. exists kws. apply Z.ltb_lt in E. auto.
      * exists k. auto.
    + intros (k & [H|H] & H2 & H3).
      * inversion H; subst. now left.
      * right. exists k. auto.
    + intros (k & H1 & H2). exists k. auto.
    + intros (k & [H|H] & H2 & H3).
      * inversion H; subst. apply Z.ltb_ge in E. lia.
      * exists k. auto.
Qed.

Lemma score_categories_nil table t :
  score_categories table t = [] <->
  forall cat kws, In (cat, kws) table -> Py.count_in kws t = 0%Z.
Proof.
  split.
  - intros E cat kws Hin.
    pose proof (PyFacts.count_in_nonneg kws t) as Hpos.
    destruct (Z.eq_dec (Py.count_in kws t) 0) as [|Hne]; [assumption|].
    assert (Hmem : In (cat, Py.count_in kws t) (score_categories table t)).
    { apply score_categories_In. exists kws. repeat split; [assumption|lia]. }
    rewrite E in Hmem. destruct Hmem.
  - intros H. destruct (score_categories table t) as [|[cat n] rest] eqn:E;
      [reflexivity|].
    assert (Hmem : In (cat, n) (score_categories table t))
      by (rewrite E; now left).
    apply score_categories_In in Hmem. destruct Hmem as (kws & Hin & -> & Hpos).
    rewrite (H _ _ Hin) in Hpos. lia.
Qed.

Lemma sum_values_shift {K : Type} (d : list (K * Z)) : forall acc,
  fold_left (fun a kv => (a + snd kv)%Z) d acc
  = (acc + fold_right Z.add 0%Z (map snd d))%Z.
Proof.
  induction d as [|kv d IH]; intros acc; cbn; [lia|]. rewrite IH. lia.
Qed.

Lemma sum_values_score_categories table t :
  Py.sum_values (score_categories table t)
  = fold_right Z.add 0%Z (map (fun entry => Py.count_in (snd entry) t) table).
Proof.
  unfold Py.sum_values. rewrite sum_values_shift. cbn.
  induction table as [|[c kws] table IH]; cbn; [reflexivity|].
  pose proof (PyFacts.count_in_nonneg kws t) as Hpos.
  destruct (0 <? Py.count_in kws t)%Z eqn:E; cbn; rewrite IH.
  - reflexivity.
  - apply Z.ltb_ge in E. lia.
Qed.

(** C6.  [classify_category] returns [("other", 0.3)] exactly when no
    category has a positive keyword count on the lower-cased text;
    otherwise the returned category carries a maximal count and the
    confidence is that count over the total of all counts, capped at 0.9;
    the confidence never exceeds 0.9, and the text
    "overflowing garbage dustbin near school" is classified as sanitation
    with confidence 0.9. *)
Theorem classify_category_spec (text : string) :
  let t := Py.lower text in
  let no_hits :=
    forall cat kws, In (cat, kws) category_keywords -> Py.count_in kws t = 0%Z in
  (classify_category text = ("other", 0.3) <-> no_hits)
  /\ (~ no_hits ->
      exists kws,
        In (fst (classify_category text), kws) category_keywords
        /\ (0 < Py.count_in kws t)%Z
        /\ (forall cat' kws', In (cat', kws') category_keywords ->
              (Py.count_in kws' t <= Py.count_in kws t)%Z)
        /\ snd (classify_category text)
           = Py.min (inject_Z (Py.count_in kws t)
                     / inject_Z (Reference.total_score t)) 0.9)
  /\ snd (classify_category text) <= 0.9
  /\ classify_category "overflowing garbage dustbin near school"
     = ("sanitation", 0.9).
Proof.
  intros t no_hits.
  assert (Hnil := score_categories_nil category_keywords t).
  fold no_hits in Hnil.
  unfold classify_category. fold t.
  destruct (score_categories category_keywords t) as [|first rest] eqn:E.
  - (* no category scored *)
    split; [split | split; [|split]].
    + intros _. now apply Hnil.
    + reflexivity.
    + intros Hno. exfalso. apply Hno. now apply Hnil.
    + cbn. lra.
    + vm_compute. reflexivity.
  - destruct (PyFacts.max_item_spec rest first) as [Hin Hmax].
    set (best := Py.max_item first rest) in *.
    rewrite <- E in Hin.
    destruct best as [bc bn] eqn:Eb.
    apply score_categories_In in Hin. destruct Hin as (kws & Hk & Hn & Hpos).
    assert (Htotal : (0 < Py.sum_values (first :: rest))%Z).
    { rewrite <- E, sum_values_score_categories.
      change (0 < Reference.total_score t)%Z.
      assert (Hge : forall tbl, In (bc, kws) tbl ->
                (Py.count_in kws t
                 <= fold_right Z.add 0 (map (fun e => Py.count_in (snd e) t) tbl))%Z).
      { induction tbl as [|[c k] tbl IH]; cbn; [tauto|].
        pose proof (PyFacts.count_in_nonneg k t).
        intros [H0|H0].
        - inversion H0; subst.
          assert (0 <= fold_right Z.add 0
                         (map (fun e => Py.count_in (snd e) t) tbl))%Z.
          { clear. induction tbl as [|[c k] tbl IH]; cbn; [lia|].
            pose proof (PyFacts.count_in_nonneg k t). lia. }
          lia.
        - specialize (IH H0). lia. }
      specialize (Hge _ Hk). unfold Reference.total_score. lia. }
    split; [split | split; [|split]].
    + intros Habs. cbn in Habs. inversion Habs as [[Hc Hq]].
      exfalso.
      assert (Hother : forall tbl, In ("other", kws) tbl ->
               In "other" (map fst tbl)).
      { intros tbl Hi. apply (in_map fst) in Hi. exact Hi. }
      rewrite Hc in Hk. apply Hother in Hk. cbn in Hk.
      repeat (destruct Hk as [Hk|Hk]; [discriminate Hk|]). exact Hk.
    + intros Hno. apply Hnil in Hno. discriminate Hno.
    + intros _. exists kws. cbn [fst snd].
      repeat split; [exact Hk | lia | |].
      * intros cat' kws' Hin'.
        pose proof (PyFacts.count_in_nonneg kws' t) as Hnn.
        destruct (Z.eq_dec (Py.count_in kws' t) 0) as [->|Hne]; [lia|].
        assert (Hmem : In (cat', Py.count_in kws' t) (first :: rest)).
        { rewrite <- E. apply score_categories_In. exists kws'.
          repeat split; [assumption|lia]. }
        apply Hmax in Hmem. cbn in Hmem. lia.
      * apply Z.ltb_lt in Htotal. rewrite Htotal.
        rewrite <- E, sum_values_score_categories, Hn. reflexivity.
    + cbn [snd]. apply PyFacts.min_le_r.
    + vm_compute. reflexivity.
Qed.

(** With the configured weights and no time unresolved, the severity is
    [0.3 * urgency + 0.21] rounded to three decimals. *)
Lemma submission_severity_bounds (text category : string) (latitude longitude : Q) :
  0.24 <= calculate_severity_score SEVERITY_WEIGHTS text category latitude longitude 0
  /\ calculate_severity_score SEVERITY_WEIGHTS text category latitude longitude 0
     <= 0.51.
Proof.
  unfold calculate_severity_score, calculate_location_importance,
    get_nearby_complaint_factor.
  cbn [keyword_urgency nearby_complaints time_unresolved location_importance
       SEVERITY_WEIGHTS].
  destruct (calculate_keyword_urgency_bounds text) as [Hlo Hhi].
  set (u := calculate_keyword_urgency text) in *.
  assert (Ht : Py.min (0 / 168) 1.0 == 0) by reflexivity.
  set (sev := 0.3 * u + 0.2 * 0.3 + 0.2 * Py.min (0 / 168) 1.0 + 0.3 * 0.5).
  assert (Hsev : sev == 0.3 * u + 0.21) by (unfold sev; rewrite Ht; ring).
  assert (Hm : Py.min sev 1.0 == sev).
  { rewrite PyFacts.min_left; [reflexivity | rewrite Hsev; lra]. }
  destruct (PyFacts.round_to_between 240 510 (Py.min sev 1.0) 3) as [Rlo Rhi].
  - rewrite Hm, Hsev. clearbody u. clear - Hlo.
    apply Qle_trans with 0.24; [now compute | lra].
  - rewrite Hm, Hsev. clearbody u. clear - Hhi.
    apply Qle_trans with 0.51; [lra | now compute].
  - split.
    + eapply Qle_trans; [|exact Rlo]. now compute.
    + eapply Qle_trans; [exact Rhi|]. now compute.
Qed.

(** C10.  With the configured weights, [process_complaint] gives every
    submitted complaint a severity score in [0.24, 0.51], hence the
    priority medium or low and never critical or high, whatever the text,
    the category and the coordinates. *)
Theorem process_complaint_submission_priority
        (text : string) (category : option string) (latitude longitude : Q) :
  let r := process_complaint SEVERITY_WEIGHTS text category latitude longitude in
  0.24 <= p_severity_score r
  /\ p_severity_score r <= 0.51
  /\ (p_priority r = "medium" \/ p_priority r = "low")
  /\ p_priority r <> "critical"
  /\ p_priority r <> "high".
Proof.
  unfold process_complaint.
  destruct (classify_category text) as [ai_category confidence].
  cbn [p_severity_score p_priority].
  set (final := match category with
                | Some c => if Py.in_list c categories then c else ai_category
                | None => ai_category
                end).
  destruct (submission_severity_bounds text final latitude longitude) as [Hlo Hhi].
  set (s := calculate_severity_score SEVERITY_WEIGHTS text final latitude longitude 0) in *.
  split; [exact Hlo|]. split; [exact Hhi|].
  destruct (priority_cases s) as [[L _]|[(L & _ & _)|[(_ & _ & E)|[_ E]]]];
    try (exfalso; lra); rewrite E; repeat split; auto; discriminate.
Qed.

End AIServiceProofs.

(* ------------------------------------------------------------------ *)
(** ** Rows and what a flush does to them *)

Module RowFacts.

Lemma opt_eqb_Z_refl (a : option Z) : Complaint.opt_eqb Z.eqb a a = true.
Proof. destruct a; cbn; [apply Z.eqb_refl | reflexivity]. Qed.

Lemma opt_eqb_Q_refl (a : option Q) : Complaint.opt_eqb Qeq_bool a a = true.
Proof. destruct a; cbn; [apply Qeq_bool_refl | reflexivity]. Qed.

Lemma opt_eqb_string_refl (a : option string) :
  Complaint.opt_eqb String.eqb a a = true.
Proof. destruct a; cbn; [apply String.eqb_refl | reflexivity]. Qed.

Lemma eqb_refl (c : Complaint.t) : Complaint.eqb c c = true.
Proof.
  unfold Complaint.eqb.
  rewrite !Z.eqb_refl, !String.eqb_refl, !Qeq_bool_refl, !opt_eqb_Z_refl,
    opt_eqb_Q_refl, opt_eqb_string_refl, Bool.eqb_reflx.
  reflexivity.
Qed.

(** A row that was not written is not flushed. *)
Lemma flushed_unwritten (now : Z) (c : Complaint.t) : Complaint.flushed now c c = c.
Proof. unfold Complaint.flushed. now rewrite eqb_refl. Qed.

Lemma eqb_level (a b : Complaint.t) :
  Complaint.escalation_level a <> Complaint.escalation_level b ->
  Complaint.eqb a b = false.
Proof.
  intros H. unfold Complaint.eqb.
  rewrite (proj2 (Z.eqb_neq _ _) H). apply andb_false_r.
Qed.

Lemma eqb_status (a b : Complaint.t) :
  Complaint.status a <> Complaint.status b -> Complaint.eqb a b = false.
Proof.
  intros H. unfold Complaint.eqb.
  rewrite (proj2 (String.eqb_neq _ _) H), andb_false_r. reflexivity.
Qed.

(** A row whose level was changed is flushed, which stamps it. *)
Lemma flushed_level (now : Z) (c c' : Complaint.t) :
  Complaint.escalation_level c <> Complaint.escalation_level c' ->
  Complaint.flushed now c c' = Complaint.set_updated_at (Some now) c'.
Proof. intros H. unfold Complaint.flushed. now rewrite (eqb_level _ _ H). Qed.

Lemma flushed_status (now : Z) (c c' : Complaint.t) :
  Complaint.status c <> Complaint.status c' ->
  Complaint.flushed now c c' = Complaint.set_updated_at (Some now) c'.
Proof. intros H. unfold Complaint.flushed. now rewrite (eqb_status _ _ H). Qed.

(** A flush writes [updated_at] and nothing else. *)
Lemma flushed_columns (now : Z) (c c' : Complaint.t) :
  Complaint.set_updated_at (Complaint.updated_at c') (Complaint.flushed now c c')
  = c'.
Proof.
  unfold Complaint.flushed. destruct (Complaint.eqb c c'); now destruct c'.
Qed.

End RowFacts.

(* ------------------------------------------------------------------ *)
(** ** The escalation state machine ([check_escalation] and its driver) *)

Module EscalationProofs.
Import ComplaintService Invariants Scenarios.

Lemma in_list_In (x : string) (xs : list string) :
  Py.in_list x xs = true <-> In x xs.
Proof.
  unfold Py.in_list. rewrite existsb_exists. split.
  - intros (y & Hy & E). apply String.eqb_eq in E. now subst.
  - intros H. exists x. split; [exact H | apply String.eqb_refl].
Qed.

Lemma in_list_not_In (x : string) (xs : list string) :
  Py.in_list x xs = false <-> ~ In x xs.
Proof.
  rewrite <- in_list_In. destruct (Py.in_list x xs); split; congruence.
Qed.

(** The threshold lookup: the four configured priorities and the default
    of 72 hours for every other string. *)
Lemma thresholds_lookup :
  Py.dict_get thresholds "critical" 72%Z = 4%Z
  /\ Py.dict_get thresholds "high" 72%Z = 24%Z
  /\ Py.dict_get thresholds "medium" 72%Z = 72%Z
  /\ Py.dict_get thresholds "low" 72%Z = 168%Z
  /\ forall p, ~ In p ["critical"; "high"; "medium"; "low"] ->
               Py.dict_get thresholds p 72%Z = 72%Z.
Proof.
  repeat split. intros p Hp. cbn -[String.eqb].
  destruct (String.eqb_spec "critical" p) as [E|_]; [subst; cbn in Hp; tauto|].
  destruct (String.eqb_spec "high" p) as [E|_]; [subst; cbn in Hp; tauto|].
  destruct (String.eqb_spec "medium" p) as [E|_]; [subst; cbn in Hp; tauto|].
  destruct (String.eqb_spec "low" p) as [E|_]; [subst; cbn in Hp; tauto|].
  reflexivity.
Qed.

Lemma thresholds_positive (p : string) : (0 < Py.dict_get thresholds p 72)%Z.
Proof.
  cbn -[String.eqb].
  repeat (match goal with |- context [String.eqb ?a ?b] =>
            destruct (String.eqb a b) end); lia.
Qed.

(** The threshold lookup of the code is the threshold table of the design
    document. *)
Lemma thresholds_reference (p : string) :
  Py.dict_get thresholds p 72%Z = Reference.threshold p.
Proof.
  unfold Reference.threshold. cbn -[String.eqb].
  rewrite (String.eqb_sym "critical" p), (String.eqb_sym "high" p),
    (String.eqb_sym "medium" p), (String.eqb_sym "low" p).
  reflexivity.
Qed.

(** Elapsed hours against a whole number of hours, on the timestamps. *)
Lemma hours_between_explicit (now created_at : Z) :
  hours_between now created_at
  == inject_Z (now - created_at) / inject_Z (3600 * 1000000).
Proof.
  unfold hours_between.
  change (inject_Z (3600 * 1000000)) with (inject_Z 3600000000).
  field.
Qed.

(** C3.  The transition rules of [check_escalation].  A resolved or closed
    complaint is returned unchanged with [false].  Otherwise, with
    [hours_pending] the time from [created_at] to [now] in hours and the
    threshold of the priority (critical 4, high 24, medium 72, low 168,
    any other 72): at level 0 a complaint past the threshold moves to
    level 1, and to level 1 only, with [escalated_at] set to [now]; at
    level 1 a complaint past twice the threshold moves to level 2 and
    keeps its [escalated_at]; in every other case nothing changes.  The
    flag is [true] exactly when the level changed.  A critical complaint
    is left alone after exactly 4 hours and escalated one microsecond
    later. *)
Theorem check_escalation_rules (now : Z) (c : Complaint.t) :
  let hours_pending :=
    inject_Z (now - Complaint.created_at c) / inject_Z (3600 * 1000000) in
  let threshold := inject_Z (Reference.threshold (Complaint.priority c)) in
  let r := check_escalation now c in
  (Reference.threshold "critical" = 4%Z
   /\ Reference.threshold "high" = 24%Z
   /\ Reference.threshold "medium" = 72%Z
   /\ Reference.threshold "low" = 168%Z
   /\ forall p, ~ In p ["critical"; "high"; "medium"; "low"] ->
                Reference.threshold p = 72%Z)
  /\ (In (Complaint.status c) ["resolved"; "closed"] -> r = (false, c))
  /\ (~ In (Complaint.status c) ["resolved"; "closed"] ->
      (Complaint.escalation_level c = 0%Z -> threshold < hours_pending ->
         r = (true, Complaint.set_escalated_at (Some now)
                      (Complaint.set_escalation_level 1%Z c))
         /\ Complaint.escalation_level (snd r) = 1%Z
         /\ Complaint.escalated_at (snd r) = Some now)
      /\ (Complaint.escalation_level c = 0%Z -> hours_pending <= threshold ->
            r = (false, c))
      /\ (Complaint.escalation_level c = 1%Z -> 2 * threshold < hours_pending ->
            r = (true, Complaint.set_escalation_level 2%Z c)
            /\ Complaint.escalation_level (snd r) = 2%Z
            /\ Complaint.escalated_at (snd r) = Complaint.escalated_at c)
      /\ (Complaint.escalation_level c = 1%Z -> hours_pending <= 2 * threshold ->
            r = (false, c))
      /\ (Complaint.escalation_level c <> 0%Z ->
          Complaint.escalation_level c <> 1%Z -> r = (false, c)))
  /\ (fst r = true <->
      Complaint.escalation_level (snd r) <> Complaint.escalation_level c)
  /\ (check_escalation (hours 4) (created_at_0 "pending" "critical" 0)
      = (false, created_at_0 "pending" "critical" 0)
      /\ check_escalation (hours 4 + 1) (created_at_0 "pending" "critical" 0)
         = (true, Complaint.set_escalated_at (Some (hours 4 + 1)%Z)
                    (Complaint.set_escalation_level 1%Z
                       (created_at_0 "pending" "critical" 0)))
      /\ Complaint.escalation_level
           (snd (check_escalation (hours 9) (created_at_0 "pending" "critical" 0)))
         = 1%Z
      /\ fst (check_escalation (hours 8) (created_at_0 "in_progress" "critical" 1))
         = false
      /\ check_escalation (hours 8 + 1) (created_at_0 "in_progress" "critical" 1)
         = (true, Complaint.set_escalation_level 2%Z
                    (created_at_0 "in_progress" "critical" 1))
      /\ fst (check_escalation (hours 1000) (created_at_0 "pending" "critical" 2))
         = false
      /\ fst (check_escalation (hours 1000) (created_at_0 "resolved" "critical" 0))
         = false
      /\ map (fun p => fst (check_escalation (hours (Reference.threshold p))
                              (created_at_0 "pending" p 0)))
             ["critical"; "high"; "medium"; "low"; "urgent"]
         = [false; false; false; false; false]
      /\ map (fun p => fst (check_escalation (hours (Reference.threshold p) + 1)
                              (created_at_0 "pending" p 0)))
             ["critical"; "high"; "medium"; "low"; "urgent"]
         = [true; true; true; true; true]).
Proof.
  intros hours_pending threshold r.
  assert (Hh : hours_between now (Complaint.created_at c) == hours_pending)
    by apply hours_between_explicit.
  assert (Hgt1 : Py.gt (hours_between now (Complaint.created_at c))
                       (inject_Z (Py.dict_get thresholds (Complaint.priority c) 72%Z))
                 = true <-> threshold < hours_pending).
  { rewrite PyFacts.gt_true, thresholds_reference, Hh. reflexivity. }
  assert (Hle1 : Py.gt (hours_between now (Complaint.created_at c))
                       (inject_Z (Py.dict_get thresholds (Complaint.priority c) 72%Z))
                 = false <-> hours_pending <= threshold).
  { rewrite PyFacts.gt_false, thresholds_reference, Hh. reflexivity. }
  assert (Hdouble : inject_Z (Py.dict_get thresholds (Complaint.priority c) 72%Z * 2)
                    == 2 * threshold).
  { unfold threshold. rewrite thresholds_reference, inject_Z_mult. ring. }
  assert (Hgt2 : Py.gt (hours_between now (Complaint.created_at c))
                       (inject_Z (Py.dict_get thresholds (Complaint.priority c) 72%Z * 2))
                 = true <-> 2 * threshold < hours_pending).
  { rewrite PyFacts.gt_true, Hdouble, Hh. reflexivity. }
  assert (Hle2 : Py.gt (hours_between now (Complaint.created_at c))
                       (inject_Z (Py.dict_get thresholds (Complaint.priority c) 72%Z * 2))
                 = false <-> hours_pending <= 2 * threshold).
  { rewrite PyFacts.gt_false, Hdouble, Hh. reflexivity. }
  split.
  { repeat split. intros p Hp.
    rewrite <- thresholds_reference. now apply thresholds_lookup. }
  subst r. unfold check_escalation.
  split; [|split; [|split]].
  - intros Hs. apply in_list_In in Hs. now rewrite Hs.
  - intros Hs. apply in_list_not_In in Hs. rewrite Hs.
    split; [|split; [|split; [|split]]].
    + intros Hl Hgt. apply Hgt1 in Hgt. rewrite Hgt, Hl. cbn. auto.
    + intros Hl Hle. apply Hle1 in Hle. rewrite Hle, Hl. cbn.
      now rewrite andb_false_r.
    + intros Hl Hgt. apply Hgt2 in Hgt. rewrite Hgt, Hl. cbn.
      rewrite andb_false_r. auto.
    + intros Hl Hle. apply Hle2 in Hle. rewrite Hle, Hl. cbn.
      now rewrite andb_false_r.
    + intros H0 H1. apply Z.eqb_neq in H0, H1. rewrite H0, H1.
      now rewrite !andb_false_r.
  - clear Hgt1 Hle1 Hgt2 Hle2 Hdouble Hh.
    set (past := Py.gt _ (inject_Z (Py.dict_get _ _ _))).
    set (past_twice := Py.gt _ (inject_Z (_ * 2))).
    destruct (Py.in_list (Complaint.status c) ["resolved"; "closed"]).
    { cbn. split; [discriminate | congruence]. }
    destruct (Z.eqb_spec (Complaint.escalation_level c) 0) as [E0|E0].
    + rewrite E0. cbn [Z.eqb andb]. rewrite !andb_false_r, andb_true_r.
      destruct past; cbn [fst snd Complaint.escalation_level
                          Complaint.set_escalation_level Complaint.set_escalated_at];
        rewrite ?E0; split; try discriminate; try congruence; auto.
    + rewrite andb_false_r.
      destruct (Z.eqb_spec (Complaint.escalation_level c) 1) as [E1|E1].
      * rewrite andb_true_r.
        destruct past_twice; cbn [fst snd Complaint.escalation_level
                                  Complaint.set_escalation_level];
          rewrite ?E1; split; try discriminate; try congruence; auto.
      * rewrite andb_false_r. cbn [fst snd]. split; [discriminate | congruence].
  - repeat split; vm_compute; reflexivity.
Qed.

Lemma run_escalation_check_cons (now : Z) (c : Complaint.t) (rest : Table.t) :
  run_escalation_check now (c :: rest)
  = (((if fst (step now c) then 1 else 0)
      + fst (run_escalation_check now rest))%Z,
     snd (step now c) :: snd (run_escalation_check now rest)).
Proof.
  cbn [run_escalation_check]. unfold step.
  destruct (run_escalation_check now rest) as [n rest'].
  destruct (is_open c); [|reflexivity].
  now destruct (check_escalation now c) as [[|] c'].
Qed.

(** Twice the threshold is further away than the threshold. *)
Lemma past_double_past_single (h : Q) (p : string) :
  Py.gt h (inject_Z (Py.dict_get thresholds p 72%Z * 2)) = true ->
  Py.gt h (inject_Z (Py.dict_get thresholds p 72%Z)) = true.
Proof.
  intros H. apply PyFacts.gt_true in H. apply PyFacts.gt_true.
  pose proof (thresholds_positive p) as Hp.
  eapply Qle_lt_trans; [|exact H].
  rewrite <- Zle_Qle. lia.
Qed.

(** A status selected by the driver's query is not a terminal one. *)
Lemma open_not_terminal (s : string) :
  Py.in_list s ["pending"; "in_progress"] = true ->
  Py.in_list s ["resolved"; "closed"] = false.
Proof.
  intros H. apply in_list_In in H. cbn in H.
  destruct H as [<-|[<-|[]]]; reflexivity.
Qed.

(** The outcomes of [check_escalation], with what each one writes. *)
Lemma check_escalation_outcomes (now : Z) (c : Complaint.t) :
  check_escalation now c = (false, c)
  \/ (Complaint.escalation_level c = 0%Z
      /\ check_escalation now c
         = (true, Complaint.set_escalated_at (Some now)
                    (Complaint.set_escalation_level 1%Z c)))
  \/ (Complaint.escalation_level c = 1%Z
      /\ check_escalation now c = (true, Complaint.set_escalation_level 2%Z c)).
Proof.
  unfold check_escalation.
  destruct (Py.in_list _ _); [now left|].
  destruct (Py.gt _ (inject_Z (Py.dict_get _ _ _)) && _) eqn:E1.
  - right; left. apply andb_true_iff in E1. destruct E1 as [_ E1].
    apply Z.eqb_eq in E1. auto.
  - destruct (Py.gt _ (inject_Z (_ * 2)) && _) eqn:E2; [|left; reflexivity].
    right; right. apply andb_true_iff in E2. destruct E2 as [_ E2].
    apply Z.eqb_eq in E2. auto.
Qed.

(** What the driver makes of a row: the row [check_escalation] leaves,
    stamped by the commit when it was written. *)
Lemma step_eq (now : Z) (c : Complaint.t) :
  step now c
  = if is_open c then
      if Py.gt (hours_between now (Complaint.created_at c))
               (inject_Z (Py.dict_get thresholds (Complaint.priority c) 72%Z))
         && (Complaint.escalation_level c =? 0)%Z
      then (true,
            Complaint.set_updated_at (Some now)
              (Complaint.set_escalated_at (Some now)
                 (Complaint.set_escalation_level 1%Z c)))
      else if Py.gt (hours_between now (Complaint.created_at c))
                    (inject_Z (Py.dict_get thresholds (Complaint.priority c) 72%Z * 2))
              && (Complaint.escalation_level c =? 1)%Z
      then (true,
            Complaint.set_updated_at (Some now)
              (Complaint.set_escalation_level 2%Z c))
      else (false, c)
    else (false, c).
Proof.
  unfold step. destruct (is_open c) eqn:Hopen; [|reflexivity].
  unfold check_escalation.
  rewrite (open_not_terminal _ Hopen).
  destruct (Py.gt _ (inject_Z (Py.dict_get _ _ _)) && _) eqn:E1.
  - apply andb_true_iff in E1. destruct E1 as [_ E1]. apply Z.eqb_eq in E1.
    cbn [fst snd]. rewrite RowFacts.flushed_level; [reflexivity|].
    cbn [Complaint.escalation_level Complaint.set_escalation_level
         Complaint.set_escalated_at]. lia.
  - destruct (Py.gt _ (inject_Z (_ * 2)) && _) eqn:E2.
    + apply andb_true_iff in E2. destruct E2 as [_ E2]. apply Z.eqb_eq in E2.
      cbn [fst snd]. rewrite RowFacts.flushed_level; [reflexivity|].
      cbn [Complaint.escalation_level Complaint.set_escalation_level]. lia.
    + cbn [fst snd]. now rewrite RowFacts.flushed_unwritten.
Qed.

Lemma step_outcomes (now : Z) (c : Complaint.t) :
  step now c = (false, c)
  \/ (is_open c = true /\ Complaint.escalation_level c = 0%Z
      /\ step now c
         = (true,
            Complaint.set_updated_at (Some now)
              (Complaint.set_escalated_at (Some now)
                 (Complaint.set_escalation_level 1%Z c))))
  \/ (is_open c = true /\ Complaint.escalation_level c = 1%Z
      /\ step now c
         = (true,
            Complaint.set_updated_at (Some now)
              (Complaint.set_escalation_level 2%Z c))).
Proof.
  rewrite step_eq. destruct (is_open c); [|now left].
  destruct (Py.gt _ (inject_Z (Py.dict_get _ _ _)) && _) eqn:E1.
  - right; left. apply andb_true_iff in E1. destruct E1 as [_ E1].
    apply Z.eqb_eq in E1. auto.
  - destruct (Py.gt _ (inject_Z (_ * 2)) && _) eqn:E2; [|left; reflexivity].
    right; right. apply andb_true_iff in E2. destruct E2 as [_ E2].
    apply Z.eqb_eq in E2. auto.
Qed.

(** Case analysis on the tests of [step], exposing one layer at a time. *)
Ltac step_cases c :=
  repeat (rewrite ?step_eq; unfold is_open;
          cbn [fst snd andb Complaint.status Complaint.priority
               Complaint.created_at Complaint.escalation_level
               Complaint.set_escalation_level Complaint.set_escalated_at
               Complaint.set_updated_at];
          change (1 =? 0)%Z with false; change (1 =? 1)%Z with true;
          change (2 =? 0)%Z with false; change (2 =? 1)%Z with false;
          match goal with
          | H : ?t = _ |- context [?t] => rewrite H
          | |- context [Py.in_list (Complaint.status c) ?l] =>
              destruct (Py.in_list (Complaint.status c) l) eqn:?
          | |- context [(Complaint.escalation_level c =? ?k)%Z] =>
              destruct (Complaint.escalation_level c =? k)%Z eqn:?
          | |- context [Py.gt (hours_between ?n (Complaint.created_at c)) ?b] =>
              destruct (Py.gt (hours_between n (Complaint.created_at c)) b) eqn:?
          end);
  rewrite ?step_eq; unfold is_open;
  cbn [fst snd andb Complaint.status Complaint.priority
       Complaint.created_at Complaint.escalation_level
       Complaint.set_escalation_level Complaint.set_escalated_at
       Complaint.set_updated_at].

Ltac step_done :=
  try reflexivity;
  try match goal with
      | H1 : (?l =? 0)%Z = true, H2 : (?l =? 1)%Z = true |- _ =>
          apply Z.eqb_eq in H1; apply Z.eqb_eq in H2; lia
      end;
  try match goal with
      | H : Py.gt ?h (inject_Z (Py.dict_get thresholds ?p 72%Z * 2)) = true,
        H' : Py.gt ?h (inject_Z (Py.dict_get thresholds ?p 72%Z)) = false |- _ =>
          apply past_double_past_single in H; congruence
      end.

Lemma step_second_flag (now : Z) (c : Complaint.t) :
  fst (step now (snd (step now c))) = Reference.two_steps_behind now c.
Proof.
  unfold Reference.two_steps_behind. step_cases c; step_done.
Qed.

Lemma step_second_idle (now : Z) (c : Complaint.t) :
  Reference.two_steps_behind now c = false ->
  step now (snd (step now c)) = (false, snd (step now c)).
Proof.
  unfold Reference.two_steps_behind. step_cases c; step_done;
    intros; try discriminate.
Qed.

Lemma step_third_idle (now : Z) (c : Complaint.t) :
  let c2 := snd (step now (snd (step now c))) in
  step now c2 = (false, c2).
Proof.
  cbv zeta. step_cases c; step_done.
Qed.

(** C2, as stated, fails: on a critical complaint created 9 hours ago at
    level 0 the first run of the driver moves it to level 1 and a second
    run at the same instant reports one more escalation and moves it to
    level 2. *)
Lemma run_escalation_check_second_run_escalates :
  let first := run_escalation_check nine_hours [stale_critical] in
  let second := run_escalation_check nine_hours (snd first) in
  fst first = 1%Z
  /\ map Complaint.escalation_level (snd first) = [1%Z]
  /\ fst second = 1%Z
  /\ map Complaint.escalation_level (snd second) = [2%Z].
Proof. vm_compute. repeat split. Qed.

(** C2, amended.  At a fixed instant the driver settles after two runs:
    a third run reports 0 and changes nothing.  The second run reports
    exactly the complaints that were open at level 0 with an age beyond
    twice their threshold before the first run (the first run took them
    to level 1, the second takes them to level 2); when there is none,
    the second run reports 0 and changes nothing. *)
Theorem run_escalation_check_settles (now : Z) (complaints : Table.t) :
  let first := run_escalation_check now complaints in
  let second := run_escalation_check now (snd first) in
  run_escalation_check now (snd second) = (0%Z, snd second)
  /\ fst second = Table.count (Reference.two_steps_behind now) complaints
  /\ (Table.count (Reference.two_steps_behind now) complaints = 0%Z ->
      second = (0%Z, snd first)).
Proof.
  cbv zeta. induction complaints as [|c rest IH].
  - cbn. repeat split.
  - destruct IH as (IH3 & IH2 & IH0).
    rewrite !run_escalation_check_cons. cbn [fst snd].
    rewrite !run_escalation_check_cons. cbn [fst snd].
    split; [|split].
    + rewrite run_escalation_check_cons, IH3. cbn [fst snd].
      pose proof (step_third_idle now c) as H3. cbv zeta in H3.
      rewrite H3. reflexivity.
    + rewrite step_second_flag, IH2. unfold Table.count. cbn [filter].
      destruct (Reference.two_steps_behind now c); cbn [List.length]; lia.
    + unfold Table.count in *. cbn [filter].
      destruct (Reference.two_steps_behind now c) eqn:E;
        cbn [List.length]; [lia|].
      intros H0. specialize (IH0 H0).
      rewrite (step_second_idle now c E), IH0. reflexivity.
Qed.

End EscalationProofs.

(* ------------------------------------------------------------------ *)
(** ** The assignment balancer ([auto_assign_complaint]) *)

Module AssignmentProofs.
Import ComplaintService Scenarios.

(** The selection loop keeps the first officer of least load: with [o]
    selected after [pre ++ o :: mid] has been seen, every officer of
    [pre] strictly more loaded than [o] and every officer of [mid] at
    least as loaded, the loop over the remaining officers ends on an
    officer with the same two properties in the whole list. *)
Lemma select_loop (complaints : Table.t) (rest : list User.t) :
  forall (pre mid : list User.t) (o : User.t),
    (forall o', In o' pre ->
                (pending_count complaints o < pending_count complaints o')%Z) ->
    (forall o', In o' mid ->
                (pending_count complaints o <= pending_count complaints o')%Z) ->
    exists before best after,
      (pre ++ o :: mid ++ rest = before ++ best :: after)%list
      /\ fold_left (select_step complaints) rest
                   (Some (pending_count complaints o), Some o)
         = (Some (pending_count complaints best), Some best)
      /\ (forall o', In o' before ->
            (pending_count complaints best < pending_count complaints o')%Z)
      /\ (forall o', In o' after ->
            (pending_count complaints best <= pending_count complaints o')%Z).
Proof.
  induction rest as [|x rest IH]; intros pre mid o Hpre Hmid.
  - exists pre, o, mid. rewrite app_nil_r. cbn. auto.
  - cbn [fold_left]. unfold select_step at 2.
    destruct (pending_count complaints x <? pending_count complaints o)%Z eqn:E.
    + apply Z.ltb_lt in E.
      destruct (IH (pre ++ o :: mid)%list [] x) as (before & best & after & H1 & H2 & H3 & H4).
      * intros o' Hin. apply in_app_or in Hin. destruct Hin as [Hin|[<-|Hin]].
        -- specialize (Hpre _ Hin). lia.
        -- exact E.
        -- specialize (Hmid _ Hin). lia.
      * intros o' [].
      * exists before, best, after. repeat split; try assumption.
        rewrite <- H1. cbn. rewrite <- app_assoc. reflexivity.
    + apply Z.ltb_ge in E.
      destruct (IH pre (mid ++ [x])%list o) as (before & best & after & H1 & H2 & H3 & H4).
      * exact Hpre.
      * intros o' Hin. apply in_app_or in Hin. destruct Hin as [Hin|[<-|[]]].
        -- now apply Hmid.
        -- exact E.
      * exists before, best, after. repeat split; try assumption.
        rewrite <- H1. rewrite <- app_assoc. reflexivity.
Qed.

(** The query selects the active caseworkers of the department. *)
Lemma officers_of_eligible (d : string) (users : list User.t) (u : User.t) :
  In u (officers_of d users) <-> In u users /\ Reference.eligible d u.
Proof.
  unfold officers_of, Reference.eligible. rewrite filter_In.
  rewrite !andb_true_iff, String.eqb_eq.
  destruct (User.department u) as [d'|].
  - rewrite String.eqb_eq. split.
    + intros (Hin & (Hr & ->) & Ha). auto.
    + intros (Hin & Hr & Hd & Ha). inversion Hd. auto.
  - split.
    + intros (_ & (_ & F) & _). discriminate F.
    + intros (_ & _ & F & _). discriminate F.
Qed.

(** The count query of the loop is the open-assignment count. *)
Lemma pending_count_open_load (complaints : Table.t) (u : User.t) :
  pending_count complaints u = Reference.open_load complaints u.
Proof.
  unfold pending_count, Reference.open_load, Table.count. do 2 f_equal.
  apply filter_ext. intros c. unfold opt_Z_eqb, is_open, Py.in_list.
  cbn [existsb]. now rewrite orb_false_r.
Qed.

(** An element of a filtered list, with what precedes and follows it in
    the list that was filtered. *)
Lemma filter_split {A : Type} (p : A -> bool) (l : list A) :
  forall before x after,
    filter p l = (before ++ x :: after)%list ->
    exists before' after',
      l = (before' ++ x :: after')%list
      /\ filter p before' = before
      /\ filter p after' = after.
Proof.
  induction l as [|y l IH]; intros before x after H.
  - destruct before; discriminate H.
  - cbn [filter] in H. destruct (p y) eqn:Ey.
    + destruct before as [|b before]; cbn in H; inversion H; subst.
      * exists [], l. cbn. auto.
      * destruct (IH _ _ _ H2) as (b' & a' & -> & Hb & Ha).
        exists (b :: b'), a'. cbn. rewrite Ey, Hb. auto.
    + destruct (IH _ _ _ H) as (b' & a' & -> & Hb & Ha).
      exists (y :: b'), a'. cbn. rewrite Ey. auto.
Qed.

(** C7.  [auto_assign_complaint] returns no officer when the complaint has
    no department or the department has no active caseworker (a user with
    the role officer, of that department, and active).  Otherwise it
    returns, and assigns, the first active caseworker of the department,
    in the order of the users, whose count of open (pending or in
    progress) assigned complaints is least: every active caseworker of the
    department before it is strictly more loaded, every one after it at
    least as loaded.  With loads 3, 1, 1 the caseworker at index 1 is
    chosen, also when citizens, inactive officers and officers of other
    departments with no load at all stand between them. *)
Theorem auto_assign_complaint_least_loaded
        (users : list User.t) (complaints : Table.t) (complaint : Complaint.t) :
  let result := auto_assign_complaint users complaints complaint in
  (Complaint.department complaint = None
   \/ Complaint.department complaint = Some "" ->
   result = (None, complaint))
  /\ (forall d, Complaint.department complaint = Some d ->
               (forall u, In u users -> ~ Reference.eligible d u) ->
               result = (None, complaint))
  /\ (forall d, Complaint.department complaint = Some d -> d <> "" ->
               (exists u, In u users /\ Reference.eligible d u) ->
               exists before best after,
                 (users = before ++ best :: after)%list
                 /\ Reference.eligible d best
                 /\ result
                    = (Some best,
                       Complaint.set_officer_id (Some (User.id best)) complaint)
                 /\ (forall o, In o before -> Reference.eligible d o ->
                       (Reference.open_load complaints best
                        < Reference.open_load complaints o)%Z)
                 /\ (forall o, In o after -> Reference.eligible d o ->
                       (Reference.open_load complaints best
                        <= Reference.open_load complaints o)%Z))
  /\ (map (Reference.open_load loads_3_1_1) [officer 10; officer 11; officer 12]
      = [3%Z; 1%Z; 1%Z]
      /\ auto_assign_complaint [officer 10; officer 11; officer 12]
                               loads_3_1_1 incoming
         = (Some (officer 11), Complaint.set_officer_id (Some 11%Z) incoming)
      /\ map (Reference.open_load loads_3_1_1) staff
         = [0%Z; 3%Z; 0%Z; 1%Z; 0%Z; 1%Z]
      /\ auto_assign_complaint staff loads_3_1_1 incoming
         = (Some (officer 11), Complaint.set_officer_id (Some 11%Z) incoming)
      /\ auto_assign_complaint [citizen 20; inactive_officer 21; water_officer 22]
                               loads_3_1_1 incoming
         = (None, incoming)).
Proof.
  intros result. subst result. unfold auto_assign_complaint.
  split; [|split; [|split]].
  - intros [-> | ->]; reflexivity.
  - intros d -> Hnone.
    destruct (officers_of d users) as [|o rest] eqn:Eo;
      [now destruct (String.eqb d "")|].
    exfalso. apply (Hnone o); apply (officers_of_eligible d users o);
      rewrite Eo; now left.
  - intros d -> Hd (u & Hu & Helig).
    destruct (String.eqb_spec d "") as [E|_]; [contradiction|].
    destruct (officers_of d users) as [|o rest] eqn:Eo.
    { exfalso. assert (Hin : In u (officers_of d users))
        by (apply officers_of_eligible; auto).
      rewrite Eo in Hin. destruct Hin. }
    cbn [fold_left]. unfold select_step at 2.
    destruct (select_loop complaints rest [] [] o)
      as (before & best & after & H1 & H2 & H3 & H4).
    + intros o' [].
    + intros o' [].
    + cbn [app] in H1. rewrite <- Eo in H1.
      destruct (filter_split _ users before best after H1)
        as (before' & after' & Husers & Hb & Ha).
      assert (Hbest : In best (officers_of d users)).
      { rewrite H1. apply in_or_app. right. now left. }
      apply officers_of_eligible in Hbest.
      exists before', best, after'. rewrite H2.
      split; [exact Husers|]. split; [apply Hbest|]. split; [reflexivity|].
      rewrite <- !pending_count_open_load.
      split.
      * intros o' Hin He. rewrite <- pending_count_open_load. apply H3.
        rewrite <- Hb.
        assert (Hf : In o' (officers_of d before'))
          by (apply officers_of_eligible; auto).
        exact Hf.
      * intros o' Hin He. rewrite <- pending_count_open_load. apply H4.
        rewrite <- Ha.
        assert (Hf : In o' (officers_of d after'))
          by (apply officers_of_eligible; auto).
        exact Hf.
  - repeat split; vm_compute; reflexivity.
Qed.

End AssignmentProofs.

(* ------------------------------------------------------------------ *)
(** ** The duplicate linker ([mark_as_duplicate]) *)

Module DuplicateProofs.
Import ComplaintService Invariants Scenarios.

Lemma get_update_same (key : Z) (f : Complaint.t -> Complaint.t) (rows : Table.t) :
  (forall c, Complaint.id (f c) = Complaint.id c) ->
  Table.get key (Table.update key f rows) = option_map f (Table.get key rows).
Proof.
  intros Hid. unfold Table.update.
  induction rows as [|c rows IH]; cbn; [reflexivity|].
  destruct (Complaint.id c =? key)%Z eqn:E; cbn.
  - now rewrite Hid, E.
  - now rewrite E.
Qed.

Lemma get_update_other (key key' : Z) (f : Complaint.t -> Complaint.t)
      (rows : Table.t) :
  key <> key' ->
  (forall c, Complaint.id (f c) = Complaint.id c) ->
  Table.get key (Table.update key' f rows) = Table.get key rows.
Proof.
  intros Hne Hid. unfold Table.update.
  induction rows as [|c rows IH]; cbn; [reflexivity|].
  destruct (Complaint.id c =? key')%Z eqn:E'; cbn.
  - rewrite Hid. apply Z.eqb_eq in E'.
    destruct (Z.eqb_spec (Complaint.id c) key); [lia | exact IH].
  - now rewrite IH.
Qed.

(** What the count query sees once the pending link is flushed: the
    duplicates there were, and the rows of the duplicate that did not
    point at the original yet. *)
Lemma count_duplicates_linked (dup orig : Z) (rows : Table.t) :
  count_duplicates orig (Table.update dup (link orig) rows)
  = (count_duplicates orig rows
     + Table.count (fun c => (Complaint.id c =? dup)%Z
                             && negb (opt_Z_eqb (Complaint.duplicate_of_id c) orig))
                   rows)%Z.
Proof.
  unfold count_duplicates, Table.count, Table.update.
  induction rows as [|c rows IH]; cbn [map filter List.length]; [reflexivity|].
  destruct (Complaint.id c =? dup)%Z; cbn [andb].
  - unfold link at 1. cbn [Complaint.duplicate_of_id Complaint.set_duplicate_of_id
                           Complaint.set_is_duplicate opt_Z_eqb].
    rewrite Z.eqb_refl.
    destruct (opt_Z_eqb (Complaint.duplicate_of_id c) orig);
      cbn [negb List.length]; lia.
  - destruct (opt_Z_eqb (Complaint.duplicate_of_id c) orig);
      cbn [List.length]; lia.
Qed.

Lemma boosted_bounds (count : Z) (severity : Q) :
  (0 < count)%Z ->
  boosted count severity <= 1.0
  /\ boosted count severity - severity <= 0.3
  /\ (severity <= 1.0 -> severity <= boosted count severity).
Proof.
  intros Hc. unfold boosted.
  set (b := Py.min (inject_Z count * 0.1) 0.3).
  assert (Hb : b <= 0.3) by apply PyFacts.min_le_r.
  assert (Hb0 : 0 <= b).
  { apply PyFacts.min_glb; [|lra].
    assert (0 < inject_Z count) by (now rewrite <- (Zlt_Qlt 0)). lra. }
  split; [apply PyFacts.min_le_r|]. split.
  - pose proof (PyFacts.min_le_l (severity + b) 1.0). lra.
  - intros Hs. apply PyFacts.min_glb; lra.
Qed.

(** A greater count never gives a smaller boost. *)
Lemma boosted_mono (n c : Z) (severity : Q) :
  (n <= c)%Z -> boosted n severity <= boosted c severity.
Proof.
  intros H. unfold boosted.
  apply PyFacts.min_glb; [|apply PyFacts.min_le_r].
  eapply Qle_trans; [apply PyFacts.min_le_l|].
  apply Qplus_le_r.
  apply PyFacts.min_glb; [|apply PyFacts.min_le_r].
  eapply Qle_trans; [apply PyFacts.min_le_l|].
  apply Qmult_le_compat_r; [|now compute].
  now rewrite <- Zle_Qle.
Qed.

(** The row of the duplicate in the session: the linked row, stamped or
    not. *)
Lemma link_in_session_cases (autoflush : bool) (now original : Z) (c : Complaint.t) :
  link_in_session autoflush now original c = link original c
  \/ link_in_session autoflush now original c
     = Complaint.set_updated_at (Some now) (link original c).
Proof.
  unfold link_in_session, Complaint.flushed.
  destruct autoflush; [|now left].
  destruct (Complaint.eqb c (link original c)); auto.
Qed.

Lemma link_in_session_id (autoflush : bool) (now original : Z) (c : Complaint.t) :
  Complaint.id (link_in_session autoflush now original c) = Complaint.id c.
Proof.
  destruct (link_in_session_cases autoflush now original c) as [-> | ->];
    reflexivity.
Qed.

Lemma link_in_session_severity (autoflush : bool) (now original : Z)
      (c : Complaint.t) :
  Complaint.severity_score (link_in_session autoflush now original c)
  = Complaint.severity_score c.
Proof.
  destruct (link_in_session_cases autoflush now original c) as [-> | ->];
    reflexivity.
Qed.

Lemma link_in_session_link (autoflush : bool) (now original : Z)
      (c : Complaint.t) :
  Complaint.duplicate_of_id (link_in_session autoflush now original c)
  = Some original
  /\ Complaint.is_duplicate (link_in_session autoflush now original c) = true.
Proof.
  destruct (link_in_session_cases autoflush now original c) as [-> | ->];
    split; reflexivity.
Qed.

(** The count query does not look at [updated_at]. *)
Lemma count_duplicates_session (autoflush : bool) (now dup orig : Z)
      (rows : Table.t) :
  count_duplicates orig (Table.update dup (link_in_session autoflush now orig) rows)
  = count_duplicates orig (Table.update dup (link orig) rows).
Proof.
  unfold count_duplicates, Table.count, Table.update. f_equal.
  induction rows as [|c rows IH]; cbn [map filter]; [reflexivity|].
  destruct (Complaint.id c =? dup)%Z.
  - rewrite (proj1 (link_in_session_link autoflush now orig c)).
    cbn [link Complaint.duplicate_of_id Complaint.set_duplicate_of_id].
    destruct (opt_Z_eqb (Some orig) orig); cbn [List.length]; now rewrite IH.
  - destruct (opt_Z_eqb (Complaint.duplicate_of_id c) orig);
      cbn [List.length]; now rewrite IH.
Qed.

(** The count the query returns is at least the number of duplicates
    there were. *)
Lemma seen_at_least (autoflush : bool) (rows : Table.t) (dup original : Z) :
  (count_duplicates original rows
   <= Measures.seen_duplicates autoflush rows dup original)%Z.
Proof.
  unfold Measures.seen_duplicates. destruct autoflush; [|lia].
  rewrite count_duplicates_linked. unfold Table.count. lia.
Qed.

(** A call on two different complaints, branch by branch. *)
Lemma mark_as_duplicate_session
      (autoflush : bool) (now : Z) (rows : Table.t) (dup original : Z) :
  dup <> original ->
  let rows1 := Table.update dup (link_in_session autoflush now original) rows in
  let count := Measures.seen_duplicates autoflush rows dup original in
  mark_as_duplicate autoflush now rows dup original
  = if (0 <? count)%Z then
      match Table.get original rows with
      | Some o =>
          match Complaint.severity_score o with
          | Some severity =>
              (Py.Return true,
               Table.update original
                 (Complaint.set_severity_score (Some (boosted count severity)))
                 rows1)
          | None => (Py.Raise Py.TypeError, rows1)
          end
      | None => (Py.Return true, rows1)
      end
    else (Py.Return true, rows1).
Proof.
  intros Hne rows1 count. unfold mark_as_duplicate.
  destruct (Z.eqb_spec dup original) as [E|_]; [contradiction|].
  change (fun c : Complaint.t =>
            if autoflush
            then Complaint.flushed now c
                   (Complaint.set_duplicate_of_id (Some original)
                      (Complaint.set_is_duplicate true c))
            else Complaint.set_duplicate_of_id (Some original)
                   (Complaint.set_is_duplicate true c))
    with (link_in_session autoflush now original).
  fold rows1.
  assert (Hcount : count_duplicates original (if autoflush then rows1 else rows)
                   = count).
  { unfold count, Measures.seen_duplicates, rows1.
    destruct autoflush; [apply count_duplicates_session | reflexivity]. }
  rewrite Hcount.
  assert (Hget : Table.get original rows1 = Table.get original rows).
  { unfold rows1. apply get_update_other; [congruence|].
    apply link_in_session_id. }
  rewrite Hget. reflexivity.
Qed.

(** C1, as stated, fails.  Successive links add up beyond 0.3: linking
    four reports onto one original raises its severity by 0.6 when the
    count query does not see the pending link (0 + 0.1 + 0.2 + 0.3) and by
    0.9 when it does (0.1 + 0.2 + 0.3 + 0.3).  Under the autoflushing
    session the second duplicate, linked when one is already there,
    boosts by 0.2. *)
Lemma mark_as_duplicate_boost_accumulates :
  severity_of 1 (link_all false 0 five_reports [2; 3; 4; 5]%Z 1)
  - severity_of 1 five_reports == 0.6
  /\ severity_of 1 (link_all true 0 five_reports [2; 3; 4; 5]%Z 1)
     - severity_of 1 five_reports == 0.9
  /\ count_duplicates 1 (link_all true 0 five_reports [2%Z] 1) = 1%Z
  /\ severity_of 1 (link_all true 0 five_reports [2; 3]%Z 1)
     - severity_of 1 (link_all true 0 five_reports [2%Z] 1) == 0.2.
Proof. vm_compute. repeat split. Qed.

(** C1, amended.  A call with [dup <> original] on an original that has a
    severity score and [n >= 1] duplicates returns [true] and raises the
    score by [min(c * 0.1, 0.3)], clamped at 1.0, where [c >= n] is the
    count the duplicate query returns: the result never exceeds 1.0, one
    call adds at most 0.3 and, for a score not above 1.0, at least the
    clamped [min(n * 0.1, 0.3)]; nothing else is written on the original.
    With three duplicates already there a fourth link raises 0.5 to 0.8.
    There is no cap on the sum of the boosts of successive calls other
    than the clamp at 1.0: four links raise 0.05 by more than 0.3. *)
Theorem mark_as_duplicate_boost
        (autoflush : bool) (now : Z) (rows : Table.t) (dup original : Z)
        (o : Complaint.t) (severity : Q) :
  dup <> original ->
  Table.get original rows = Some o ->
  Complaint.severity_score o = Some severity ->
  (1 <= count_duplicates original rows)%Z ->
  let n := count_duplicates original rows in
  let c := Measures.seen_duplicates autoflush rows dup original in
  let r := mark_as_duplicate autoflush now rows dup original in
  fst r = Py.Return true
  /\ (n <= c)%Z
  /\ (exists o' severity',
        Table.get original (snd r) = Some o'
        /\ Complaint.severity_score o' = Some severity'
        /\ Complaint.set_severity_score (Some severity) o' = o
        /\ severity' = Py.min (severity + Py.min (inject_Z c * 0.1) 0.3) 1.0
        /\ severity' <= 1.0
        /\ severity' - severity <= 0.3
        /\ (severity <= 1.0 ->
            Py.min (severity + Py.min (inject_Z n * 0.1) 0.3) 1.0 <= severity'))
  /\ (count_duplicates 1 three_linked = 3%Z
      /\ severity_of 1 three_linked == 0.5
      /\ severity_of 1 (snd (mark_as_duplicate true 0 three_linked 5 1)) == 0.8
      /\ severity_of 1 (snd (mark_as_duplicate false 0 three_linked 5 1)) == 0.8
      /\ 0.3 < severity_of 1 (link_all true 0 five_reports [2; 3; 4; 5]%Z 1)
               - severity_of 1 five_reports
      /\ 0.3 < severity_of 1 (link_all false 0 five_reports [2; 3; 4; 5]%Z 1)
               - severity_of 1 five_reports).
Proof.
  intros Hne Hget Hsev Hn n c r.
  pose proof (seen_at_least autoflush rows dup original) as Hc. fold n c in Hc.
  assert (Hpos : (0 < c)%Z) by (subst n; lia).
  assert (Hr : r = (Py.Return true,
                    Table.update original
                      (Complaint.set_severity_score (Some (boosted c severity)))
                      (Table.update dup (link_in_session autoflush now original)
                                    rows))).
  { subst r. rewrite (mark_as_duplicate_session _ _ _ _ _ Hne). cbv zeta.
    fold c. apply Z.ltb_lt in Hpos. now rewrite Hpos, Hget, Hsev. }
  rewrite Hr. cbn [fst snd].
  split; [reflexivity|]. split; [exact Hc|]. split.
  - exists (Complaint.set_severity_score (Some (boosted c severity)) o),
           (boosted c severity).
    destruct (boosted_bounds c severity Hpos) as (B1 & B2 & _).
    split.
    { rewrite get_update_same by reflexivity.
      rewrite get_update_other;
        [now rewrite Hget | congruence | apply link_in_session_id]. }
    split; [reflexivity|].
    split; [rewrite <- Hsev; now destruct o|].
    split; [reflexivity|]. split; [exact B1|]. split; [exact B2|].
    intros _. apply (boosted_mono n c severity Hc).
  - repeat split; vm_compute; reflexivity.
Qed.

(** The amended rule at work: on [three_linked] report 5 is linked onto
    report 1, which has three duplicates. *)
Lemma mark_as_duplicate_boost_fourth_link :
  5%Z <> 1%Z
  /\ Table.get 1 three_linked = Some (report 1 0.5)
  /\ (1 <= count_duplicates 1 three_linked)%Z
  /\ fst (mark_as_duplicate true 0 three_linked 5 1) = Py.Return true.
Proof.
  assert (H1 : 5%Z <> 1%Z) by discriminate.
  assert (H2 : Table.get 1 three_linked = Some (report 1 0.5)) by reflexivity.
  assert (H3 : Complaint.severity_score (report 1 0.5) = Some 0.5) by reflexivity.
  assert (H4 : (1 <= count_duplicates 1 three_linked)%Z) by (vm_compute; discriminate).
  split; [exact H1|]. split; [exact H2|]. split; [exact H4|].
  exact (proj1 (mark_as_duplicate_boost true 0 three_linked 5 1 (report 1 0.5) 0.5
                  H1 H2 H3 H4)).
Defined.

(** Only a call on one and the same complaint returns [false]; a call on
    two different complaints whose original has a score returns [true]. *)
Lemma mark_as_duplicate_not_false
      (autoflush : bool) (now : Z) (rows : Table.t) (dup original : Z) :
  dup <> original ->
  fst (mark_as_duplicate autoflush now rows dup original) <> Py.Return false.
Proof.
  intros Hne. rewrite (mark_as_duplicate_session _ _ _ _ _ Hne). cbv zeta.
  destruct (0 <? _)%Z; [|discriminate].
  destruct (Table.get original rows) as [o|]; [|discriminate].
  destruct (Complaint.severity_score o); discriminate.
Qed.

Lemma mark_as_duplicate_true
      (autoflush : bool) (now : Z) (rows : Table.t) (dup original : Z)
      (o : Complaint.t) :
  dup <> original ->
  Table.get original rows = Some o ->
  Complaint.severity_score o <> None ->
  fst (mark_as_duplicate autoflush now rows dup original) = Py.Return true.
Proof.
  intros Hne Hget Hsev.
  rewrite (mark_as_duplicate_session _ _ _ _ _ Hne). cbv zeta.
  rewrite Hget. destruct (Complaint.severity_score o); [|contradiction].
  now destruct (0 <? _)%Z.
Qed.

(** C8, as stated, fails: the linker can raise.  On an original stored
    without a severity score that already has a duplicate, linking another
    report raises [TypeError], whether or not the session flushes before
    the count query. *)
Lemma mark_as_duplicate_raises_without_score :
  Table.get 1 unscored = Some unscored_original
  /\ Complaint.severity_score unscored_original = None
  /\ count_duplicates 1 unscored = 1%Z
  /\ fst (mark_as_duplicate true 0 unscored 3 1) = Py.Raise Py.TypeError
  /\ fst (mark_as_duplicate false 0 unscored 3 1) = Py.Raise Py.TypeError.
Proof. vm_compute. repeat split. Qed.

(** C8, amended.  Linking a complaint to itself returns [false] and leaves
    the table, hence the complaint's [is_duplicate], [duplicate_of_id] and
    [severity_score], as it was; no other call returns [false].  A call on
    two different complaints returns [true] whenever the original has a
    severity score; it raises [TypeError] exactly when the count the
    duplicate query returns is positive and the original has no severity
    score. *)
Theorem mark_as_duplicate_self_reference
        (autoflush : bool) (now : Z) (rows : Table.t) (a : Z) :
  mark_as_duplicate autoflush now rows a a = (Py.Return false, rows)
  /\ Table.get a (snd (mark_as_duplicate autoflush now rows a a))
     = Table.get a rows
  /\ (forall dup original,
        fst (mark_as_duplicate autoflush now rows dup original) = Py.Return false
        <-> dup = original)
  /\ (forall dup original o severity,
        dup <> original ->
        Table.get original rows = Some o ->
        Complaint.severity_score o = Some severity ->
        fst (mark_as_duplicate autoflush now rows dup original) = Py.Return true)
  /\ (forall dup original,
        fst (mark_as_duplicate autoflush now rows dup original)
        = Py.Raise Py.TypeError
        <-> dup <> original
            /\ (0 < Measures.seen_duplicates autoflush rows dup original)%Z
            /\ exists o, Table.get original rows = Some o
                         /\ Complaint.severity_score o = None).
Proof.
  assert (Hself : forall k, mark_as_duplicate autoflush now rows k k
                            = (Py.Return false, rows)).
  { intros k. unfold mark_as_duplicate. now rewrite Z.eqb_refl. }
  split; [apply Hself|]. split; [now rewrite Hself|].
  split; [|split].
  - intros dup original. split.
    + destruct (Z.eq_dec dup original) as [E|Hne]; [auto|].
      rewrite (mark_as_duplicate_session _ _ _ _ _ Hne). cbv zeta.
      destruct (0 <? _)%Z; [|discriminate].
      destruct (Table.get original rows) as [o|]; [|discriminate].
      destruct (Complaint.severity_score o); discriminate.
    + intros ->. now rewrite Hself.
  - intros dup original o severity Hne Hget Hsev.
    rewrite (mark_as_duplicate_session _ _ _ _ _ Hne). cbv zeta.
    rewrite Hget, Hsev. now destruct (0 <? _)%Z.
  - intros dup original. split.
    + destruct (Z.eq_dec dup original) as [E|Hne].
      { subst. rewrite Hself. discriminate. }
      rewrite (mark_as_duplicate_session _ _ _ _ _ Hne). cbv zeta.
      destruct (0 <? _)%Z eqn:Epos; [|discriminate].
      apply Z.ltb_lt in Epos.
      destruct (Table.get original rows) as [o|]; [|discriminate].
      destruct (Complaint.severity_score o) eqn:Es; [discriminate|].
      intros _. split; [exact Hne|]. split; [exact Epos|]. eauto.
    + intros (Hne & Hpos & o & Hget & Hsev).
      rewrite (mark_as_duplicate_session _ _ _ _ _ Hne). cbv zeta.
      apply Z.ltb_lt in Hpos. now rewrite Hpos, Hget, Hsev.
Qed.

End DuplicateProofs.

(* ------------------------------------------------------------------ *)
(** ** The spatial clusterer ([get_hotspots]) *)

Module HotspotProofs.
Import Analytics Invariants Scenarios.

(** *** Keys *)






(** *** The per-cell category counts *)





(** *** The [clusters] dict *)















(** *** What a cluster holds *)



(** *** Sorting *)







(** *** The loop on complaints with and without a score *)






(** *** The grid *)




(** *** The endpoint *)







End HotspotProofs.


(* ------------------------------------------------------------------ *)
(** ** More on classification, urgency and severity ([ai_service.py]) *)

Module TextProofs.
Import AIService.

Lemma lower_ascii_idem (c : ascii) :
  Py.lower_ascii (Py.lower_ascii c) = Py.lower_ascii c.
Proof. destruct c as [[] [] [] [] [] [] [] []]; reflexivity. Qed.

Lemma lower_idem (s : string) : Py.lower (Py.lower s) = Py.lower s.
Proof.
  induction s as [|c s IH]; cbn; [reflexivity|].
  now rewrite lower_ascii_idem, IH.
Qed.

Lemma lower_app (a b : string) :
  Py.lower (a ++ b)%string = (Py.lower a ++ Py.lower b)%string.
Proof.
  induction a as [|c a IH]; cbn; [reflexivity|]. now rewrite IH.
Qed.

Lemma prefix_app (kw s post : string) :
  String.prefix kw s = true -> String.prefix kw (s ++ post)%string = true.
Proof.
  revert s. induction kw as [|k kw IH]; intros s H.
  - destruct (s ++ post)%string; reflexivity.
  - destruct s as [|c s]; cbn in *; [discriminate|].
    destruct (Ascii.ascii_dec k c); [now apply IH | discriminate].
Qed.

Lemma prefix_self_app (kw post : string) :
  String.prefix kw (kw ++ post)%string = true.
Proof.
  induction kw as [|k kw IH]; cbn.
  - destruct post; reflexivity.
  - destruct (Ascii.ascii_dec k k); [exact IH | contradiction].
Qed.

Lemma contains_app_r (kw s post : string) :
  Py.contains kw s = true -> Py.contains kw (s ++ post)%string = true.
Proof.
  induction s as [|c s IH]; intros H.
  - cbn in H. rewrite orb_false_r in H.
    destruct kw; [|discriminate].
    destruct post; reflexivity.
  - cbn [Py.contains] in H. apply orb_true_iff in H.
    change ((String c s ++ post)%string) with (String c (s ++ post)%string).
    cbn [Py.contains]. apply orb_true_iff. destruct H as [H|H].
    + left. now apply (prefix_app kw (String c s) post).
    + right. now apply IH.
Qed.

Lemma contains_app_l (kw pre s : string) :
  Py.contains kw s = true -> Py.contains kw (pre ++ s)%string = true.
Proof.
  intros H. induction pre as [|c pre IH]; [exact H|].
  change ((String c pre ++ s)%string) with (String c (pre ++ s)%string).
  cbn [Py.contains]. rewrite IH. apply orb_true_r.
Qed.

(** The keyword test of the services is substring occurrence. *)
Lemma contains_occurrence (kw s : string) :
  Py.contains kw s = true <-> exists pre post, s = (pre ++ kw ++ post)%string.
Proof.
  split.
  - induction s as [|c s IH]; intros H.
    + cbn in H. rewrite orb_false_r in H. destruct kw; [|discriminate].
      exists "", "". reflexivity.
    + cbn [Py.contains] in H. apply orb_true_iff in H. destruct H as [H|H].
      * exists "". cbn [String.append].
        clear IH. revert H. generalize (String c s). clear c s.
        induction kw as [|k kw IH]; intros s H.
        -- exists s. reflexivity.
        -- destruct s as [|c s]; cbn in H; [discriminate|].
           destruct (Ascii.ascii_dec k c) as [->|]; [|discriminate].
           destruct (IH s H) as [post ->]. exists post. reflexivity.
      * destruct (IH H) as (pre & post & ->).
        exists (String c pre), post. reflexivity.
  - intros (pre & post & ->). apply contains_app_l.
    destruct kw as [|k kw].
    + destruct post; reflexivity.
    + change ((String k kw ++ post)%string) with (String k (kw ++ post)%string).
      cbn [Py.contains]. apply orb_true_iff. left.
      apply (prefix_self_app (String k kw) post).
Qed.

(** A word of the text, in any letter case, is found through its
    lower-cased form. *)
Lemma contains_word (pre word post : string) :
  Py.contains (Py.lower word) (Py.lower (pre ++ word ++ post)%string) = true.
Proof.
  apply contains_occurrence. exists (Py.lower pre), (Py.lower post).
  now rewrite !lower_app.
Qed.

Lemma critical_hit_In (kws : list string) (t kw : string) :
  In kw kws -> Py.contains kw t = true -> critical_hit kws t = true.
Proof.
  intros Hin Hc. rewrite AIServiceProofs.critical_hit_existsb.
  apply existsb_exists. eauto.
Qed.

Lemma count_in_positive (kws : list string) (t kw : string) :
  In kw kws -> Py.contains kw t = true -> (0 < Py.count_in kws t)%Z.
Proof.
  intros Hin Hc. unfold Py.count_in.
  assert (Hf : In kw (filter (fun k => Py.contains k t) kws))
    by (apply filter_In; auto).
  destruct (filter _ kws); [destruct Hf | cbn; lia].
Qed.

(** *** Letter case *)

Lemma capital_test (c : ascii) :
  ((65 <=? nat_of_ascii c) && (nat_of_ascii c <=? 90))%nat = true
  <-> Reference.capital c.
Proof.
  unfold Reference.capital.
  rewrite andb_true_iff, !Nat.leb_le. reflexivity.
Qed.

Lemma lower_ascii_capital (c : ascii) :
  Reference.capital c ->
  nat_of_ascii (Py.lower_ascii c) = (nat_of_ascii c + 32)%nat.
Proof.
  intros H. unfold Py.lower_ascii.
  rewrite (proj2 (capital_test c) H).
  apply nat_ascii_embedding. unfold Reference.capital in H. lia.
Qed.

Lemma lower_ascii_other (c : ascii) :
  ~ Reference.capital c -> Py.lower_ascii c = c.
Proof.
  intros H. unfold Py.lower_ascii.
  destruct ((65 <=? nat_of_ascii c) && (nat_of_ascii c <=? 90))%nat eqn:E;
    [|reflexivity].
  exfalso. now apply H, capital_test.
Qed.

Lemma ascii_by_code (c c' : ascii) :
  nat_of_ascii c = nat_of_ascii c' -> c = c'.
Proof.
  intros H. rewrite <- (ascii_nat_embedding c), <- (ascii_nat_embedding c').
  now rewrite H.
Qed.

Lemma small_of_capital (c c' : ascii) :
  Reference.capital c -> nat_of_ascii c' = (nat_of_ascii c + 32)%nat ->
  Py.lower_ascii c = c' /\ Py.lower_ascii c' = c'.
Proof.
  intros Hc Hc'. split.
  - apply ascii_by_code. now rewrite lower_ascii_capital.
  - apply lower_ascii_other. unfold Reference.capital in *. lia.
Qed.




Lemma case_variant_lower (a b : string) :
  Reference.case_variant a b -> Py.lower a = Py.lower b.
Proof.
  induction 1 as [|c s t _ IH|c c' s t Hc Hc' _ IH|c c' s t Hc Hc' _ IH];
    cbn [Py.lower]; try reflexivity; rewrite IH; f_equal.
  - destruct (small_of_capital c c' Hc Hc') as [E1 E2]. congruence.
  - destruct (small_of_capital c c' Hc Hc') as [E1 E2]. congruence.
Qed.

(** X1.  Classification, urgency and the whole of [process_complaint] do
    not depend on the letter case of the text: two texts that differ only
    in the case of letters get the same category, confidence, urgency,
    severity and priority. *)
Theorem text_analysis_ignores_case (a b : string) :
  Reference.case_variant a b ->
  classify_category a = classify_category b
  /\ calculate_keyword_urgency a = calculate_keyword_urgency b
  /\ forall weights category latitude longitude,
       process_complaint weights a category latitude longitude
       = process_complaint weights b category latitude longitude.
Proof.
  intros Hab. apply case_variant_lower in Hab.
  assert (Hc : classify_category a = classify_category b).
  { unfold classify_category. now rewrite Hab. }
  assert (Hu : calculate_keyword_urgency a = calculate_keyword_urgency b).
  { unfold calculate_keyword_urgency. now rewrite Hab. }
  split; [exact Hc|]. split; [exact Hu|].
  intros weights category latitude longitude.
  unfold process_complaint, calculate_severity_score. now rewrite Hc, Hu.
Qed.

(** The same report typed in capitals and in small letters: both are
    classified as roads with urgency 1.0. *)
Lemma text_analysis_ignores_case_gas_leak :
  Reference.case_variant "GAS LEAK on the Road" "gas leak on the road"
  /\ classify_category "GAS LEAK on the Road"
     = classify_category "gas leak on the road"
  /\ fst (classify_category "GAS LEAK on the Road") = "roads"
  /\ calculate_keyword_urgency "GAS LEAK on the Road"
     = calculate_keyword_urgency "gas leak on the road"
  /\ calculate_keyword_urgency "GAS LEAK on the Road" == 1.
Proof.
  assert (H : Reference.case_variant "GAS LEAK on the Road" "gas leak on the road").
  { repeat first
      [ apply Reference.case_variant_end
      | apply Reference.case_variant_same
      | apply Reference.case_variant_lower;
        [unfold Reference.capital; cbn; lia | reflexivity |] ]. }
  split; [exact H|].
  split; [exact (proj1 (text_analysis_ignores_case _ _ H))|].
  split; [vm_compute; reflexivity|].
  split; [exact (proj1 (proj2 (text_analysis_ignores_case _ _ H)))|].
  vm_compute. reflexivity.
Defined.

(** X2.  A critical-tier keyword anywhere in the text, in any letter case,
    gives urgency 1.0; at submission such a text gets, with the configured
    weights, the severity 0.51 and the priority medium. *)
Theorem critical_keyword_anywhere (pre word post : string) :
  In (Py.lower word) urgency_critical ->
  calculate_keyword_urgency (pre ++ word ++ post)%string = 1.0
  /\ forall category latitude longitude,
       let r := process_complaint SEVERITY_WEIGHTS (pre ++ word ++ post)%string
                                  category latitude longitude in
       p_severity_score r == 0.51 /\ p_priority r = "medium".
Proof.
  intros Hin.
  assert (Hu : calculate_keyword_urgency (pre ++ word ++ post)%string = 1.0).
  { unfold calculate_keyword_urgency.
    rewrite (critical_hit_In _ _ _ Hin (contains_word pre word post)).
    reflexivity. }
  split; [exact Hu|].
  intros category latitude longitude. unfold process_complaint.
  destruct (classify_category (pre ++ word ++ post)%string) as [ai conf].
  cbn [p_severity_score p_priority].
  unfold calculate_severity_score. rewrite Hu.
  split; vm_compute; reflexivity.
Qed.

Lemma critical_keyword_anywhere_gas_leak :
  In (Py.lower "Gas Leak") urgency_critical
  /\ calculate_keyword_urgency ("there is a " ++ "Gas Leak" ++ " on the street")%string
     = 1.0.
Proof.
  assert (H : In (Py.lower "Gas Leak") urgency_critical).
  { vm_compute. do 9 right. left. reflexivity. }
  split; [exact H|].
  exact (proj1 (critical_keyword_anywhere "there is a " "Gas Leak"
                                          " on the street" H)).
Defined.

(** X3.  A text that mentions a keyword of some category, in any letter
    case and inside any surrounding text, is never classified as
    ['other']: it gets one of the seven keyword categories. *)
Theorem category_keyword_anywhere
        (category : string) (keywords : list string) (pre word post : string) :
  In (category, keywords) category_keywords ->
  In (Py.lower word) keywords ->
  fst (classify_category (pre ++ word ++ post)%string) <> "other"
  /\ In (fst (classify_category (pre ++ word ++ post)%string))
        (map fst category_keywords).
Proof.
  intros Htable Hkw.
  set (text := (pre ++ word ++ post)%string).
  pose proof (count_in_positive _ _ _ Hkw (contains_word pre word post)) as Hpos.
  fold text in Hpos.
  assert (Hscored : In (category, Py.count_in keywords (Py.lower text))
                       (score_categories category_keywords (Py.lower text))).
  { apply AIServiceProofs.score_categories_In. exists keywords. auto. }
  unfold classify_category.
  destruct (score_categories category_keywords (Py.lower text))
    as [|first rest] eqn:E; [destruct Hscored|].
  cbn [fst].
  destruct (PyFacts.max_item_spec rest first) as [Hin _].
  rewrite <- E in Hin.
  destruct (Py.max_item first rest) as [best n].
  apply AIServiceProofs.score_categories_In in Hin.
  destruct Hin as (kws & Hbest & _).
  assert (Hmem : In best (map fst category_keywords)).
  { apply (in_map fst) in Hbest. exact Hbest. }
  cbn [fst]. split; [|exact Hmem].
  intros ->. cbn in Hmem.
  repeat (destruct Hmem as [Hmem|Hmem]; [discriminate Hmem|]). exact Hmem.
Qed.

Lemma category_keyword_anywhere_pothole :
  In ("roads",
      ["road"; "pothole"; "street"; "highway"; "pavement"; "sidewalk";
       "traffic"; "signal"; "footpath"; "crossing"; "bridge"; "asphalt"])
     category_keywords
  /\ fst (classify_category ("Huge " ++ "POTHOLE" ++ " here")%string) <> "other".
Proof.
  assert (H1 : In ("roads",
      ["road"; "pothole"; "street"; "highway"; "pavement"; "sidewalk";
       "traffic"; "signal"; "footpath"; "crossing"; "bridge"; "asphalt"])
     category_keywords) by (left; reflexivity).
  assert (H2 : In (Py.lower "POTHOLE")
      ["road"; "pothole"; "street"; "highway"; "pavement"; "sidewalk";
       "traffic"; "signal"; "footpath"; "crossing"; "bridge"; "asphalt"])
    by (vm_compute; right; left; reflexivity).
  split; [exact H1|].
  exact (proj1 (category_keyword_anywhere _ _ "Huge " "POTHOLE" " here" H1 H2)).
Defined.

Lemma sum_bounded_by_max {K : Type} (d : list (K * Z)) (m : Z) :
  (forall kv, In kv d -> (snd kv <= m)%Z) ->
  (fold_right Z.add 0%Z (map snd d) <= Z.of_nat (List.length d) * m)%Z.
Proof.
  induction d as [|kv d IH]; intros H; [cbn; lia|].
  cbn [map fold_right List.length].
  assert (H1 : (snd kv <= m)%Z) by (apply H; now left).
  assert (H2 : (fold_right Z.add 0 (map snd d) <= Z.of_nat (List.length d) * m)%Z).
  { apply IH. intros x Hx. apply H. now right. }
  lia.
Qed.

Lemma score_categories_length table t :
  (List.length (score_categories table t) <= List.length table)%nat.
Proof.
  induction table as [|[c kws] table IH]; cbn; [lia|].
  destruct (0 <? Py.count_in kws t)%Z; cbn; lia.
Qed.

Lemma classifier_category_known (text : string) :
  In (fst (classify_category text)) categories.
Proof.
  unfold classify_category.
  destruct (score_categories category_keywords (Py.lower text))
    as [|first rest] eqn:E; [cbn; tauto|].
  destruct (PyFacts.max_item_spec rest first) as [Hin _].
  rewrite <- E in Hin.
  destruct (Py.max_item first rest) as [best n].
  apply AIServiceProofs.score_categories_In in Hin.
  destruct Hin as (kws & Hbest & _).
  apply (in_map fst) in Hbest. cbn in Hbest. cbn.
  repeat (destruct Hbest as [Hbest|Hbest]; [subst best; tauto|]).
  destruct Hbest.
Qed.

(** X4.  [classify_category] always returns one of the eight categories of
    the service, with a confidence between 1/7 and 0.9. *)
Theorem classify_category_range (text : string) :
  In (fst (classify_category text)) categories
  /\ 1 # 7 <= snd (classify_category text)
  /\ snd (classify_category text) <= 0.9.
Proof.
  unfold classify_category. set (t := Py.lower text).
  destruct (score_categories category_keywords t) as [|first rest] eqn:E.
  - cbn. split; [tauto|]. split; [now compute | now compute].
  - destruct (PyFacts.max_item_spec rest first) as [Hin Hmax].
    pose proof (score_categories_length category_keywords t) as Hlen.
    rewrite E in Hlen.
    assert (Hsum := sum_bounded_by_max (first :: rest)
                      (snd (Py.max_item first rest)) Hmax).
    assert (Hshift := AIServiceProofs.sum_values_shift (first :: rest) 0%Z).
    fold (Py.sum_values (first :: rest)) in Hshift.
    rewrite <- E in Hin.
    destruct (Py.max_item first rest) as [best n] eqn:Eb.
    apply AIServiceProofs.score_categories_In in Hin.
    destruct Hin as (kws & Hbest & Hn & Hpos).
    cbn [fst snd] in *.
    split; [|split; [|apply PyFacts.min_le_r]].
    + apply (in_map fst) in Hbest. cbn in Hbest. cbn.
      repeat (destruct Hbest as [Hbest|Hbest]; [subst best; tauto|]).
      destruct Hbest.
    + change (List.length category_keywords) with 7%nat in Hlen.
      set (total := Py.sum_values (first :: rest)) in *.
      assert (Ht : (total <= 7 * n)%Z) by nia.
      assert (Htpos : (0 < total)%Z).
      { assert (In (best, n) (first :: rest)).
        { rewrite <- Eb. apply (proj1 (PyFacts.max_item_spec rest first)). }
        assert (Hge : forall d : list (string * Z),
                  (forall kv, In kv d -> (0 < snd kv)%Z) ->
                  forall x, In x d -> (snd x <= fold_right Z.add 0 (map snd d))%Z).
        { induction d as [|y d IH]; intros Hall x Hx; [destruct Hx|].
          cbn [map fold_right].
          assert (0 <= fold_right Z.add 0 (map snd d))%Z.
          { clear - Hall. induction d as [|z d IH]; cbn; [lia|].
            assert (0 < snd z)%Z by (apply Hall; right; now left).
            assert (0 <= fold_right Z.add 0 (map snd d))%Z.
            { apply IH. intros kv [Hk|Hk]; apply Hall; [now left | right; now right]. }
            lia. }
          assert (0 < snd y)%Z by (apply Hall; now left).
          destruct Hx as [->|Hx]; [lia|].
          assert (snd x <= fold_right Z.add 0 (map snd d))%Z.
          { apply IH; [|exact Hx]. intros kv Hk. apply Hall. now right. }
          lia. }
        assert (Hall : forall kv, In kv (first :: rest) -> (0 < snd kv)%Z).
        { intros [c k] Hk. rewrite <- E in Hk.
          apply AIServiceProofs.score_categories_In in Hk.
          destruct Hk as (? & _ & _ & Hk). exact Hk. }
        specialize (Hge _ Hall _ H). cbn [snd] in Hge. unfold total. lia. }
      apply PyFacts.min_glb; [|now compute].
      apply Z.ltb_lt in Htpos as Hb. rewrite Hb.
      apply Qle_shift_div_l; [now rewrite <- (Zlt_Qlt 0)|].
      apply Qle_trans with (inject_Z total * (1 # 7)); [rewrite Qmult_comm; apply Qle_refl|].
      rewrite Zle_Qle, inject_Z_mult in Ht.
      apply Qle_trans with (7 * inject_Z n * (1 # 7)).
      * apply Qmult_le_compat_r; [exact Ht | now compute].
      * setoid_replace (7 * inject_Z n * (1 # 7)) with (inject_Z n) by ring.
        apply Qle_refl.
Qed.

(** *** The urgency scorer against its description *)






End TextProofs.

(* ------------------------------------------------------------------ *)
(** ** The severity score over time and under other weights *)

Module SeverityProofs.
Import AIService.

Lemma round_mono (x y : Q) : x <= y -> (Py.round x <= Py.round y)%Z.
Proof.
  intros Hxy.
  destruct (Z_le_gt_dec (Py.round x) (Py.round y)) as [Hle|Hgt]; [exact Hle|].
  exfalso.
  destruct (PyFacts.round_near x) as [Hx _].
  destruct (PyFacts.round_near y) as [_ Hy].
  assert (Hstep : inject_Z (Py.round y) + 1 <= inject_Z (Py.round x)).
  { change 1 with (inject_Z 1). rewrite <- inject_Z_plus, <- Zle_Qle. lia. }
  assert (Heq : x == y).
  { set (a := inject_Z (Py.round x)) in *. set (b := inject_Z (Py.round y)) in *.
    apply Qle_antisym; [exact Hxy | lra]. }
  pose proof (PyFacts.round_comp x y Heq). lia.
Qed.

Lemma round_to_mono (x y : Q) (ndigits : nat) :
  x <= y -> Py.round_to x ndigits <= Py.round_to y ndigits.
Proof.
  intros Hxy. unfold Py.round_to.
  set (scale := inject_Z (10 ^ Z.of_nat ndigits)).
  assert (Hs : 0 < scale).
  { unfold scale. rewrite <- (Zlt_Qlt 0). apply Z.pow_pos_nonneg; lia. }
  apply Qmult_le_compat_r.
  - rewrite <- Zle_Qle. apply round_mono.
    apply Qmult_le_compat_r; [exact Hxy | now apply Qlt_le_weak].
  - apply Qlt_le_weak. now apply Qinv_lt_0_compat.
Qed.

Lemma min_mono_l (a a' b : Q) : a <= a' -> Py.min a b <= Py.min a' b.
Proof.
  intros H. apply PyFacts.min_glb.
  - eapply Qle_trans; [apply PyFacts.min_le_l | exact H].
  - apply PyFacts.min_le_r.
Qed.

Lemma round_to_le (hi : Z) (x : Q) (ndigits : nat) :
  let scale := inject_Z (10 ^ Z.of_nat ndigits) in
  x <= inject_Z hi / scale -> Py.round_to x ndigits <= inject_Z hi / scale.
Proof.
  intros scale H. unfold Py.round_to. fold scale.
  assert (Hs : 0 < scale).
  { unfold scale. rewrite <- (Zlt_Qlt 0). apply Z.pow_pos_nonneg; lia. }
  apply Qmult_le_compat_r; [|apply Qlt_le_weak; now apply Qinv_lt_0_compat].
  rewrite <- Zle_Qle. apply PyFacts.round_upper.
  now apply PyFacts.le_div_mult.
Qed.

Lemma round_to_ge (lo : Z) (x : Q) (ndigits : nat) :
  let scale := inject_Z (10 ^ Z.of_nat ndigits) in
  inject_Z lo / scale <= x -> inject_Z lo / scale <= Py.round_to x ndigits.
Proof.
  intros scale H. unfold Py.round_to. fold scale.
  assert (Hs : 0 < scale).
  { unfold scale. rewrite <- (Zlt_Qlt 0). apply Z.pow_pos_nonneg; lia. }
  apply Qmult_le_compat_r; [|apply Qlt_le_weak; now apply Qinv_lt_0_compat].
  rewrite <- Zle_Qle. apply PyFacts.round_lower.
  now apply PyFacts.div_le_mult.
Qed.

Lemma min_comp_l (a a' b : Q) : a == a' -> Py.min a b == Py.min a' b.
Proof.
  intros E. apply Qle_antisym; apply min_mono_l; rewrite E; apply Qle_refl.
Qed.

(** The time factor [min(hours / 168, 1.0)]. *)
Lemma time_factor_mono (h h' : Q) :
  h <= h' -> Py.min (h / 168) 1.0 <= Py.min (h' / 168) 1.0.
Proof.
  intros H. apply min_mono_l.
  apply Qmult_le_compat_r; [exact H | now compute].
Qed.

Lemma time_factor_saturated (h : Q) : 168 <= h -> Py.min (h / 168) 1.0 == 1.
Proof.
  intros H. rewrite PyFacts.min_right; [reflexivity|].
  apply Qle_shift_div_l; [reflexivity | lra].
Qed.

Lemma time_factor_nonneg (h : Q) : 0 <= h -> 0 <= Py.min (h / 168) 1.0.
Proof.
  intros H. apply PyFacts.min_glb; [|now compute].
  apply Qle_shift_div_l; [reflexivity | lra].
Qed.

(** X5.  With the configured weights the severity of a complaint never
    decreases as the time unresolved grows and stays the same from 168
    hours on; it is at most 0.71 whatever the text, the place and the age,
    so the score alone never gives the priority critical; for a
    non-negative age it is at least 0.24. *)
Theorem severity_over_time (text category : string) (latitude longitude : Q) :
  let severity := calculate_severity_score SEVERITY_WEIGHTS text category
                                           latitude longitude in
  (forall h h', h <= h' -> severity h <= severity h')
  /\ (forall h, 168 <= h -> severity h = severity 168)
  /\ (forall h, severity h <= 0.71)
  /\ (forall h, 0 <= h -> 0.24 <= severity h)
  /\ (forall h, get_priority_from_score (severity h) <> "critical").
Proof.
  cbv zeta.
  unfold calculate_severity_score, calculate_location_importance,
    get_nearby_complaint_factor.
  cbn [keyword_urgency nearby_complaints time_unresolved location_importance
       SEVERITY_WEIGHTS].
  destruct (AIServiceProofs.calculate_keyword_urgency_bounds text) as [Ulo Uhi].
  set (u := calculate_keyword_urgency text) in *. clearbody u.
  assert (Hupper : forall h,
            Py.round_to
              (Py.min (0.3 * u + 0.2 * 0.3 + 0.2 * Py.min (h / 168) 1.0 + 0.3 * 0.5) 1.0) 3
            <= 0.71).
  { intros h.
    pose proof (PyFacts.min_le_r (h / 168) 1.0) as Ht.
    set (f := Py.min (h / 168) 1.0) in *. clearbody f.
    eapply Qle_trans; [apply (round_to_le 710)|now compute].
    eapply Qle_trans; [apply PyFacts.min_le_l|].
    apply Qle_trans with 0.71; [lra | now compute]. }
  split; [|split; [|split; [exact Hupper|split]]].
  - intros h h' Hh. apply round_to_mono, min_mono_l.
    pose proof (time_factor_mono h h' Hh) as Ht.
    set (f := Py.min (h / 168) 1.0) in *.
    set (f' := Py.min (h' / 168) 1.0) in *. lra.
  - intros h Hh. apply PyFacts.round_to_comp, min_comp_l.
    pose proof (time_factor_saturated h Hh) as E1.
    pose proof (time_factor_saturated 168 (Qle_refl 168)) as E2.
    set (f := Py.min (h / 168) 1.0) in *.
    set (f' := Py.min (168 / 168) 1.0) in *.
    rewrite E1, E2. reflexivity.
  - intros h Hh.
    pose proof (time_factor_nonneg h Hh) as Ht.
    pose proof (PyFacts.min_le_r (h / 168) 1.0) as Ht1.
    set (f := Py.min (h / 168) 1.0) in *. clearbody f.
    eapply Qle_trans; [|apply (round_to_ge 240)]; [now compute|].
    apply PyFacts.min_glb; [|now compute].
    apply Qle_trans with 0.24; [now compute | lra].
  - intros h. specialize (Hupper h).
    set (s := Py.round_to _ 3) in *.
    destruct (AIServiceProofs.priority_cases s)
      as [[L _]|[(_ & _ & E)|[(_ & _ & E)|[_ E]]]];
      [exfalso; lra | rewrite E; discriminate ..].
Qed.

(** X6.  Whatever the configured weights, also weights that sum to more
    than 1, the severity score never exceeds 1; with non-negative weights
    and a non-negative time unresolved it is never negative. *)
Theorem severity_clamped (weights : Weights) (text category : string)
        (latitude longitude hours : Q) :
  calculate_severity_score weights text category latitude longitude hours <= 1
  /\ (0 <= keyword_urgency weights -> 0 <= nearby_complaints weights ->
      0 <= time_unresolved weights -> 0 <= location_importance weights ->
      0 <= hours ->
      0 <= calculate_severity_score weights text category latitude longitude hours).
Proof.
  unfold calculate_severity_score, calculate_location_importance,
    get_nearby_complaint_factor.
  split.
  - eapply Qle_trans; [apply (round_to_le 1000)|now compute].
    eapply Qle_trans; [apply PyFacts.min_le_r | now compute].
  - intros Hk Hn Ht Hl Hh.
    eapply Qle_trans; [|apply (round_to_ge 0)]; [now compute|].
    apply Qle_trans with 0; [now compute|].
    apply PyFacts.min_glb; [|now compute].
    destruct (AIServiceProofs.calculate_keyword_urgency_bounds text) as [Ulo _].
    pose proof (time_factor_nonneg hours Hh) as Hf.
    assert (A : 0 <= keyword_urgency weights * calculate_keyword_urgency text).
    { apply Qmult_le_0_compat; [exact Hk | lra]. }
    assert (B : 0 <= nearby_complaints weights * 0.3).
    { apply Qmult_le_0_compat; [exact Hn | now compute]. }
    assert (C : 0 <= time_unresolved weights * Py.min (hours / 168) 1.0).
    { apply Qmult_le_0_compat; assumption. }
    assert (D : 0 <= location_importance weights * 0.5).
    { apply Qmult_le_0_compat; [exact Hl | now compute]. }
    set (a := keyword_urgency weights * calculate_keyword_urgency text) in *.
    set (b := nearby_complaints weights * 0.3) in *.
    set (c := time_unresolved weights * Py.min (hours / 168) 1.0) in *.
    set (d := location_importance weights * 0.5) in *.
    lra.
Qed.

End SeverityProofs.

(* ------------------------------------------------------------------ *)
(** ** Routing to departments and what a submission stores *)

Module SubmissionProofs.
Import AIService Departments Submission.

Lemma known_category_has_department (c : string) :
  In c categories ->
  In (c, get_department_for_category c) CATEGORY_DEPARTMENT_MAP.
Proof.
  intros H. cbn in H.
  repeat (destruct H as [<-|H]; [vm_compute; tauto|]). destruct H.
Qed.

Lemma unknown_category_default (c : string) :
  ~ In c categories -> get_department_for_category c = "General Administration".
Proof.
  intros H. unfold get_department_for_category, CATEGORY_DEPARTMENT_MAP.
  cbn -[String.eqb].
  repeat match goal with
         | |- context [String.eqb ?a c] =>
             destruct (String.eqb_spec a c) as [E|_];
             [exfalso; apply H; rewrite <- E; cbn; tauto|]
         end.
  reflexivity.
Qed.

(** X7.  [process_complaint] keeps the user's category when it is one of
    the eight categories and falls back to the classifier's otherwise; the
    category it returns is always one of the eight, so the department
    lookup always finds its own entry of the map, and any label outside
    the eight would be routed to General Administration. *)
Theorem process_complaint_category_routing
        (weights : Weights) (text : string) (category : option string)
        (latitude longitude : Q) :
  let r := process_complaint weights text category latitude longitude in
  p_ai_category r = fst (classify_category text)
  /\ (forall c, category = Some c -> In c categories -> p_category r = c)
  /\ (forall c, category = Some c -> ~ In c categories ->
                p_category r = p_ai_category r)
  /\ (category = None -> p_category r = p_ai_category r)
  /\ In (p_category r) categories
  /\ In (p_category r, get_department_for_category (p_category r))
        CATEGORY_DEPARTMENT_MAP
  /\ (forall c, ~ In c categories ->
                get_department_for_category c = "General Administration").
Proof.
  cbv zeta. unfold process_complaint.
  pose proof (TextProofs.classifier_category_known text) as Hai.
  destruct (classify_category text) as [ai conf]. cbn [fst] in Hai.
  cbn [p_ai_category p_category fst].
  assert (Hfinal : In (match category with
                       | Some c => if Py.in_list c categories then c else ai
                       | None => ai
                       end) categories).
  { destruct category as [c|]; [|exact Hai].
    destruct (Py.in_list c categories) eqn:E; [|exact Hai].
    now apply EscalationProofs.in_list_In. }
  split; [reflexivity|]. split; [|split; [|split; [|split; [|split]]]].
  - intros c -> Hc. apply EscalationProofs.in_list_In in Hc. now rewrite Hc.
  - intros c -> Hc. apply EscalationProofs.in_list_not_In in Hc. now rewrite Hc.
  - intros ->. reflexivity.
  - exact Hfinal.
  - now apply known_category_has_department.
  - exact unknown_category_default.
Qed.

Lemma submission_priority (text : string) (category : option string)
      (latitude longitude : Q) :
  let r := process_complaint SEVERITY_WEIGHTS text category latitude longitude in
  p_priority r = "medium" \/ p_priority r = "low".
Proof.
  cbv zeta. unfold process_complaint.
  destruct (classify_category text) as [ai conf]. cbn [p_priority].
  set (final := match category with
                | Some c => if Py.in_list c categories then c else ai
                | None => ai
                end).
  destruct (AIServiceProofs.submission_severity_bounds text final latitude longitude)
    as [_ Hhi].
  set (s := calculate_severity_score SEVERITY_WEIGHTS text final latitude longitude 0) in *.
  destruct (AIServiceProofs.priority_cases s)
    as [[L _]|[(L & _ & _)|[(_ & _ & E)|[_ E]]]];
    try (exfalso; lra); rewrite E; auto.
Qed.

(** The priority of a submission and its escalation threshold. *)
Lemma submission_threshold (id now : Z) (text : string) (category : option string)
      (latitude longitude : Q) :
  let c := create_complaint id now text category latitude longitude in
  (72 <= Py.dict_get ComplaintService.thresholds (Complaint.priority c) 72
   <= 168)%Z.
Proof.
  cbv zeta. unfold create_complaint. cbn [Complaint.priority].
  destruct (submission_priority text category latitude longitude) as [E|E];
    rewrite E; vm_compute; split; discriminate.
Qed.

Lemma hours_within (now created k : Z) :
  (now - created <= k * 3600 * 1000000)%Z ->
  ComplaintService.hours_between now created <= inject_Z k.
Proof.
  intros H. unfold ComplaintService.hours_between.
  apply Qle_shift_div_r; [reflexivity|].
  apply Qle_shift_div_r; [reflexivity|].
  change 3600 with (inject_Z 3600). change 1000000 with (inject_Z 1000000).
  rewrite <- !inject_Z_mult, <- Zle_Qle. exact H.
Qed.

Lemma hours_beyond (now created k : Z) :
  (k * 3600 * 1000000 < now - created)%Z ->
  inject_Z k < ComplaintService.hours_between now created.
Proof.
  intros H. unfold ComplaintService.hours_between.
  apply Qlt_shift_div_l; [reflexivity|].
  apply Qlt_shift_div_l; [reflexivity|].
  change 3600 with (inject_Z 3600). change 1000000 with (inject_Z 1000000).
  rewrite <- !inject_Z_mult, <- Zlt_Qlt. exact H.
Qed.

(** [check_escalation] on an open complaint at level 0. *)
Lemma check_escalation_level0 (now : Z) (c : Complaint.t) :
  ComplaintService.is_open c = true ->
  Complaint.escalation_level c = 0%Z ->
  ComplaintService.check_escalation now c
  = if Py.gt (ComplaintService.hours_between now (Complaint.created_at c))
             (inject_Z (Py.dict_get ComplaintService.thresholds
                                    (Complaint.priority c) 72%Z))
    then (true, Complaint.set_escalated_at (Some now)
                  (Complaint.set_escalation_level 1%Z c))
    else (false, c).
Proof.
  intros Hopen Hlevel. unfold ComplaintService.check_escalation.
  rewrite (EscalationProofs.open_not_terminal _ Hopen), Hlevel.
  change (0 =? 0)%Z with true. change (0 =? 1)%Z with false.
  rewrite andb_true_r, andb_false_r.
  now destruct (Py.gt _ _).
Qed.

(** X8.  A complaint as [create_complaint] stores it is open, unassigned
    and at escalation level 0, and its priority is medium or low: the
    escalation check leaves it alone during the first 72 hours after
    submission and moves it to level 1 once more than 168 hours have
    passed. *)
Theorem submitted_complaint_escalation
        (id now : Z) (text : string) (category : option string)
        (latitude longitude : Q) :
  let c := create_complaint id now text category latitude longitude in
  ComplaintService.is_open c = true
  /\ Complaint.officer_id c = None
  /\ Complaint.escalation_level c = 0%Z
  /\ (Complaint.priority c = "medium" \/ Complaint.priority c = "low")
  /\ (forall now', (now' - now <= 72 * 3600 * 1000000)%Z ->
         ComplaintService.check_escalation now' c = (false, c)
         /\ ComplaintService.run_escalation_check now' [c] = (0%Z, [c]))
  /\ (forall now', (168 * 3600 * 1000000 < now' - now)%Z ->
         ComplaintService.check_escalation now' c
         = (true, Complaint.set_escalated_at (Some now')
                    (Complaint.set_escalation_level 1%Z c))).
Proof.
  intros c.
  assert (Hopen : ComplaintService.is_open c = true) by reflexivity.
  assert (Hlevel : Complaint.escalation_level c = 0%Z) by reflexivity.
  pose proof (submission_threshold id now text category latitude longitude) as Hth.
  cbv zeta in Hth. fold c in Hth.
  split; [exact Hopen|]. split; [reflexivity|]. split; [exact Hlevel|].
  split; [apply submission_priority|].
  split.
  - intros now' Hearly.
    assert (Hcheck : ComplaintService.check_escalation now' c = (false, c)).
    { rewrite (check_escalation_level0 now' c Hopen Hlevel).
      assert (Hle : ComplaintService.hours_between now' (Complaint.created_at c)
                    <= inject_Z (Py.dict_get ComplaintService.thresholds
                                             (Complaint.priority c) 72%Z)).
      { eapply Qle_trans; [apply (hours_within now' now 72 Hearly)|].
        rewrite <- Zle_Qle. lia. }
      apply PyFacts.gt_false in Hle. now rewrite Hle. }
    split; [exact Hcheck|].
    cbn [ComplaintService.run_escalation_check]. rewrite Hopen, Hcheck.
    now rewrite RowFacts.flushed_unwritten.
  - intros now' Hlate.
    rewrite (check_escalation_level0 now' c Hopen Hlevel).
    assert (Hgt : inject_Z (Py.dict_get ComplaintService.thresholds
                                        (Complaint.priority c) 72%Z)
                  < ComplaintService.hours_between now' (Complaint.created_at c)).
    { eapply Qle_lt_trans; [|apply (hours_beyond now' now 168 Hlate)].
      rewrite <- Zle_Qle. lia. }
    apply PyFacts.gt_true in Hgt. now rewrite Hgt.
Qed.

Lemma no_dot_no_extension (filename : string) :
  Py.contains "." filename = false -> after_last_dot filename = None.
Proof.
  induction filename as [|c rest IH]; intros H; [reflexivity|].
  cbn [Py.contains] in H. apply orb_false_iff in H. destruct H as [Hp Hr].
  cbn [after_last_dot]. rewrite (IH Hr).
  destruct (Ascii.eqb_spec c "."%char) as [->|_]; [|reflexivity].
  exfalso. cbn in Hp. destruct rest; discriminate.
Qed.

Lemma extension_after_last_dot (stem ext : string) :
  Py.contains "." ext = false ->
  after_last_dot (stem ++ "." ++ ext)%string = Some ext.
Proof.
  intros H. induction stem as [|c stem IH].
  - cbn [String.append after_last_dot].
    change (after_last_dot (String "." ext)) with
      (match after_last_dot ext with
       | Some e => Some e
       | None => if Ascii.eqb "." "." then Some ext else None
       end).
    now rewrite (no_dot_no_extension ext H).
  - change ((String c stem ++ "." ++ ext)%string)
      with (String c (stem ++ "." ++ ext)%string).
    cbn [after_last_dot]. now rewrite IH.
Qed.

(** X9.  [allowed_file] rejects a file name without a dot and otherwise
    decides on the text after the last dot alone, in any letter case: a
    name ending in [.PNG] is accepted, a name ending in [.png.exe] or in
    a dot is rejected, whatever precedes. *)
Theorem allowed_file_last_extension :
  (forall filename, Py.contains "." filename = false ->
                    allowed_file filename = false)
  /\ (forall stem ext, Py.contains "." ext = false ->
         allowed_file (stem ++ "." ++ ext)%string
         = Py.in_list (Py.lower ext) ALLOWED_EXTENSIONS)
  /\ (forall stem, allowed_file (stem ++ ".PNG")%string = true)
  /\ (forall stem, allowed_file (stem ++ ".png.exe")%string = false)
  /\ (forall stem, allowed_file (stem ++ ".")%string = false).
Proof.
  assert (Hrule : forall stem ext, Py.contains "." ext = false ->
            allowed_file (stem ++ "." ++ ext)%string
            = Py.in_list (Py.lower ext) ALLOWED_EXTENSIONS).
  { intros stem ext H. unfold allowed_file.
    now rewrite (extension_after_last_dot stem ext H). }
  split; [|split; [exact Hrule|split; [|split]]].
  - intros filename H. unfold allowed_file.
    now rewrite (no_dot_no_extension filename H).
  - intros stem. apply (Hrule stem "PNG"). reflexivity.
  - intros stem.
    replace (stem ++ ".png.exe")%string with ((stem ++ ".png") ++ "." ++ "exe")%string.
    + apply (Hrule (stem ++ ".png")%string "exe"). reflexivity.
    + clear. induction stem as [|c stem IH]; cbn in *; [reflexivity | now f_equal].
  - intros stem. apply (Hrule stem ""). reflexivity.
Qed.

End SubmissionProofs.

(* ------------------------------------------------------------------ *)
(** ** What escalation keeps and where it leads *)

Module EscalationFrame.
Import ComplaintService Invariants Measures.

Lemma hours_between_mono (now now' created : Z) :
  (now <= now')%Z -> hours_between now created <= hours_between now' created.
Proof.
  intros H. unfold hours_between.
  apply Qmult_le_compat_r; [|now compute].
  apply Qmult_le_compat_r; [|now compute].
  rewrite <- Zle_Qle. lia.
Qed.

Lemma gt_mono_l (a a' b : Q) : a <= a' -> Py.gt a b = true -> Py.gt a' b = true.
Proof.
  intros H G. apply PyFacts.gt_true in G. apply PyFacts.gt_true.
  eapply Qlt_le_trans; eassumption.
Qed.

(** X10.  [check_escalation] writes nothing but the escalation level and
    [escalated_at]; the level never goes down and rises by at most one per
    call, so a level in 0..2 stays in 0..2; [escalated_at] is written only
    by the step from level 0 to level 1. *)
Theorem check_escalation_only_raises (now : Z) (c : Complaint.t) :
  let c' := snd (check_escalation now c) in
  Measures.same_but_escalation c c'
  /\ (Complaint.escalation_level c <= Complaint.escalation_level c'
      <= Complaint.escalation_level c + 1)%Z
  /\ ((0 <= Complaint.escalation_level c <= 2)%Z ->
      (0 <= Complaint.escalation_level c' <= 2)%Z)
  /\ (Complaint.escalated_at c' = Complaint.escalated_at c
      \/ (Complaint.escalated_at c' = Some now
          /\ Complaint.escalation_level c = 0%Z
          /\ Complaint.escalation_level c' = 1%Z)).
Proof.
  cbv zeta. unfold Measures.same_but_escalation.
  destruct (EscalationProofs.check_escalation_outcomes now c)
    as [H|[[H1 H]|[H1 H]]];
    rewrite H; cbn [snd]; destruct c; cbn in *; subst;
    repeat split; try lia; auto.
Qed.

(** X11.  Escalation is monotone in the clock: a complaint that
    [check_escalation] escalates at one instant is also escalated when the
    check runs on the same complaint at any later instant. *)
Theorem check_escalation_later (now now' : Z) (c : Complaint.t) :
  (now <= now')%Z ->
  fst (check_escalation now c) = true ->
  fst (check_escalation now' c) = true.
Proof.
  intros Hnow. unfold check_escalation.
  destruct (Py.in_list _ _); [auto|].
  pose proof (hours_between_mono now now' (Complaint.created_at c) Hnow) as Hh.
  destruct (Py.gt (hours_between now _) (inject_Z (Py.dict_get _ _ _))
            && (Complaint.escalation_level c =? 0)%Z) eqn:E1.
  - intros _. apply andb_true_iff in E1. destruct E1 as [G L].
    rewrite (gt_mono_l _ _ _ Hh G), L. reflexivity.
  - destruct (Py.gt (hours_between now _) (inject_Z (_ * 2))
              && (Complaint.escalation_level c =? 1)%Z) eqn:E2;
      [|discriminate].
    intros _. apply andb_true_iff in E2. destruct E2 as [G L].
    rewrite (gt_mono_l _ _ _ Hh G), L.
    apply Z.eqb_eq in L. rewrite L. change (1 =? 0)%Z with false.
    rewrite andb_false_r. reflexivity.
Qed.

Lemma check_escalation_later_stale_critical :
  (Scenarios.nine_hours <= Scenarios.nine_hours + 1)%Z
  /\ fst (check_escalation Scenarios.nine_hours Scenarios.stale_critical) = true
  /\ fst (check_escalation (Scenarios.nine_hours + 1) Scenarios.stale_critical)
     = true.
Proof.
  assert (H1 : (Scenarios.nine_hours <= Scenarios.nine_hours + 1)%Z) by lia.
  assert (H2 : fst (check_escalation Scenarios.nine_hours Scenarios.stale_critical)
               = true) by reflexivity.
  split; [exact H1|]. split; [exact H2|].
  exact (check_escalation_later _ _ Scenarios.stale_critical H1 H2).
Defined.

Lemma step_frame (now : Z) (c : Complaint.t) :
  let c' := snd (step now c) in
  Measures.same_but_escalation_and_stamp c c'
  /\ (Complaint.escalation_level c <= Complaint.escalation_level c'
      <= Complaint.escalation_level c + 1)%Z
  /\ (is_open c = false -> c' = c)
  /\ (Complaint.escalation_level c' = Complaint.escalation_level c -> c' = c)
  /\ (Complaint.escalation_level c' <> Complaint.escalation_level c ->
      Complaint.updated_at c' = Some now)
  /\ (Complaint.escalated_at c' = Complaint.escalated_at c
      \/ (Complaint.escalated_at c' = Some now
          /\ Complaint.escalation_level c = 0%Z))
  /\ fst (step now c) = level_changed (c, c')
  /\ (fst (step now c) = true -> is_open c = true).
Proof.
  cbv zeta. unfold Measures.same_but_escalation_and_stamp, level_changed.
  destruct (EscalationProofs.step_outcomes now c)
    as [H|[(Ho & H1 & H)|(Ho & H1 & H)]];
    rewrite H; cbn [fst snd]; destruct c; cbn in *; subst;
    repeat split; try lia; auto; try congruence;
    try (now rewrite Z.eqb_refl).
Qed.

(** X12.  One run of the escalation driver keeps the rows in place and
    writes nothing but escalation levels, [escalated_at] and, on the rows
    it escalates, the [updated_at] stamp of the UPDATE: a row whose level
    did not change is returned as it was (so are all complaints that are
    not pending or in progress), a row whose level changed carries
    [updated_at = now]; no level goes down or rises by more than one,
    [escalated_at] is written only on a row that leaves level 0, and the
    returned count is the number of rows whose level changed, at most the
    number of open complaints. *)
Theorem run_escalation_check_frame (now : Z) (rows : Table.t) :
  let r := run_escalation_check now rows in
  Forall2 (fun c c' =>
             Measures.same_but_escalation_and_stamp c c'
             /\ (Complaint.escalation_level c <= Complaint.escalation_level c'
                 <= Complaint.escalation_level c + 1)%Z
             /\ (is_open c = false -> c' = c)
             /\ (Complaint.escalation_level c' = Complaint.escalation_level c ->
                 c' = c)
             /\ (Complaint.escalation_level c' <> Complaint.escalation_level c ->
                 Complaint.updated_at c' = Some now)
             /\ (Complaint.escalated_at c' = Complaint.escalated_at c
                 \/ (Complaint.escalated_at c' = Some now
                     /\ Complaint.escalation_level c = 0%Z)))
          rows (snd r)
  /\ fst r = Z.of_nat (List.length (filter level_changed (combine rows (snd r))))
  /\ (0 <= fst r <= Table.count is_open rows)%Z
  /\ (let stale := Scenarios.stale_critical in
      let resolved := Scenarios.created_at_0 "resolved" "critical" 0 in
      run_escalation_check Scenarios.nine_hours [stale; resolved]
      = (1%Z,
         [Complaint.set_updated_at (Some Scenarios.nine_hours)
            (Complaint.set_escalated_at (Some Scenarios.nine_hours)
               (Complaint.set_escalation_level 1%Z stale));
          resolved])).
Proof.
  cbv zeta. split; [|split; [|split]]; [| | |vm_compute; reflexivity].
  - induction rows as [|c rows IH]; [constructor|].
    rewrite EscalationProofs.run_escalation_check_cons. cbn [snd].
    destruct (step_frame now c) as (F1 & F2 & F3 & F4 & F5 & F6 & _).
    cbv zeta in *. constructor; auto 10.
  - induction rows as [|c rows IH]; [reflexivity|].
    rewrite EscalationProofs.run_escalation_check_cons. cbn [fst snd].
    destruct (step_frame now c) as (_ & _ & _ & _ & _ & _ & F7 & _).
    cbv zeta in *. cbn [combine filter]. rewrite <- F7, IH.
    destruct (fst (step now c)); cbn [List.length]; lia.
  - induction rows as [|c rows IH]; [cbn; lia|].
    rewrite EscalationProofs.run_escalation_check_cons. cbn [fst snd].
    destruct (step_frame now c) as (_ & _ & _ & _ & _ & _ & _ & F8).
    unfold Table.count in *. cbn [filter].
    destruct (fst (step now c)) eqn:E.
    + rewrite (F8 eq_refl). cbn [List.length]. lia.
    + destruct (is_open c); cbn [List.length]; lia.
Qed.

(** X13.  Two runs of the driver at one instant bring every open complaint
    that is at level 0 or 1 and older than twice its threshold to level
    2. *)
Theorem run_escalation_check_twice_reaches_level_2 (now : Z) (rows : Table.t) :
  let twice :=
    snd (run_escalation_check now (snd (run_escalation_check now rows))) in
  Forall2 (fun c c2 =>
             is_open c = true ->
             Complaint.escalation_level c = 0%Z
             \/ Complaint.escalation_level c = 1%Z ->
             Py.gt (hours_between now (Complaint.created_at c))
                   (inject_Z (Py.dict_get thresholds (Complaint.priority c) 72%Z * 2))
             = true ->
             Complaint.escalation_level c2 = 2%Z)
          rows twice.
Proof.
  cbv zeta. induction rows as [|c rows IH]; [constructor|].
  rewrite !EscalationProofs.run_escalation_check_cons. cbn [fst snd].
  rewrite !EscalationProofs.run_escalation_check_cons. cbn [fst snd].
  constructor; [|exact IH].
  intros Hopen Hlevel Hpast.
  pose proof (EscalationProofs.past_double_past_single _ _ Hpast) as Hsingle.
  rewrite (EscalationProofs.step_eq now c), Hopen, Hpast, Hsingle.
  unfold is_open in Hopen.
  destruct Hlevel as [L|L]; rewrite L.
  - change (0 =? 0)%Z with true. cbn [andb snd].
    rewrite EscalationProofs.step_eq. unfold is_open.
    cbn [Complaint.status Complaint.priority Complaint.created_at
         Complaint.escalation_level Complaint.set_escalation_level
         Complaint.set_escalated_at Complaint.set_updated_at].
    rewrite Hopen, Hpast, Hsingle. reflexivity.
  - change (1 =? 0)%Z with false. change (1 =? 1)%Z with true.
    cbn [andb snd].
    rewrite EscalationProofs.step_eq. unfold is_open.
    cbn [Complaint.status Complaint.priority Complaint.created_at
         Complaint.escalation_level Complaint.set_escalation_level
         Complaint.set_escalated_at Complaint.set_updated_at].
    rewrite Hopen.
    change (2 =? 0)%Z with false. change (2 =? 1)%Z with false.
    rewrite !andb_false_r. reflexivity.
Qed.

End EscalationFrame.

(* ------------------------------------------------------------------ *)
(** ** Who is assigned, and what linking a duplicate writes *)

Module AssignmentFrame.
Import ComplaintService.

(** X14.  The officer [auto_assign_complaint] returns is a row of the users
    table with the role officer, active, and of the complaint's department;
    the call writes nothing on the complaint but [officer_id], and nothing
    at all when it returns no officer. *)
Theorem auto_assign_complaint_eligible
        (users : list User.t) (complaints : Table.t) (complaint : Complaint.t) :
  match auto_assign_complaint users complaints complaint with
  | (Some officer, complaint') =>
      In officer users
      /\ User.role officer = "officer"
      /\ User.is_active officer = true
      /\ User.department officer = Complaint.department complaint
      /\ complaint' = Complaint.set_officer_id (Some (User.id officer)) complaint
  | (None, complaint') => complaint' = complaint
  end.
Proof.
  unfold auto_assign_complaint.
  destruct (Complaint.department complaint) as [d|] eqn:Ed; [|reflexivity].
  destruct (String.eqb d ""); [reflexivity|].
  destruct (officers_of d users) as [|o rest] eqn:Eo; [reflexivity|].
  cbn [fold_left]. unfold select_step at 2.
  destruct (AssignmentProofs.select_loop complaints rest [] [] o)
    as (before & best & after & H1 & H2 & _).
  - intros o' [].
  - intros o' [].
  - rewrite H2.
    assert (Hin : In best (officers_of d users)).
    { rewrite Eo. cbn in H1. rewrite H1. apply in_or_app. right. now left. }
    unfold officers_of in Hin. apply filter_In in Hin. destruct Hin as [Hu Hf].
    apply andb_true_iff in Hf. destruct Hf as [Hf Hact].
    apply andb_true_iff in Hf. destruct Hf as [Hrole Hdept].
    apply String.eqb_eq in Hrole.
    destruct (User.department best) as [bd|]; [|discriminate].
    apply String.eqb_eq in Hdept. subst bd.
    repeat split; assumption.
Qed.

End AssignmentFrame.

Module DuplicateFrame.
Import ComplaintService Invariants Measures.

Lemma update_ids (key : Z) (f : Complaint.t -> Complaint.t) (rows : Table.t) :
  (forall c, Complaint.id (f c) = Complaint.id c) ->
  map Complaint.id (Table.update key f rows) = map Complaint.id rows.
Proof.
  intros H. unfold Table.update. rewrite map_map. apply map_ext.
  intros c. now destruct (Complaint.id c =? key)%Z; rewrite ?H.
Qed.

Lemma update_In (key : Z) (f : Complaint.t -> Complaint.t) (rows : Table.t)
      (c' : Complaint.t) :
  In c' (Table.update key f rows) ->
  exists c, In c rows
            /\ ((Complaint.id c = key /\ c' = f c)
                \/ (Complaint.id c <> key /\ c' = c)).
Proof.
  unfold Table.update. intros H. apply in_map_iff in H.
  destruct H as (c & E & Hin). exists c. split; [exact Hin|].
  destruct (Z.eqb_spec (Complaint.id c) key); [left | right]; auto.
Qed.

Lemma get_In (key : Z) (rows : Table.t) (c : Complaint.t) :
  Table.get key rows = Some c -> In c rows.
Proof.
  induction rows as [|x rows IH]; [discriminate|].
  cbn. destruct (Complaint.id x =? key)%Z.
  - intros H. inversion H. now left.
  - right. auto.
Qed.

(** The session after a call on two different complaints: the row of the
    duplicate linked, and either no write on the original or its score
    boosted. *)
Lemma mark_as_duplicate_rows
      (autoflush : bool) (now : Z) (rows : Table.t) (dup original : Z) :
  dup <> original ->
  let rows1 := Table.update dup (link_in_session autoflush now original) rows in
  let count := seen_duplicates autoflush rows dup original in
  snd (mark_as_duplicate autoflush now rows dup original) = rows1
  \/ exists o severity,
       Table.get original rows = Some o
       /\ Complaint.severity_score o = Some severity
       /\ (0 < count)%Z
       /\ mark_as_duplicate autoflush now rows dup original
          = (Py.Return true,
             Table.update original
               (Complaint.set_severity_score (Some (boosted count severity)))
               rows1).
Proof.
  intros Hne rows1 count.
  rewrite (DuplicateProofs.mark_as_duplicate_session _ _ _ _ _ Hne).
  cbv zeta. fold rows1 count.
  destruct (0 <? count)%Z eqn:Epos; [|now left].
  destruct (Table.get original rows) as [o|]; [|now left].
  destruct (Complaint.severity_score o) as [severity|] eqn:Es; [|now left].
  right. exists o, severity. apply Z.ltb_lt in Epos. auto.
Qed.

(** Row by row. *)
Lemma mark_as_duplicate_get
      (autoflush : bool) (now : Z) (rows : Table.t) (dup original : Z) :
  dup <> original ->
  let rows' := snd (mark_as_duplicate autoflush now rows dup original) in
  let count := seen_duplicates autoflush rows dup original in
  map Complaint.id rows' = map Complaint.id rows
  /\ Table.get dup rows'
     = option_map (link_in_session autoflush now original) (Table.get dup rows)
  /\ (Table.get original rows' = Table.get original rows
      \/ exists o severity,
           Table.get original rows = Some o
           /\ Complaint.severity_score o = Some severity
           /\ (0 < count)%Z
           /\ Table.get original rows'
              = Some (Complaint.set_severity_score
                        (Some (boosted count severity)) o))
  /\ (forall k, k <> dup -> k <> original ->
                Table.get k rows' = Table.get k rows).
Proof.
  intros Hne rows' count. subst rows'.
  pose proof (DuplicateProofs.link_in_session_id autoflush now original) as Hid.
  destruct (mark_as_duplicate_rows autoflush now rows dup original Hne)
    as [E|(o & severity & Ho & Hs & Hpos & E)]; rewrite E; cbn [snd].
  - split; [now apply update_ids|].
    split; [now apply DuplicateProofs.get_update_same|].
    split.
    + left. apply DuplicateProofs.get_update_other; [congruence | exact Hid].
    + intros k Hd _. now apply DuplicateProofs.get_update_other.
  - split; [rewrite !update_ids; [reflexivity | exact Hid | reflexivity]|].
    split.
    { rewrite DuplicateProofs.get_update_other; [|exact Hne | reflexivity].
      now apply DuplicateProofs.get_update_same. }
    split.
    + right. exists o, severity. fold count. split; [exact Ho|]. split; [exact Hs|].
      split; [exact Hpos|].
      rewrite DuplicateProofs.get_update_same by reflexivity.
      rewrite DuplicateProofs.get_update_other; [|congruence | exact Hid].
      now rewrite Ho.
    + intros k Hd Horig.
      rewrite DuplicateProofs.get_update_other; [|exact Horig | reflexivity].
      now apply DuplicateProofs.get_update_other.
Qed.

(** A row already linked to the original is not written again, any other
    row of the duplicate is. *)
Lemma link_already (original : Z) (d : Complaint.t) :
  Complaint.is_duplicate d = true ->
  Complaint.duplicate_of_id d = Some original ->
  link original d = d.
Proof. intros H1 H2. destruct d. cbn in *. now subst. Qed.

Lemma link_new (original : Z) (d : Complaint.t) :
  Complaint.is_duplicate d = false
  \/ Complaint.duplicate_of_id d <> Some original ->
  Complaint.eqb d (link original d) = false.
Proof.
  intros H. unfold Complaint.eqb.
  cbn [link Complaint.is_duplicate Complaint.duplicate_of_id
       Complaint.set_duplicate_of_id Complaint.set_is_duplicate
       Complaint.escalation_level].
  destruct H as [H|H].
  - rewrite H. cbn [Bool.eqb]. rewrite andb_false_r. reflexivity.
  - assert (E : Complaint.opt_eqb Z.eqb (Complaint.duplicate_of_id d) (Some original)
                = false).
    { destruct (Complaint.duplicate_of_id d) as [k|]; [|reflexivity].
      cbn. apply Z.eqb_neq. congruence. }
    rewrite E, andb_false_r. reflexivity.
Qed.

(** X15.  A call of [mark_as_duplicate] on two different complaints keeps
    the rows and their keys.  On the duplicate it writes
    [is_duplicate = True] and [duplicate_of_id = original.id]; when the
    session flushes before the count query and the link is new, the UPDATE
    also stamps [updated_at] with the current time; no other column of
    the duplicate changes, and a duplicate already linked is not written
    at all.  On the original it writes at most the severity score, and it
    leaves every other complaint as it was. *)
Theorem mark_as_duplicate_writes
        (autoflush : bool) (now : Z) (rows : Table.t) (dup original : Z) :
  dup <> original ->
  let rows' := snd (mark_as_duplicate autoflush now rows dup original) in
  map Complaint.id rows' = map Complaint.id rows
  /\ (forall d, Table.get dup rows = Some d ->
        exists d',
          Table.get dup rows' = Some d'
          /\ Complaint.set_updated_at (Complaint.updated_at d) d'
             = Complaint.set_duplicate_of_id (Some original)
                 (Complaint.set_is_duplicate true d)
          /\ (autoflush = false ->
              Complaint.updated_at d' = Complaint.updated_at d)
          /\ (Complaint.is_duplicate d = true ->
              Complaint.duplicate_of_id d = Some original -> d' = d)
          /\ (autoflush = true ->
              Complaint.is_duplicate d = false
              \/ Complaint.duplicate_of_id d <> Some original ->
              Complaint.updated_at d' = Some now))
  /\ (forall o, Table.get original rows = Some o ->
        exists o', Table.get original rows' = Some o'
                   /\ Complaint.set_severity_score (Complaint.severity_score o) o'
                      = o)
  /\ (forall k, k <> dup -> k <> original ->
                Table.get k rows' = Table.get k rows).
Proof.
  intros Hne rows'.
  destruct (mark_as_duplicate_get autoflush now rows dup original Hne)
    as (Hids & Hdup & Horig & Hother).
  fold rows' in Hids, Hdup, Horig, Hother.
  split; [exact Hids|]. split; [|split; [|exact Hother]].
  - intros d Hd. rewrite Hdup, Hd. cbn [option_map].
    eexists. split; [reflexivity|].
    fold (link original d).
    unfold link_in_session. destruct autoflush.
    + split; [apply RowFacts.flushed_columns
                with (c' := link original d)|].
      split; [discriminate|]. split.
      * intros H1 H2. rewrite (link_already original d H1 H2).
        apply RowFacts.flushed_unwritten.
      * intros _ Hnew. unfold Complaint.flushed.
        now rewrite (link_new original d Hnew).
    + split; [now destruct d|]. split; [reflexivity|]. split.
      * intros H1 H2. now apply link_already.
      * discriminate.
  - intros o Ho. destruct Horig as [E|(o0 & severity & Ho0 & Hs & _ & E)].
    + exists o. rewrite E. split; [exact Ho | now destruct o].
    + rewrite Ho in Ho0. inversion Ho0; subst o0.
      eexists. split; [exact E|]. now destruct o.
Qed.

Lemma mark_as_duplicate_writes_five_reports :
  2%Z <> 1%Z
  /\ map Complaint.id (snd (mark_as_duplicate true 7 Scenarios.five_reports 2 1))
     = map Complaint.id Scenarios.five_reports
  /\ Table.get 2 (snd (mark_as_duplicate true 7 Scenarios.five_reports 2 1))
     = Some (Complaint.set_updated_at (Some 7%Z)
               (Complaint.set_duplicate_of_id (Some 1%Z)
                  (Complaint.set_is_duplicate true (Scenarios.report 2 0.3)))).
Proof.
  assert (H : 2%Z <> 1%Z) by discriminate.
  split; [exact H|].
  split; [exact (proj1 (mark_as_duplicate_writes true 7 Scenarios.five_reports 2 1 H))|].
  reflexivity.
Defined.

(** X16.  [mark_as_duplicate] keeps two invariants of the table, whatever
    the outcome of the call: no complaint is recorded as a duplicate of
    itself, and every severity score lies in [0, 1]; within that range the
    original's score never goes down, and a call never removes or adds a
    score. *)
Theorem mark_as_duplicate_invariants
        (autoflush : bool) (now : Z) (rows : Table.t) (dup original : Z) :
  let rows' := snd (mark_as_duplicate autoflush now rows dup original) in
  (no_self_duplicate rows -> no_self_duplicate rows')
  /\ (severities_in_range rows -> severities_in_range rows')
  /\ (severities_in_range rows ->
      forall o o' severity severity',
        Table.get original rows = Some o ->
        Table.get original rows' = Some o' ->
        Complaint.severity_score o = Some severity ->
        Complaint.severity_score o' = Some severity' ->
        severity <= severity')
  /\ (forall o o', Table.get original rows = Some o ->
                   Table.get original rows' = Some o' ->
                   (Complaint.severity_score o = None
                    <-> Complaint.severity_score o' = None)).
Proof.
  cbv zeta.
  destruct (Z.eq_dec dup original) as [E|Hne].
  { subst. unfold mark_as_duplicate. rewrite Z.eqb_refl. cbn [snd].
    split; [auto|]. split; [auto|]. split.
    - intros _ o o' s s' H1 H2 H3 H4. rewrite H1 in H2. inversion H2; subst o'.
      rewrite H3 in H4. inversion H4. apply Qle_refl.
    - intros o o' H1 H2. rewrite H1 in H2. inversion H2. reflexivity. }
  set (count := seen_duplicates autoflush rows dup original).
  pose proof (DuplicateProofs.link_in_session_id autoflush now original) as Hid.
  pose proof (DuplicateProofs.link_in_session_link autoflush now original) as Hlink.
  pose proof (DuplicateProofs.link_in_session_severity autoflush now original)
    as Hsev.
  split; [|split; [|split]].
  - (* no self reference *)
    intros Hinv c' Hin.
    destruct (mark_as_duplicate_rows autoflush now rows dup original Hne)
      as [E|(o & severity & Ho & Hs & Hpos & E)]; rewrite E in Hin; cbn [snd] in Hin.
    + apply update_In in Hin. destruct Hin as (c & Hin & [[Hk ->]|[Hk ->]]).
      * rewrite (proj1 (Hlink c)), Hid. congruence.
      * now apply Hinv.
    + apply update_In in Hin. destruct Hin as (c1 & Hin1 & Hc').
      apply update_In in Hin1. destruct Hin1 as (c & Hin & Hc1).
      specialize (Hinv c Hin).
      destruct Hc1 as [[Hk ->]|[Hk ->]], Hc' as [[Hk' ->]|[Hk' ->]];
        cbn [Complaint.duplicate_of_id Complaint.id Complaint.set_severity_score];
        rewrite ?(proj1 (Hlink c)), ?Hid; try exact Hinv; congruence.
  - (* scores in range *)
    intros Hinv c' s' Hin Hs'.
    destruct (mark_as_duplicate_rows autoflush now rows dup original Hne)
      as [E|(o & severity & Ho & Hs & Hpos & E)]; rewrite E in Hin; cbn [snd] in Hin.
    + apply update_In in Hin. destruct Hin as (c & Hin & [[Hk ->]|[Hk ->]]).
      * rewrite Hsev in Hs'. now apply (Hinv c).
      * now apply (Hinv c).
    + apply update_In in Hin. destruct Hin as (c1 & Hin1 & Hc').
      apply update_In in Hin1. destruct Hin1 as (c & Hin & Hc1).
      destruct Hc' as [[Hk' ->]|[Hk' ->]].
      * cbn [Complaint.severity_score Complaint.set_severity_score] in Hs'.
        inversion Hs'; subst s'. fold count.
        destruct (Hinv o severity (get_In _ _ _ Ho) Hs) as [Hlo Hhi].
        destruct (DuplicateProofs.boosted_bounds count severity Hpos)
          as (B1 & _ & B3).
        assert (Hhi' : severity <= 1.0) by lra.
        specialize (B3 Hhi'). split; lra.
      * destruct Hc1 as [[Hk ->]|[Hk ->]].
        -- rewrite Hsev in Hs'. now apply (Hinv c).
        -- now apply (Hinv c).
  - (* the original's score does not go down *)
    intros Hinv o o' s s' Ho Ho' Hs Hs'.
    destruct (mark_as_duplicate_get autoflush now rows dup original Hne)
      as (_ & _ & [E|(o0 & s0 & Ho0 & Hs0 & Hpos & E)] & _).
    + rewrite E, Ho in Ho'. inversion Ho'; subst o'.
      rewrite Hs in Hs'. inversion Hs'. apply Qle_refl.
    + rewrite Ho in Ho0. inversion Ho0; subst o0.
      rewrite Hs in Hs0. inversion Hs0; subst s0.
      rewrite E in Ho'. inversion Ho'; subst o'.
      cbn [Complaint.severity_score Complaint.set_severity_score] in Hs'.
      inversion Hs'; subst s'. fold count in Hpos |- *.
      destruct (Hinv o s (get_In _ _ _ Ho) Hs) as [Hlo Hhi].
      destruct (DuplicateProofs.boosted_bounds count s Hpos) as (_ & _ & B3).
      apply B3. lra.
  - intros o o' Ho Ho'.
    destruct (mark_as_duplicate_get autoflush now rows dup original Hne)
      as (_ & _ & [E|(o0 & s0 & Ho0 & Hs0 & _ & E)] & _).
    + rewrite E, Ho in Ho'. inversion Ho'. reflexivity.
    + rewrite Ho in Ho0. inversion Ho0; subst o0.
      rewrite E in Ho'. inversion Ho'; subst o'.
      cbn [Complaint.severity_score Complaint.set_severity_score].
      rewrite Hs0. split; discriminate.
Qed.

(** X17.  [mark_as_duplicate] does not look at existing links: after A is
    linked onto B, linking B onto A is accepted as well (it does not
    return [false], and returns [true] when both complaints have a
    severity score) and leaves the two complaints recorded as duplicates
    of each other. *)
Theorem mark_as_duplicate_allows_cycle
        (autoflush : bool) (now : Z) (rows : Table.t) (a b : Z)
        (ra rb : Complaint.t) :
  a <> b ->
  Table.get a rows = Some ra ->
  Table.get b rows = Some rb ->
  let first := mark_as_duplicate autoflush now rows a b in
  let second := mark_as_duplicate autoflush now (snd first) b a in
  fst first <> Py.Return false
  /\ fst second <> Py.Return false
  /\ (Complaint.severity_score ra <> None ->
      Complaint.severity_score rb <> None ->
      fst first = Py.Return true /\ fst second = Py.Return true)
  /\ exists ra' rb',
       Table.get a (snd second) = Some ra'
       /\ Table.get b (snd second) = Some rb'
       /\ Complaint.duplicate_of_id ra' = Some b
       /\ Complaint.duplicate_of_id rb' = Some a
       /\ Complaint.is_duplicate ra' = true
       /\ Complaint.is_duplicate rb' = true.
Proof.
  intros Hne Ha Hb first second.
  assert (Hne' : b <> a) by congruence.
  pose proof (DuplicateProofs.link_in_session_link autoflush now) as Hlink.
  pose proof (DuplicateProofs.link_in_session_severity autoflush now) as Hsev.
  (* the session after the first call *)
  destruct (mark_as_duplicate_get autoflush now rows a b Hne)
    as (_ & Ha1 & Hb1 & _).
  fold first in Ha1, Hb1. rewrite Ha in Ha1. cbn [option_map] in Ha1.
  assert (Hb1' : exists rb1, Table.get b (snd first) = Some rb1
                             /\ (Complaint.severity_score rb <> None ->
                                 Complaint.severity_score rb1 <> None)).
  { destruct Hb1 as [E|(o & s & Ho & Hs & _ & E)].
    - exists rb. rewrite E. auto.
    - eexists. split; [exact E|]. intros _. discriminate. }
  destruct Hb1' as (rb1 & Hb1' & Hscore_b).
  (* the session after the second call *)
  destruct (mark_as_duplicate_get autoflush now (snd first) b a Hne')
    as (_ & Hb2 & Ha2 & _).
  fold second in Hb2, Ha2. rewrite Hb1' in Hb2. cbn [option_map] in Hb2.
  split; [now apply DuplicateProofs.mark_as_duplicate_not_false|].
  split; [now apply DuplicateProofs.mark_as_duplicate_not_false|].
  split.
  - intros Hsa Hsb. split.
    + now apply (DuplicateProofs.mark_as_duplicate_true _ _ _ _ _ rb).
    + apply (DuplicateProofs.mark_as_duplicate_true _ _ _ _ _ _ Hne' Ha1).
      now rewrite Hsev.
  - destruct Ha2 as [E|(o & s & Ho & Hs & _ & E)].
    + rewrite Ha1 in E.
      exists (link_in_session autoflush now b ra),
             (link_in_session autoflush now a rb1).
      split; [exact E|]. split; [exact Hb2|].
      split; [apply Hlink|]. split; [apply Hlink|]. split; apply Hlink.
    + rewrite Ha1 in Ho. inversion Ho; subst o.
      eexists. exists (link_in_session autoflush now a rb1).
      split; [exact E|]. split; [exact Hb2|].
      cbn [Complaint.duplicate_of_id Complaint.is_duplicate
           Complaint.set_severity_score].
      split; [apply Hlink|]. split; [apply Hlink|]. split; apply Hlink.
Qed.

Lemma mark_as_duplicate_allows_cycle_five_reports :
  1%Z <> 2%Z
  /\ Table.get 1 Scenarios.five_reports = Some (Scenarios.report 1 0.05)
  /\ Table.get 2 Scenarios.five_reports = Some (Scenarios.report 2 0.3)
  /\ fst (mark_as_duplicate true 0
            (snd (mark_as_duplicate true 0 Scenarios.five_reports 1 2)) 2 1)
     = Py.Return true.
Proof.
  assert (H0 : 1%Z <> 2%Z) by discriminate.
  assert (H1 : Table.get 1 Scenarios.five_reports = Some (Scenarios.report 1 0.05))
    by reflexivity.
  assert (H2 : Table.get 2 Scenarios.five_reports = Some (Scenarios.report 2 0.3))
    by reflexivity.
  assert (S1 : Complaint.severity_score (Scenarios.report 1 0.05) <> None)
    by discriminate.
  assert (S2 : Complaint.severity_score (Scenarios.report 2 0.3) <> None)
    by discriminate.
  split; [exact H0|]. split; [exact H1|]. split; [exact H2|].
  exact (proj2 (proj1 (proj2 (proj2
           (mark_as_duplicate_allows_cycle true 0 Scenarios.five_reports
              1 2 _ _ H0 H1 H2))) S1 S2)).
Defined.

End DuplicateFrame.

(* ------------------------------------------------------------------ *)
(** ** Closing stale complaints and resolution statistics *)

Module ResolutionProofs.
Import Resolution.

Lemma resolved_not_open (c : Complaint.t) :
  String.eqb (Complaint.status c) "resolved" = true ->
  ComplaintService.is_open c = false.
Proof.
  intros H. apply String.eqb_eq in H. unfold ComplaintService.is_open.
  now rewrite H.
Qed.

Lemma stale_not_open (threshold : Z) (r : Resolved.t) :
  is_stale threshold r = true ->
  ComplaintService.is_open (Resolved.complaint r) = false.
Proof.
  unfold is_stale. intros H. apply andb_true_iff in H.
  now apply resolved_not_open.
Qed.

(** The row the commit leaves of a stale complaint: closed and stamped. *)
Lemma stale_closed (now threshold : Z) (r : Resolved.t) :
  is_stale threshold r = true ->
  Complaint.flushed now (Resolved.complaint r)
    (Complaint.set_status "closed" (Resolved.complaint r))
  = Complaint.set_updated_at (Some now)
      (Complaint.set_status "closed" (Resolved.complaint r)).
Proof.
  intros H. apply RowFacts.flushed_status.
  unfold is_stale in H. apply andb_true_iff in H. destruct H as [H _].
  apply String.eqb_eq in H. rewrite H. discriminate.
Qed.

(** X18.  [close_stale_resolved] returns the number of complaints that are
    resolved since before the threshold and sets exactly those to closed:
    on such a row it writes [status] and, through the UPDATE that stores
    it, the [updated_at] stamp, and no other column; every other row is
    left as it was.  A complaint is stale when its status is resolved and
    its [resolved_at] lies strictly before [now] minus the threshold in
    days (a resolved complaint without [resolved_at] is not stale).
    Afterwards none is stale, so a second call at the same
    instant returns 0 and changes nothing; and since it only touches
    complaints that are not open, the escalation driver finds the same
    escalations before and after it. *)
Theorem close_stale_resolved_effect (now days_threshold : Z) (rows : list Resolved.t) :
  let threshold := (now - days_us days_threshold)%Z in
  let r := close_stale_resolved now days_threshold rows in
  fst r = Z.of_nat (List.length (filter (is_stale threshold) rows))
  /\ Forall2 (fun a b =>
                (is_stale threshold a = true ->
                 b = Resolved.mk
                       (Complaint.set_updated_at (Some now)
                          (Complaint.set_status "closed" (Resolved.complaint a)))
                       (Resolved.resolved_at a))
                /\ (is_stale threshold a = false -> b = a))
             rows (snd r)
  /\ (forall b, In b (snd r) -> is_stale threshold b = false)
  /\ close_stale_resolved now days_threshold (snd r) = (0%Z, snd r)
  /\ (forall clock,
        fst (ComplaintService.run_escalation_check clock
               (map Resolved.complaint (snd r)))
        = fst (ComplaintService.run_escalation_check clock
                 (map Resolved.complaint rows)))
  /\ (forall a,
        is_stale threshold a = true <->
        Complaint.status (Resolved.complaint a) = "resolved"
        /\ exists t, Resolved.resolved_at a = Some t
                     /\ (t < now - days_threshold * 86400 * 1000000)%Z).
Proof.
  cbv zeta. unfold close_stale_resolved. cbn [fst snd].
  set (threshold := (now - days_us days_threshold)%Z).
  set (close := fun r : Resolved.t =>
                  if is_stale threshold r
                  then Resolved.mk
                         (Complaint.flushed now (Resolved.complaint r)
                            (Complaint.set_status "closed" (Resolved.complaint r)))
                         (Resolved.resolved_at r)
                  else r).
  assert (Hclose : forall a,
            (is_stale threshold a = true ->
             close a = Resolved.mk
                         (Complaint.set_updated_at (Some now)
                            (Complaint.set_status "closed" (Resolved.complaint a)))
                         (Resolved.resolved_at a))
            /\ (is_stale threshold a = false -> close a = a)).
  { intros a. unfold close. destruct (is_stale threshold a) eqn:E.
    - split; [|discriminate]. intros _. now rewrite (stale_closed now threshold a E).
    - split; [discriminate | reflexivity]. }
  assert (Hclean : forall b, In b (map close rows) -> is_stale threshold b = false).
  { intros b Hb. apply in_map_iff in Hb. destruct Hb as (a & <- & _).
    destruct (is_stale threshold a) eqn:E.
    - rewrite (proj1 (Hclose a) E). reflexivity.
    - now rewrite (proj2 (Hclose a) E). }
  split; [reflexivity|]. split; [|split; [exact Hclean|split; [|split]]].
  - clear Hclean. induction rows as [|a rows IH]; cbn [map]; constructor.
    + apply Hclose.
    + exact IH.
  - assert (Hnone : filter (is_stale threshold) (map close rows) = []).
    { generalize (map close rows) Hclean. clear.
      induction l as [|x l IH]; intros H; [reflexivity|].
      cbn [filter]. rewrite (H x (or_introl eq_refl)). apply IH.
      intros b Hb. apply H. now right. }
    rewrite Hnone. cbn [List.length Z.of_nat]. f_equal.
    generalize (map close rows) Hclean. clear.
    induction l as [|x l IH]; intros H; [reflexivity|].
    cbn [map]. unfold close at 1. rewrite (H x (or_introl eq_refl)).
    f_equal. apply IH. intros b Hb. apply H. now right.
  - intros clock. clear Hclean. induction rows as [|a rows IH]; [reflexivity|].
    cbn [map]. rewrite !EscalationProofs.run_escalation_check_cons.
    cbn [fst]. rewrite IH. f_equal.
    destruct (is_stale threshold a) eqn:E; [|now rewrite (proj2 (Hclose a) E)].
    rewrite (proj1 (Hclose a) E).
    unfold Invariants.step. cbn [Resolved.complaint].
    rewrite (stale_not_open _ _ E).
    change (ComplaintService.is_open
              (Complaint.set_updated_at (Some now)
                 (Complaint.set_status "closed" (Resolved.complaint a))))
      with false.
    reflexivity.
  - intros a. unfold is_stale, threshold, days_us.
    rewrite andb_true_iff, String.eqb_eq.
    destruct (Resolved.resolved_at a) as [t|].
    + rewrite Z.ltb_lt. split.
      * intros [H1 H2]. split; [exact H1|]. exists t. auto.
      * intros (H1 & t' & Ht & H2). inversion Ht; subst t'. auto.
    + split.
      * intros [_ F]. discriminate F.
      * intros (_ & t & F & _). discriminate F.
Qed.

Lemma filter_length_le {A : Type} (p q : A -> bool) (l : list A) :
  (forall x, In x l -> p x = true -> q x = true) ->
  (List.length (filter p l) <= List.length (filter q l))%nat.
Proof.
  induction l as [|x l IH]; intros H; [cbn; lia|].
  assert (IH' : (List.length (filter p l) <= List.length (filter q l))%nat).
  { apply IH. intros y Hy. apply H. now right. }
  cbn. destruct (p x) eqn:Ep.
  - rewrite (H x (or_introl eq_refl) Ep). cbn. lia.
  - destruct (q x); cbn; lia.
Qed.

Lemma sum_nonneg (values : list Q) :
  (forall v, In v values -> 0 <= v) -> 0 <= fold_right Qplus 0 values.
Proof.
  induction values as [|v values IH]; intros H; cbn; [apply Qle_refl|].
  assert (0 <= v) by (apply H; now left).
  assert (0 <= fold_right Qplus 0 values) by (apply IH; intros; apply H; now right).
  lra.
Qed.

(** X19.  [get_resolution_stats] never divides by zero: without a complaint
    created in the period the rate is 0.  The rate is never negative; it is
    at most 100 when every complaint resolved in the period was also
    created in it (the resolved count is taken over all complaints,
    whatever their creation date); and the average resolution time is not
    negative when no complaint is resolved before it is created. *)
Theorem get_resolution_stats_rate (now days : Z) (rows : list Resolved.t) :
  let start_date := (now - days_us days)%Z in
  let s := get_resolution_stats now days rows in
  (total s = 0%Z -> resolution_rate s = 0)
  /\ 0 <= resolution_rate s
  /\ ((forall r, In r rows -> resolved_since start_date r = true ->
         (start_date <=? Complaint.created_at (Resolved.complaint r))%Z = true) ->
      (resolved s <= total s)%Z /\ resolution_rate s <= 100)
  /\ ((forall r t, In r rows -> Resolved.resolved_at r = Some t ->
         (Complaint.created_at (Resolved.complaint r) <= t)%Z) ->
      0 <= avg_resolution_hours s)
  /\ (rows = [] -> resolution_rate s = 0 /\ avg_resolution_hours s == 0).
Proof.
  cbv zeta. unfold get_resolution_stats.
  cbn [total resolved resolution_rate avg_resolution_hours].
  set (start_date := (now - days_us days)%Z).
  set (created := filter _ rows).
  set (done := filter (resolved_since start_date) rows).
  set (n := Z.of_nat (List.length created)).
  set (m := Z.of_nat (List.length done)).
  assert (Hm : 0 <= inject_Z m) by (rewrite <- (Zle_Qle 0); unfold m; lia).
  split; [|split; [|split; [|split]]].
  - intros ->. reflexivity.
  - destruct (0 <? n)%Z eqn:E; [|apply Qle_refl].
    apply Z.ltb_lt in E.
    eapply Qle_trans; [|apply (SeverityProofs.round_to_ge 0)]; [now compute|].
    apply Qle_trans with 0; [now compute|].
    apply Qmult_le_0_compat; [|now compute].
    apply Qle_shift_div_l; [now rewrite <- (Zlt_Qlt 0) | lra].
  - intros Hsub.
    assert (Hle : (m <= n)%Z).
    { unfold m, n, done, created. apply inj_le. apply filter_length_le. exact Hsub. }
    split; [exact Hle|].
    destruct (0 <? n)%Z eqn:E; [|now compute].
    apply Z.ltb_lt in E.
    eapply Qle_trans; [apply (SeverityProofs.round_to_le 10000)|now compute].
    apply Qle_trans with 100; [|now compute].
    assert (Hq : inject_Z m / inject_Z n <= 1).
    { apply Qle_shift_div_r; [now rewrite <- (Zlt_Qlt 0)|].
      rewrite Qmult_1_l, <- Zle_Qle. exact Hle. }
    set (q := inject_Z m / inject_Z n) in *. lra.
  - intros Horder.
    eapply Qle_trans; [|apply (SeverityProofs.round_to_ge 0)]; [now compute|].
    apply Qle_trans with 0; [now compute|].
    unfold avg_or_zero.
    destruct (map resolution_hours done) as [|v values] eqn:Ev; [apply Qle_refl|].
    apply Qle_shift_div_l.
    + rewrite <- (Zlt_Qlt 0). cbn [List.length]. lia.
    + rewrite Qmult_0_l. apply sum_nonneg. rewrite <- Ev.
      intros x Hx. apply in_map_iff in Hx. destruct Hx as (r & <- & Hr).
      apply filter_In in Hr. destruct Hr as [Hr _].
      unfold resolution_hours.
      destruct (Resolved.resolved_at r) as [t|] eqn:Et; [|apply Qle_refl].
      specialize (Horder r t Hr Et).
      unfold ComplaintService.hours_between.
      apply Qle_shift_div_l; [reflexivity|].
      apply Qle_shift_div_l; [reflexivity|].
      rewrite !Qmult_0_l, <- (Zle_Qle 0). lia.
  - intros ->. split; reflexivity.
Qed.

End ResolutionProofs.

(* ------------------------------------------------------------------ *)
(** ** Similar complaints in the vicinity *)

Module VicinityProofs.
Import Vicinity.

Lemma lt_true (a b : Q) : lt a b = true <-> a < b.
Proof. unfold lt. apply (PyFacts.gt_true b a). Qed.

(** X20.  [get_similar_complaints] returns only open complaints of the
    category asked for, each less than [radius_km / 111] degrees away in
    latitude and in longitude; it returns nothing for a radius that is not
    positive, and a greater radius returns every complaint a smaller one
    returns. *)
Theorem get_similar_complaints_box
        (complaints : Table.t) (latitude longitude : Q) (category : string)
        (radius_km : Q) :
  let found := get_similar_complaints complaints latitude longitude category
                                      radius_km in
  (forall c, In c found ->
     In c complaints
     /\ Complaint.category c = category
     /\ In (Complaint.status c) ["pending"; "in_progress"]
     /\ Qabs (Complaint.latitude c - latitude) < radius_km / 111
     /\ Qabs (Complaint.longitude c - longitude) < radius_km / 111)
  /\ (radius_km <= 0 -> found = [])
  /\ (forall wider, radius_km <= wider ->
        incl found
             (get_similar_complaints complaints latitude longitude category wider)).
Proof.
  cbv zeta. unfold get_similar_complaints.
  split; [|split].
  - intros c Hc. apply filter_In in Hc. destruct Hc as [Hin Hf].
    apply andb_true_iff in Hf. destruct Hf as [Hf Hlng].
    apply andb_true_iff in Hf. destruct Hf as [Hf Hlat].
    apply andb_true_iff in Hf. destruct Hf as [Hcat Hopen].
    apply String.eqb_eq in Hcat. apply lt_true in Hlat, Hlng.
    apply EscalationProofs.in_list_In in Hopen. auto.
  - intros Hr.
    induction complaints as [|c cs IH]; [reflexivity|].
    cbn [filter].
    assert (Hno : lt (Qabs (Complaint.latitude c - latitude)) (radius_km / 111)
                  = false).
    { unfold lt. apply negb_false_iff. apply Qle_bool_iff.
      apply Qle_trans with 0; [|apply Qabs_nonneg].
      apply Qle_shift_div_r; [reflexivity | lra]. }
    rewrite Hno, andb_false_r. cbn [andb]. exact IH.
  - intros wider Hw c Hc. apply filter_In in Hc. destruct Hc as [Hin Hf].
    apply filter_In. split; [exact Hin|].
    apply andb_true_iff in Hf. destruct Hf as [Hf Hlng].
    apply andb_true_iff in Hf. destruct Hf as [Hf Hlat].
    rewrite Hf. cbn [andb].
    assert (Hdiv : radius_km / 111 <= wider / 111).
    { apply Qmult_le_compat_r; [exact Hw | now compute]. }
    apply lt_true in Hlat, Hlng.
    apply andb_true_iff. split; apply lt_true; eapply Qlt_le_trans; eassumption.
Qed.

End VicinityProofs.

(* ------------------------------------------------------------------ *)
(** ** The workload summary *)

Module WorkloadProofs.
Import Workload Measures.

Lemma department_eqb_eq (a b : option string) :
  department_eqb a b = true <-> a = b.
Proof.
  destruct a as [x|], b as [y|]; cbn; try (split; congruence).
  rewrite String.eqb_eq. split; congruence.
Qed.

Lemma seen_In (d : option string) (seen : list (option string)) :
  existsb (department_eqb d) seen = true <-> In d seen.
Proof.
  rewrite existsb_exists. split.
  - intros (x & Hx & E). apply department_eqb_eq in E. now subst.
  - intros H. exists d. split; [exact H | now apply department_eqb_eq].
Qed.

(** The groups: every department value of the table that was not seen
    before, once. *)
Lemma groups_spec (complaints : Table.t) :
  forall seen,
    NoDup (groups seen complaints)
    /\ forall d, In d (groups seen complaints) <->
                 In d (map Complaint.department complaints) /\ ~ In d seen.
Proof.
  induction complaints as [|c cs IH]; intros seen.
  - cbn. split; [constructor | tauto].
  - cbn [groups map].
    destruct (existsb (department_eqb (Complaint.department c)) seen) eqn:E.
    + apply seen_In in E. destruct (IH seen) as [Hnd Hin]. split; [exact Hnd|].
      intros d. rewrite Hin. cbn. split; [tauto|].
      intros [[<-|H] Hs]; [contradiction | tauto].
    + assert (Hnot : ~ In (Complaint.department c) seen).
      { intros F. apply seen_In in F. congruence. }
      destruct (IH (Complaint.department c :: seen)) as [Hnd Hin]. split.
      * constructor; [|exact Hnd]. rewrite Hin. cbn. tauto.
      * intros d. cbn. rewrite Hin. cbn.
        destruct (department_eqb (Complaint.department c) d) eqn:Ed.
        -- apply department_eqb_eq in Ed. subst d. tauto.
        -- assert (Complaint.department c <> d).
           { intros F. apply department_eqb_eq in F. congruence. }
           tauto.
Qed.

Lemma summary_of_groups (complaints : Table.t) (ds : list (option string))
      (name : string) (load : t) :
  In (name, load)
     (flat_map (fun d => match d with
                         | Some n => if String.eqb n "" then []
                                     else [(n, aggregate complaints d)]
                         | None => []
                         end) ds)
  <-> In (Some name) ds /\ name <> "" /\ load = aggregate complaints (Some name).
Proof.
  rewrite in_flat_map. split.
  - intros (d & Hd & Hin). destruct d as [n|]; [|destruct Hin].
    destruct (String.eqb_spec n "") as [|Hn]; [destruct Hin|].
    destruct Hin as [E|[]]. inversion E; subst. auto.
  - intros (Hd & Hn & ->). exists (Some name). split; [exact Hd|].
    destruct (String.eqb_spec name "") as [|_]; [contradiction | now left].
Qed.

Lemma summary_keys (complaints : Table.t) (ds : list (option string)) :
  NoDup ds ->
  NoDup (map fst
           (flat_map (fun d => match d with
                               | Some n => if String.eqb n "" then []
                                           else [(n, aggregate complaints d)]
                               | None => []
                               end) ds)).
Proof.
  induction ds as [|d ds IH]; intros Hnd; [constructor|].
  apply NoDup_cons_iff in Hnd. destruct Hnd as [Hout Hnd].
  cbn [flat_map]. rewrite map_app. specialize (IH Hnd).
  destruct d as [n|]; [|exact IH].
  destruct (String.eqb n ""); [exact IH|].
  cbn. constructor; [|exact IH].
  intros Hin. apply in_map_iff in Hin. destruct Hin as ([n' l] & E & Hin).
  cbn in E. subst n'. apply summary_of_groups in Hin. tauto.
Qed.

Lemma status_counts (complaints : Table.t) (p : Complaint.t -> bool) :
  (Table.count (fun c => p c && String.eqb (Complaint.status c) "pending") complaints
   + Table.count (fun c => p c && String.eqb (Complaint.status c) "in_progress")
                 complaints
   <= Table.count p complaints)%Z.
Proof.
  unfold Table.count. induction complaints as [|c cs IH]; [cbn; lia|].
  cbn [filter]. destruct (p c); cbn [andb]; [|exact IH].
  destruct (String.eqb_spec (Complaint.status c) "pending") as [E|_].
  - rewrite E. change (String.eqb "pending" "in_progress") with false.
    cbn [List.length]. lia.
  - destruct (String.eqb (Complaint.status c) "in_progress");
      cbn [List.length]; lia.
Qed.

Lemma sum_single (x : option string) (ds : list (option string)) :
  NoDup ds -> In x ds ->
  fold_right Z.add 0%Z
    (map (fun d => if named d && department_eqb x d then 1 else 0)%Z ds)
  = (if named x then 1 else 0)%Z.
Proof.
  induction ds as [|d ds IH]; intros Hnd Hin; [destruct Hin|].
  apply NoDup_cons_iff in Hnd. destruct Hnd as [Hout Hnd].
  cbn [map fold_right].
  destruct Hin as [->|Hin].
  - assert (Hrest : fold_right Z.add 0%Z
              (map (fun d => if named d && department_eqb x d then 1 else 0)%Z ds)
            = 0%Z).
    { clear - Hout. induction ds as [|d ds IH]; [reflexivity|].
      cbn [map fold_right].
      destruct (department_eqb x d) eqn:E.
      - apply department_eqb_eq in E. subst. exfalso. apply Hout. now left.
      - rewrite andb_false_r, IH; [reflexivity|].
        intros F. apply Hout. now right. }
    rewrite Hrest.
    assert (Hx : department_eqb x x = true) by now apply department_eqb_eq.
    rewrite Hx, andb_true_r. destruct (named x); reflexivity.
  - rewrite (IH Hnd Hin).
    destruct (department_eqb x d) eqn:E.
    + apply department_eqb_eq in E. subst. contradiction.
    + rewrite andb_false_r. lia.
Qed.

Lemma sum_totals (ds : list (option string)) (complaints : Table.t) :
  NoDup ds ->
  (forall c, In c complaints -> In (Complaint.department c) ds) ->
  fold_right Z.add 0%Z
    (map (fun d => if named d
                   then Table.count (fun c => department_eqb (Complaint.department c) d)
                                    complaints
                   else 0)%Z ds)
  = Table.count (fun c => named (Complaint.department c)) complaints.
Proof.
  intros Hnd. induction complaints as [|c cs IH]; intros Hcover.
  - unfold Table.count. cbn [filter List.length Z.of_nat].
    clear. induction ds as [|d ds IHd]; [reflexivity|].
    cbn [map fold_right]. rewrite IHd. now destruct (named d).
  - assert (Hsplit : forall l : list (option string),
              fold_right Z.add 0%Z
                (map (fun d => if named d
                               then Table.count
                                      (fun c0 => department_eqb (Complaint.department c0) d)
                                      (c :: cs)
                               else 0)%Z l)
              = (fold_right Z.add 0%Z
                   (map (fun d => if named d
                                     && department_eqb (Complaint.department c) d
                                  then 1 else 0)%Z l)
                 + fold_right Z.add 0%Z
                     (map (fun d => if named d
                                    then Table.count
                                           (fun c0 => department_eqb
                                                        (Complaint.department c0) d)
                                           cs
                                    else 0)%Z l))%Z).
    { induction l as [|d l IHl]; [reflexivity|].
      cbn [map fold_right]. rewrite IHl.
      unfold Table.count. cbn [filter].
      destruct (named d); cbn [andb]; [|lia].
      destruct (department_eqb (Complaint.department c) d);
        cbn [List.length]; lia. }
    rewrite Hsplit, IH by (intros x Hx; apply Hcover; now right).
    rewrite (sum_single _ ds Hnd (Hcover c (or_introl eq_refl))).
    unfold Table.count. cbn [filter].
    destruct (named (Complaint.department c)); cbn [List.length]; lia.
Qed.

Lemma summary_total (complaints : Table.t) (ds : list (option string)) :
  fold_right Z.add 0%Z
    (map (fun e => total (snd e))
         (flat_map (fun d => match d with
                             | Some n => if String.eqb n "" then []
                                         else [(n, aggregate complaints d)]
                             | None => []
                             end) ds))
  = fold_right Z.add 0%Z
      (map (fun d => if named d
                     then Table.count
                            (fun c => department_eqb (Complaint.department c) d)
                            complaints
                     else 0)%Z ds).
Proof.
  induction ds as [|d ds IH]; [reflexivity|].
  cbn [flat_map map fold_right]. rewrite map_app.
  assert (Happ : forall a b : list Z,
            fold_right Z.add 0%Z (a ++ b) = (fold_right Z.add 0 a + fold_right Z.add 0 b)%Z).
  { induction a as [|x a IHa]; intros b; cbn; [reflexivity | rewrite IHa; lia]. }
  rewrite Happ, IH.
  destruct d as [n|]; [|reflexivity].
  cbn [named]. destruct (String.eqb n ""); cbn; lia.
Qed.

(** X21.  [get_workload_summary] has one entry per department name that
    occurs in the table, complaints without a department or with an empty
    one being left out; an entry's total is the number of the department's
    complaints, it is positive, and pending plus in-progress never exceed
    it; the totals add up to the number of complaints that have a named
    department. *)
Theorem get_workload_summary_counts (complaints : Table.t) :
  let summary := get_workload_summary complaints in
  NoDup (map fst summary)
  /\ (forall name,
        In name (map fst summary) <->
        name <> "" /\ exists c, In c complaints
                                /\ Complaint.department c = Some name)
  /\ (forall name load, In (name, load) summary ->
        total load
        = Table.count (fun c => department_eqb (Complaint.department c) (Some name))
                      complaints
        /\ (0 < total load)%Z
        /\ (0 <= pending load)%Z
        /\ (0 <= in_progress load)%Z
        /\ (pending load + in_progress load <= total load)%Z)
  /\ fold_right Z.add 0%Z (map (fun e => total (snd e)) summary)
     = Table.count (fun c => named (Complaint.department c)) complaints.
Proof.
  cbv zeta. unfold get_workload_summary.
  destruct (groups_spec complaints []) as [Hnd Hgroups].
  assert (Hmember : forall d, In d (groups [] complaints) <->
                              exists c, In c complaints /\ Complaint.department c = d).
  { intros d. rewrite Hgroups, in_map_iff. cbn. split.
    - intros [(c & E & Hc) _]. eauto.
    - intros (c & Hc & E). split; [eauto | tauto]. }
  split; [now apply summary_keys|]. split; [|split].
  - intros name. rewrite in_map_iff. split.
    + intros ([n load] & E & Hin). cbn in E. subst n.
      apply summary_of_groups in Hin. destruct Hin as (Hd & Hn & _).
      split; [exact Hn | now apply Hmember].
    + intros (Hn & Hc). exists (name, aggregate complaints (Some name)).
      split; [reflexivity|]. apply summary_of_groups.
      split; [now apply Hmember | auto].
  - intros name load Hin. apply summary_of_groups in Hin.
    destruct Hin as (Hd & Hn & ->). cbn [aggregate total pending in_progress].
    split; [reflexivity|]. split; [|split; [|split]].
    + apply Hmember in Hd. destruct Hd as (c & Hc & E).
      unfold Table.count.
      assert (Hf : In c (filter (fun c0 => department_eqb (Complaint.department c0)
                                                          (Some name)) complaints)).
      { apply filter_In. split; [exact Hc|]. now apply department_eqb_eq. }
      destruct (filter _ complaints); [destruct Hf | cbn; lia].
    + unfold Table.count. lia.
    + unfold Table.count. lia.
    + apply status_counts.
  - rewrite summary_total. apply sum_totals; [exact Hnd|].
    intros c Hc. apply Hmember. eauto.
Qed.

End WorkloadProofs.

(* ------------------------------------------------------------------ *)
(** ** More on the hotspots *)

Module HotspotTotals.
Import Analytics Invariants Measures.

















End HotspotTotals.

(* ------------------------------------------------------------------ *)
(** ** The overview and the department comparison *)

Module AnalyticsProofs.

Lemma rate_bounds (resolved total : Z) :
  (0 <= resolved <= total)%Z -> (0 < total)%Z ->
  0 <= Py.round_to (inject_Z resolved / inject_Z total * 100) 2
  /\ Py.round_to (inject_Z resolved / inject_Z total * 100) 2 <= 100.
Proof.
  intros [H0 H1] Hpos.
  assert (Hq0 : 0 <= inject_Z resolved / inject_Z total).
  { apply Qle_shift_div_l; [now rewrite <- (Zlt_Qlt 0)|].
    rewrite Qmult_0_l, <- (Zle_Qle 0). exact H0. }
  assert (Hq1 : inject_Z resolved / inject_Z total <= 1).
  { apply Qle_shift_div_r; [now rewrite <- (Zlt_Qlt 0)|].
    rewrite Qmult_1_l, <- Zle_Qle. exact H1. }
  set (q := inject_Z resolved / inject_Z total) in *.
  split.
  - eapply Qle_trans; [|apply (SeverityProofs.round_to_ge 0)]; [now compute|].
    apply Qle_trans with 0; [now compute | lra].
  - eapply Qle_trans; [apply (SeverityProofs.round_to_le 10000)|now compute].
    apply Qle_trans with 100; [lra | now compute].
Qed.

(** X25.  The overview endpoint and [get_resolution_stats] agree for the
    same period: same total, same resolved count, same resolution rate and
    same average resolution time; the overview's pending figure is the
    number of complaints that are pending or in progress, whatever their
    age. *)
Theorem get_overview_agrees_with_stats (now days : Z) (rows : list Resolved.t) :
  let o := Overview.get_overview now days rows in
  let s := Resolution.get_resolution_stats now days rows in
  Overview.total_complaints o = Resolution.total s
  /\ Overview.resolved o = Resolution.resolved s
  /\ Overview.resolution_rate o == Resolution.resolution_rate s
  /\ Overview.avg_resolution_hours o = Resolution.avg_resolution_hours s
  /\ Overview.pending o
     = Table.count ComplaintService.is_open (map Resolved.complaint rows).
Proof.
  cbv zeta. unfold Overview.get_overview, Resolution.get_resolution_stats.
  cbn [Overview.total_complaints Overview.resolved Overview.resolution_rate
       Overview.avg_resolution_hours Overview.pending Resolution.total
       Resolution.resolved Resolution.resolution_rate
       Resolution.avg_resolution_hours].
  split; [reflexivity|]. split; [reflexivity|]. split; [|split; [reflexivity|]].
  - destruct (0 <? _)%Z; reflexivity.
  - unfold Table.count. f_equal.
    induction rows as [|r rows IH]; [reflexivity|].
    cbn [map filter]. destruct (ComplaintService.is_open _); cbn [List.length]; lia.
Qed.

Import DepartmentAnalytics.

Lemma count_by_status (p : Resolved.t -> bool) (rows : list Resolved.t) :
  count p rows
  = (count (fun r => p r && has_status "resolved" r) rows
     + count (fun r => p r && has_status "pending" r) rows
     + count (fun r => p r && negb (has_status "resolved" r)
                       && negb (has_status "pending" r)) rows)%Z.
Proof.
  unfold count, has_status. induction rows as [|r rows IH]; [reflexivity|].
  cbn [filter]. destruct (p r); cbn [andb]; [|exact IH].
  destruct (String.eqb_spec (Complaint.status (Resolved.complaint r)) "resolved")
    as [E|_].
  - rewrite E. change (String.eqb "resolved" "pending") with false.
    cbn [negb andb List.length]. lia.
  - destruct (String.eqb (Complaint.status (Resolved.complaint r)) "pending");
      cbn [negb andb List.length]; lia.
Qed.

Lemma entries_of_groups (kept : list Resolved.t) (ds : list (option string))
      (e : t) :
  In e (flat_map (fun d => match d with
                           | Some name => [entry kept name]
                           | None => []
                           end) ds)
  <-> exists name, In (Some name) ds /\ e = entry kept name.
Proof.
  rewrite in_flat_map. split.
  - intros (d & Hd & Hin). destruct d as [n|]; [|destruct Hin].
    destruct Hin as [<-|[]]. eauto.
  - intros (name & Hd & ->). exists (Some name). split; [exact Hd | now left].
Qed.

Lemma entries_distinct (kept : list Resolved.t) (ds : list (option string)) :
  NoDup ds ->
  NoDup (map department
             (flat_map (fun d => match d with
                                 | Some name => [entry kept name]
                                 | None => []
                                 end) ds)).
Proof.
  induction ds as [|d ds IH]; intros Hnd; [constructor|].
  apply NoDup_cons_iff in Hnd. destruct Hnd as [Hout Hnd].
  cbn [flat_map]. rewrite map_app. specialize (IH Hnd).
  destruct d as [n|]; [|exact IH].
  cbn. constructor; [|exact IH].
  intros Hin. apply in_map_iff in Hin. destruct Hin as (e & E & Hin).
  apply entries_of_groups in Hin. destruct Hin as (name & Hd & ->).
  cbn in E. subst name. contradiction.
Qed.

(** X26.  [get_department_analytics] returns one entry per department with
    a complaint created in the period.  In every entry the total is
    positive, the rate lies between 0 and 100, and resolved, pending and
    in-progress add up to the total, because the in-progress figure is the
    number of the department's complaints whose status is neither resolved
    nor pending: closed and rejected complaints are reported as in
    progress. *)
Theorem get_department_analytics_entries
        (now days : Z) (rows : list Resolved.t) :
  let start_date := (now - Resolution.days_us days)%Z in
  let kept := selected start_date rows in
  let result := get_department_analytics now days rows in
  NoDup (map department result)
  /\ (forall name,
        In name (map department result) <->
        exists r, In r kept /\ Complaint.department (Resolved.complaint r) = Some name)
  /\ (forall e, In e result ->
        (0 < total e)%Z
        /\ (0 <= resolved e)%Z
        /\ (0 <= pending e)%Z
        /\ (resolved e + pending e + in_progress e = total e)%Z
        /\ in_progress e
           = count (fun r => in_department (department e) r
                             && negb (has_status "resolved" r)
                             && negb (has_status "pending" r)) kept
        /\ 0 <= resolution_rate e
        /\ resolution_rate e <= 100).
Proof.
  cbv zeta. unfold get_department_analytics.
  set (kept := selected (now - Resolution.days_us days) rows).
  destruct (WorkloadProofs.groups_spec (map Resolved.complaint kept) [])
    as [Hnd Hgroups].
  assert (Hmember : forall name,
            In (Some name) (Workload.groups [] (map Resolved.complaint kept)) <->
            exists r, In r kept
                      /\ Complaint.department (Resolved.complaint r) = Some name).
  { intros name. rewrite Hgroups, map_map, in_map_iff. cbn. split.
    - intros [(r & E & Hr) _]. eauto.
    - intros (r & Hr & E). split; [eauto | tauto]. }
  split; [now apply entries_distinct|]. split.
  - intros name. rewrite in_map_iff. split.
    + intros (e & E & Hin). apply entries_of_groups in Hin.
      destruct Hin as (n & Hd & ->). cbn in E. subst n. now apply Hmember.
    + intros Hr. exists (entry kept name). split; [reflexivity|].
      apply entries_of_groups. exists name. split; [now apply Hmember | reflexivity].
  - intros e Hin. apply entries_of_groups in Hin. destruct Hin as (name & Hd & ->).
    cbn [entry total resolved pending in_progress resolution_rate department].
    pose proof (count_by_status (in_department name) kept) as Hsplit.
    set (n := count (in_department name) kept) in *.
    set (a := count (fun r => in_department name r && has_status "resolved" r) kept) in *.
    set (b := count (fun r => in_department name r && has_status "pending" r) kept) in *.
    set (o := count (fun r => in_department name r && negb (has_status "resolved" r)
                              && negb (has_status "pending" r)) kept) in *.
    assert (Ha : (0 <= a)%Z) by (unfold a, count; lia).
    assert (Hb : (0 <= b)%Z) by (unfold b, count; lia).
    assert (Ho : (0 <= o)%Z) by (unfold o, count; lia).
    assert (Hn : (0 < n)%Z).
    { apply Hmember in Hd. destruct Hd as (r & Hr & E).
      assert (Hf : In r (filter (in_department name) kept)).
      { apply filter_In. split; [exact Hr|]. unfold in_department.
        now apply WorkloadProofs.department_eqb_eq. }
      unfold n, count. destruct (filter _ kept); [destruct Hf | cbn; lia]. }
    split; [exact Hn|]. split; [exact Ha|]. split; [exact Hb|].
    split; [lia|]. split; [lia|].
    apply Z.ltb_lt in Hn as Hpos. rewrite Hpos.
    apply rate_bounds; lia.
Qed.

End AnalyticsProofs.
